(** * Virtual-memory simulator core (src/vm.c)

    A shallow embedding of the four operations of src/vm.c
    ([alloc_page], [free_page], [handle_page_fault], [switch_process])
    together with the properties of the reference counts ([mapcounts])
    and of the two-level page tables they maintain.

    Conventions of the embedding.
    - C objects reached through pointers are passed explicitly: the state
      holds the ready queue, the current process, [ptbr] and [mapcounts].
    - [option] is the error monad of undefined behaviour: a NULL
      dereference or an access outside an array yields [None].
    - [unsigned int] counters are integers reduced modulo 2^32 ([wrap32]);
      page and frame numbers, which are only used as array indices, are
      natural numbers.
    - [malloc] does not initialise the memory it returns; the content it
      hands back is an explicit argument of the operations that call it. *)

From stdpp Require Import numbers base option list.

(** ** Machine integers *)

Definition UINT_MAX : Z := 4294967295%Z.

Definition wrap32 (z : Z) : Z := (z mod 4294967296)%Z.

(** Access intents.  The header vm.h is not part of the sources.  The doc
    comment of [alloc_page] names the two intents, and the function makes a
    page writable unless its argument is the literal 1, which is therefore
    the read intent; every other value is handled alike, and 2 stands for
    the write intent. *)
Definition RW_READ : Z := 1%Z.
Definition RW_WRITE : Z := 2%Z.

(** ** Data model *)

(** [struct pte].  The declaration lives in the missing header; the
    fields are those the code accesses.  [private] is only ever assigned 0
    or 1, copied, and compared with 1: it is a boolean here. *)
Record pte := Pte {
  valid : bool;
  writable : bool;
  pfn : nat;
  private : bool
}.

Record pte_directory := PteDirectory { ptes : list pte }.

Record pagetable := Pagetable { outer_ptes : list (option pte_directory) }.

Record process := Process { pid : Z; proc_pagetable : pagetable }.

(** [ptbr] is a pointer to the page table embedded in a process object;
    the code only ever stores [&current->pagetable] in it. *)
Inductive ptbr_target := PtbrCurrent | PtbrOther.

Record state := State {
  processes : list process;   (* ready queue, head first *)
  current : process;
  ptbr : ptbr_target;
  mapcounts : list Z
}.

Definition set_valid (b : bool) (e : pte) : pte :=
  Pte b (writable e) (pfn e) (private e).
Definition set_writable (b : bool) (e : pte) : pte :=
  Pte (valid e) b (pfn e) (private e).
Definition set_pfn (f : nat) (e : pte) : pte :=
  Pte (valid e) (writable e) f (private e).
Definition set_private (b : bool) (e : pte) : pte :=
  Pte (valid e) (writable e) (pfn e) b.

Definition zero_pte : pte := Pte false false 0 false.

(** ** Memory accesses *)

(** [pt->outer_ptes[op]->ptes[ip]] read. *)
Definition read_pte (pt : pagetable) (op_index ip_index : nat) : option pte :=
  slot ← outer_ptes pt !! op_index;
  d ← slot;
  ptes d !! ip_index.

(** [pt->outer_ptes[op]->ptes[ip].field = ...] *)
Definition modify_pte (f : pte → pte) (op_index ip_index : nat)
    (pt : pagetable) : option pagetable :=
  slot ← outer_ptes pt !! op_index;
  d ← slot;
  e ← ptes d !! ip_index;
  Some (Pagetable
          (<[op_index := Some (PteDirectory (<[ip_index := f e]> (ptes d)))]>
             (outer_ptes pt))).

Definition set_current (p : process) (s : state) : state :=
  State (processes s) p (ptbr s) (mapcounts s).

Definition set_mapcounts (mc : list Z) (s : state) : state :=
  State (processes s) (current s) (ptbr s) mc.

Definition cur_pte (s : state) (op_index ip_index : nat) : option pte :=
  read_pte (proc_pagetable (current s)) op_index ip_index.

Definition modify_cur_pte (f : pte → pte) (op_index ip_index : nat)
    (s : state) : option state :=
  pt ← modify_pte f op_index ip_index (proc_pagetable (current s));
  Some (set_current (Process (pid (current s)) pt) s).

(** [mapcounts[i] += d] on [unsigned int]. *)
Definition mapcount_add (i : nat) (d : Z) (mc : list Z) : option (list Z) :=
  c ← mc !! i;
  Some (<[i := wrap32 (c + d)%Z]> mc).

(** The scan [for (i = 0; i < NR_PAGEFRAMES; i++) if (mapcounts[i] == 0)]:
    [first_free mc i n] runs the [n] remaining iterations from index [i]
    and yields the index at which the test succeeds, if any. *)
Fixpoint first_free (mc : list Z) (i n : nat) : option (option nat) :=
  match n with
  | O => Some None
  | S n' =>
      c ← mc !! i;
      if bool_decide (c = 0%Z) then Some (Some i) else first_free mc (S i) n'
  end.

(** [for (i = start; i < start + n; i++) body], without early exit. *)
Fixpoint for_loop {A : Type} (body : nat → A → option A) (i n : nat) (a : A)
    : option A :=
  match n with
  | O => Some a
  | S n' => a' ← body i a; for_loop body (S i) n' a'
  end.

(** The walk [list_for_each_safe] of [switch_process]: the first process
    of the queue with the requested pid, and the queue without it. *)
Fixpoint find_process (target : Z) (l : list process)
    : option (process * list process) :=
  match l with
  | [] => None
  | p :: l' =>
      if bool_decide (pid p = target) then Some (p, l')
      else '(q, rest) ← find_process target l'; Some (q, p :: rest)
  end.

Section Vm.

(** Constants of the missing header vm.h: the number of entries of a
    directory, which is also the number of outer slots the fork loop walks,
    and the number of cells of [mapcounts]. *)
Variable NR_PTES_PER_PAGE : nat.
Variable NR_PAGEFRAMES : nat.

(** [malloc(sizeof(struct pte_directory))]: a directory whose entries hold
    whatever the memory contained, given by [mem]. *)
Definition malloc_directory (mem : nat → pte) : pte_directory :=
  PteDirectory (mem <$> seq 0 NR_PTES_PER_PAGE).

(** The page table inside a [malloc(sizeof(struct process))]: the outer
    slots hold whatever the memory contained, NULL or not. *)
Definition malloc_pagetable (mem : nat → option (nat → pte)) : pagetable :=
  Pagetable ((λ j, malloc_directory <$> mem j) <$> seq 0 NR_PTES_PER_PAGE).

(** ** alloc_page (vm.c, lines 63-92) *)
Definition alloc_page (mem : nat → pte) (vpn : nat) (rw : Z) (s : state)
    : option (Z * state) :=
  let rwflag := bool_decide (rw ≠ 1%Z) in
  let op_index := (vpn / NR_PTES_PER_PAGE) in
  let ip_index := (vpn `mod` NR_PTES_PER_PAGE) in
  slot ← outer_ptes (proc_pagetable (current s)) !! op_index;
  let s1 :=
    match slot with
    | None =>
        set_current
          (Process (pid (current s))
             (Pagetable (<[op_index := Some (malloc_directory mem)]>
                           (outer_ptes (proc_pagetable (current s)))))) s
    | Some _ => s
    end in
  found ← first_free (mapcounts s1) 0 NR_PAGEFRAMES;
  match found with
  | Some i =>
      mc ← mapcount_add i 1%Z (mapcounts s1);
      s2 ← modify_cur_pte (set_valid true) op_index ip_index
             (set_mapcounts mc s1);
      s3 ← modify_cur_pte (set_writable rwflag) op_index ip_index s2;
      s4 ← modify_cur_pte (set_pfn i) op_index ip_index s3;
      s5 ← modify_cur_pte (set_private (if rwflag then true else false))
             op_index ip_index s4;
      Some (Z.of_nat i, s5)
  | None => Some (wrap32 (-1)%Z, s1)
  end.

(** ** free_page (vm.c, lines 104-115) *)
Definition free_page (vpn : nat) (s : state) : option state :=
  let op_index := (vpn / NR_PTES_PER_PAGE) in
  let ip_index := (vpn `mod` NR_PTES_PER_PAGE) in
  s1 ← modify_cur_pte (set_valid false) op_index ip_index s;
  s2 ← modify_cur_pte (set_writable false) op_index ip_index s1;
  s3 ← modify_cur_pte (set_private false) op_index ip_index s2;
  e ← cur_pte s3 op_index ip_index;
  mc ← mapcount_add (pfn e) (-1)%Z (mapcounts s3);
  modify_cur_pte (set_pfn 0) op_index ip_index (set_mapcounts mc s3).

(** ** handle_page_fault (vm.c, lines 134-157) *)
Definition handle_page_fault (vpn : nat) (rw : Z) (s : state)
    : option (bool * state) :=
  let op_index := (vpn / NR_PTES_PER_PAGE) in
  let ip_index := (vpn `mod` NR_PTES_PER_PAGE) in
  e ← cur_pte s op_index ip_index;
  if private e then
    c ← mapcounts s !! pfn e;
    if bool_decide (c = 1%Z) then
      s1 ← modify_cur_pte (set_writable true) op_index ip_index s;
      Some (true, s1)
    else
      found ← first_free (mapcounts s) 0 NR_PAGEFRAMES;
      match found with
      | Some i =>
          mc ← mapcount_add i 1%Z (mapcounts s);
          s1 ← modify_cur_pte (set_writable true) op_index ip_index
                 (set_mapcounts mc s);
          e1 ← cur_pte s1 op_index ip_index;
          mc1 ← mapcount_add (pfn e1) (-1)%Z (mapcounts s1);
          s2 ← modify_cur_pte (set_pfn i) op_index ip_index
                 (set_mapcounts mc1 s1);
          Some (true, s2)
      | None => Some (false, s)
      end
  else Some (false, s).

(** ** switch_process (vm.c, lines 179-220) *)

(** The objects the fork loops work on: the directory tables of the parent
    and of the child, and the reference counts. *)
Record fork_dirs := ForkDirs {
  parent_ptes : list pte;
  child_ptes : list pte;
  dir_counts : list Z
}.

(** Body of the inner loop (lines 203-212) for entry [q]. *)
Definition fork_pte (q : nat) (fd : fork_dirs) : option fork_dirs :=
  e ← parent_ptes fd !! q;
  if valid e then
    c ← child_ptes fd !! q;
    let c1 := set_valid true c in
    let e1 := set_writable false e in
    let c2 := set_writable false c1 in
    let c3 := set_private (private e1) c2 in
    let c4 := set_pfn (pfn e1) c3 in
    mc ← mapcount_add (pfn e1) 1%Z (dir_counts fd);
    Some (ForkDirs (<[q := e1]> (parent_ptes fd)) (<[q := c4]> (child_ptes fd)) mc)
  else Some fd.

Record fork_state := ForkState {
  parent_outer : list (option pte_directory);
  child_outer : list (option pte_directory);
  counts : list Z
}.

(** Body of the outer loop (lines 199-214) for slot [j]. *)
Definition fork_directory (mem : nat → nat → pte) (j : nat) (fs : fork_state)
    : option fork_state :=
  slot ← parent_outer fs !! j;
  match slot with
  | None => Some fs
  | Some pd =>
      _ ← child_outer fs !! j;
      let cd := malloc_directory (mem j) in
      fd ← for_loop fork_pte 0 NR_PTES_PER_PAGE
             (ForkDirs (ptes pd) (ptes cd) (counts fs));
      Some (ForkState
              (<[j := Some (PteDirectory (parent_ptes fd))]> (parent_outer fs))
              (<[j := Some (PteDirectory (child_ptes fd))]> (child_outer fs))
              (dir_counts fd))
  end.

Definition switch_process (proc_mem : nat → option (nat → pte))
    (dir_mem : nat → nat → pte) (target : Z) (s : state) : option state :=
  match find_process target (processes s) with
  | Some (p, rest) =>
      Some (State (rest ++ [current s]) p PtbrCurrent (mapcounts s))
  | None =>
      fs ← for_loop (fork_directory dir_mem) 0 NR_PTES_PER_PAGE
             (ForkState (outer_ptes (proc_pagetable (current s)))
                        (outer_ptes (malloc_pagetable proc_mem))
                        (mapcounts s));
      Some (State
              (processes s ++
                 [Process (pid (current s)) (Pagetable (parent_outer fs))])
              (Process target (Pagetable (child_outer fs)))
              PtbrCurrent
              (counts fs))
  end.

(** ** Shape of the arrays *)

Definition wf_directory (d : pte_directory) : Prop :=
  length (ptes d) = NR_PTES_PER_PAGE.

Definition wf_slot (slot : option pte_directory) : Prop :=
  match slot with Some d => wf_directory d | None => True end.

Definition wf_pagetable (pt : pagetable) : Prop :=
  length (outer_ptes pt) = NR_PTES_PER_PAGE ∧ Forall wf_slot (outer_ptes pt).

(** [mapcounts] has [NR_PAGEFRAMES] cells of type [unsigned int]; every
    page table has [NR_PTES_PER_PAGE] slots and every directory as many
    entries. *)
Definition wf_state (s : state) : Prop :=
  length (mapcounts s) = NR_PAGEFRAMES ∧
  Forall (λ c, (0 ≤ c < 4294967296)%Z) (mapcounts s) ∧
  wf_pagetable (proc_pagetable (current s)) ∧
  Forall (λ p, wf_pagetable (proc_pagetable p)) (processes s).

(** ** Accounting *)

Definition nr_valid_directory (d : pte_directory) : nat :=
  length (filter (λ e, valid e = true) (ptes d)).

Definition nr_valid_pagetable (pt : pagetable) : nat :=
  sum_list ((λ slot, from_option nr_valid_directory 0 slot) <$> outer_ptes pt).

(** Valid entries over the page tables of the current process and of every
    process of the ready queue. *)
Definition nr_valid_ptes (s : state) : nat :=
  nr_valid_pagetable (proc_pagetable (current s)) +
  sum_list ((λ p, nr_valid_pagetable (proc_pagetable p)) <$> processes s).

Definition sum_mapcounts (s : state) : Z := foldr Z.add 0%Z (mapcounts s).

Definition conserved (s : state) : Prop :=
  sum_mapcounts s = Z.of_nat (nr_valid_ptes s).

(** The frames mapped by valid entries, with multiplicity. *)
Definition directory_frames (d : pte_directory) : list nat :=
  pfn <$> filter (λ e, valid e = true) (ptes d).

Definition pagetable_frames (pt : pagetable) : list nat :=
  outer_ptes pt ≫= from_option directory_frames [].

Definition state_frames (s : state) : list nat :=
  pagetable_frames (proc_pagetable (current s)) ++
  (processes s ≫= (λ p, pagetable_frames (proc_pagetable p))).

Definition occurrences (f : nat) (l : list nat) : nat :=
  length (filter (λ x, x = f) l).

(** ** Runs of the four operations *)

Inductive op :=
  | AllocPage (vpn : nat) (rw : Z)
  | FreePage (vpn : nat)
  | HandlePageFault (vpn : nat) (rw : Z)
  | SwitchProcess (target : Z).

(** Zero-filled memory, as a freshly mapped heap provides it. *)
Definition zero_directory_mem : nat → pte := λ _, zero_pte.
Definition zero_process_mem : nat → option (nat → pte) := λ _, None.

Definition exec (o : op) (s : state) : option state :=
  match o with
  | AllocPage vpn rw => snd <$> alloc_page zero_directory_mem vpn rw s
  | FreePage vpn => free_page vpn s
  | HandlePageFault vpn rw => snd <$> handle_page_fault vpn rw s
  | SwitchProcess target =>
      switch_process zero_process_mem (λ _, zero_directory_mem) target s
  end.

Fixpoint run (ops : list op) (s : state) : option state :=
  match ops with
  | [] => Some s
  | o :: ops' => s' ← exec o s; run ops' s'
  end.

(** The state the framework starts from: one process, no mapping, every
    frame free. *)
Definition initial_state : state :=
  State [] (Process 0 (Pagetable (replicate NR_PTES_PER_PAGE None)))
        PtbrCurrent (replicate NR_PAGEFRAMES 0%Z).

(** Calls that respect the preconditions of the operations: [alloc_page]
    on a page that is not mapped, [free_page] on a mapped page, and a fork
    while every count is below 2^31. *)
Definition legal (o : op) (s : state) : bool :=
  match o with
  | AllocPage vpn _ =>
      match cur_pte s (vpn / NR_PTES_PER_PAGE) (vpn `mod` NR_PTES_PER_PAGE) with
      | Some e => negb (valid e)
      | None => true
      end
  | FreePage vpn =>
      match cur_pte s (vpn / NR_PTES_PER_PAGE) (vpn `mod` NR_PTES_PER_PAGE) with
      | Some e => valid e
      | None => false
      end
  | HandlePageFault _ _ => true
  | SwitchProcess target =>
      match find_process target (processes s) with
      | Some _ => true
      | None => forallb (λ c, (c <? 2147483648)%Z) (mapcounts s)
      end
  end.

Fixpoint legal_run (ops : list op) (s : state) : bool :=
  match ops with
  | [] => true
  | o :: ops' =>
      legal o s &&
      match exec o s with
      | Some s' => legal_run ops' s'
      | None => true
      end
  end.

(** The invariant behind the conservation of reference counts. *)
Definition private_implies_valid (pt : pagetable) : Prop :=
  ∀ op_index ip_index e,
    read_pte pt op_index ip_index = Some e → private e = true → valid e = true.

Record accounted (s : state) : Prop := Accounted {
  acc_wf : wf_state s;
  acc_counts : ∀ f, f < NR_PAGEFRAMES →
    mapcounts s !! f = Some (Z.of_nat (occurrences f (state_frames s)));
  acc_range : Forall (λ f, f < NR_PAGEFRAMES) (state_frames s);
  acc_private : Forall (λ p, private_implies_valid (proc_pagetable p))
                  (current s :: processes s)
}.

(** ** Closed forms

    The states the operations produce, written with list updates and maps;
    the properties below relate them to the loops above. *)

(** The page table [pt] after [pt->outer_ptes[op] = d] and
    [d->ptes[ip] = x]. *)
Definition put_pte (pt : pagetable) (op_index ip_index : nat)
    (d : pte_directory) (x : pte) : pagetable :=
  Pagetable
    (<[op_index := Some (PteDirectory (<[ip_index := x]> (ptes d)))]>
       (outer_ptes pt)).

Definition put_cur_pte (s : state) (op_index ip_index : nat)
    (d : pte_directory) (x : pte) : state :=
  set_current
    (Process (pid (current s))
       (put_pte (proc_pagetable (current s)) op_index ip_index d x)) s.

(** The directory [alloc_page] works in: the one in place, or a new one. *)
Definition alloc_directory (mem : nat → pte) (slot : option pte_directory)
    : pte_directory :=
  from_option id (malloc_directory mem) slot.

(** What the inner loop leaves in a parent entry and in the child entry
    that started as [c]. *)
Definition fork_parent_pte (e : pte) : pte :=
  if valid e then set_writable false e else e.

Definition fork_child_pte (e c : pte) : pte :=
  if valid e then Pte true false (pfn e) (private e) else c.

(** One [mapcounts[f] += 1] per frame of [fs], in order. *)
Fixpoint bump_counts (fs : list nat) (mc : list Z) : option (list Z) :=
  match fs with
  | [] => Some mc
  | f :: fs' => mc' ← mapcount_add f 1%Z mc; bump_counts fs' mc'
  end.

Definition valid_frames (l : list pte) : list nat :=
  pfn <$> filter (λ e, valid e = true) l.

Definition fork_parent_slot (slot : option pte_directory)
    : option pte_directory :=
  (λ d, PteDirectory (fork_parent_pte <$> ptes d)) <$> slot.

Definition fork_child_slot (mem : nat → pte)
    (pslot cslot : option pte_directory) : option pte_directory :=
  match pslot with
  | None => cslot
  | Some pd =>
      Some (PteDirectory
              (zip_with fork_child_pte (ptes pd) (ptes (malloc_directory mem))))
  end.

Fixpoint fork_child_slots (mem : nat → nat → pte) (j : nat)
    (ps cs : list (option pte_directory)) : list (option pte_directory) :=
  match ps, cs with
  | p :: ps', c :: cs' =>
      fork_child_slot (mem j) p c :: fork_child_slots mem (S j) ps' cs'
  | _, _ => []
  end.

Definition slot_frames (slot : option pte_directory) : list nat :=
  from_option directory_frames [] slot.

Definition fork_parent_pagetable (pt : pagetable) : pagetable :=
  Pagetable (fork_parent_slot <$> outer_ptes pt).

Definition fork_child_pagetable (proc_mem : nat → option (nat → pte))
    (dir_mem : nat → nat → pte) (pt : pagetable) : pagetable :=
  Pagetable (fork_child_slots dir_mem 0 (outer_ptes pt)
               (outer_ptes (malloc_pagetable proc_mem))).

(** ** Auxiliary predicates of the accounting proof *)

(** Every cell of [mapcounts] holds an [unsigned int]. *)
Definition counts_in_range (mc : list Z) : Prop :=
  Forall (λ c, (0 ≤ c < 4294967296)%Z) mc.

(** The frame a single entry maps, if it is valid. *)
Definition pte_frames (e : pte) : list nat := if valid e then [pfn e] else [].

(** [mapcounts[f]] is the number of valid entries that map frame [f]. *)
Definition counts_match (mc : list Z) (frames : list nat) : Prop :=
  ∀ f, f < NR_PAGEFRAMES → mc !! f = Some (Z.of_nat (occurrences f frames)).

Definition directory_private_ok (d : pte_directory) : Prop :=
  ∀ i e, ptes d !! i = Some e → private e = true → valid e = true.

(** ** Sample states

    A machine with 4 frames and directories of 4 entries (16 pages); the
    examples at the end of the file run the operations on these states. *)

Definition sample_directory (e0 e1 e2 e3 : pte) : option pte_directory :=
  Some (PteDirectory [e0; e1; e2; e3]).

(** Page 0 allocated for writing, page 1 read-only. *)
Definition demo_two_pages : state :=
  State []
    (Process 0 (Pagetable
       [sample_directory (Pte true true 0 true) (Pte true false 1 false)
          zero_pte zero_pte; None; None; None]))
    PtbrCurrent [1; 1; 0; 0]%Z.

(** The same after a fork to pid 7: both frames are shared. *)
Definition demo_forked : state :=
  State
    [Process 0 (Pagetable
       [sample_directory (Pte true false 0 true) (Pte true false 1 false)
          zero_pte zero_pte; None; None; None])]
    (Process 7 (Pagetable
       [sample_directory (Pte true false 0 true) (Pte true false 1 false)
          zero_pte zero_pte; None; None; None]))
    PtbrCurrent [2; 2; 0; 0]%Z.

(** Every frame in use: two shared by parent and child, two private to
    the child, all in directory 0. *)
Definition demo_full : state :=
  State
    [Process 0 (Pagetable
       [sample_directory (Pte true false 0 true) (Pte true false 1 true)
          zero_pte zero_pte; None; None; None])]
    (Process 7 (Pagetable
       [sample_directory (Pte true false 0 true) (Pte true false 1 true)
          (Pte true true 2 true) (Pte true true 3 true); None; None; None]))
    PtbrCurrent [2; 2; 1; 1]%Z.

(** Frame 0 released while frame 1 is still mapped. *)
Definition demo_freed : state :=
  State []
    (Process 0 (Pagetable
       [sample_directory zero_pte (Pte true false 1 false) zero_pte zero_pte;
        None; None; None]))
    PtbrCurrent [0; 1; 0; 0]%Z.

Definition demo_trace : list op :=
  [AllocPage 0 RW_WRITE; AllocPage 1 RW_READ; SwitchProcess 7;
   HandlePageFault 0 RW_WRITE; FreePage 1; SwitchProcess 0;
   HandlePageFault 0 RW_WRITE; AllocPage 5 RW_READ].

Definition demo_trace_end : state :=
  State
    [Process 7 (Pagetable
       [sample_directory (Pte true true 2 true) zero_pte zero_pte zero_pte;
        None; None; None])]
    (Process 0 (Pagetable
       [sample_directory (Pte true true 0 true) (Pte true false 1 false)
          zero_pte zero_pte;
        sample_directory zero_pte (Pte true false 3 false) zero_pte zero_pte;
        None; None]))
    PtbrCurrent [1; 1; 1; 1]%Z.

(** Memory for a new process whose slot 1 is not NULL. *)
Definition dirty_process_mem : nat → option (nat → pte) :=
  λ j, if decide (j = 1) then Some (λ _, Pte true true 3 true) else None.

(** ** Entry invariant

    What every entry of every page table satisfies in the states the
    operations produce: an invalid entry has all fields cleared, a writable
    entry is private, and a valid entry holds the number of a frame. *)

Definition entry_ok (e : pte) : Prop :=
  (valid e = false → e = zero_pte) ∧
  (writable e = true → private e = true) ∧
  (valid e = true → pfn e < NR_PAGEFRAMES).

Definition directory_entries_ok (d : pte_directory) : Prop :=
  ∀ i e, ptes d !! i = Some e → entry_ok e.

Definition entries_ok (pt : pagetable) : Prop :=
  ∀ op_index ip_index e, read_pte pt op_index ip_index = Some e → entry_ok e.

Definition state_entries_ok (s : state) : Prop :=
  Forall (λ p, entries_ok (proc_pagetable p)) (current s :: processes s).

(** * Properties *)

(** ** Page-table accesses *)

Lemma read_pte_Some pt op_index ip_index e :
  read_pte pt op_index ip_index = Some e ↔
  ∃ d, outer_ptes pt !! op_index = Some (Some d) ∧ ptes d !! ip_index = Some e.
Proof.
  unfold read_pte. split.
  - destruct (outer_ptes pt !! op_index) as [[d|]|]; simpl; try done. eauto.
  - intros (d & -> & ?). done.
Qed.

Lemma modify_pte_eq f op_index ip_index pt d e :
  outer_ptes pt !! op_index = Some (Some d) →
  ptes d !! ip_index = Some e →
  modify_pte f op_index ip_index pt =
    Some (Pagetable
            (<[op_index := Some (PteDirectory (<[ip_index := f e]> (ptes d)))]>
               (outer_ptes pt))).
Proof. intros Hd He. unfold modify_pte. rewrite Hd. simpl. by rewrite He. Qed.

Lemma modify_pte_None f op_index ip_index pt :
  read_pte pt op_index ip_index = None →
  modify_pte f op_index ip_index pt = None.
Proof.
  unfold read_pte, modify_pte.
  destruct (outer_ptes pt !! op_index) as [[d|]|]; simpl; try done.
  by intros ->.
Qed.

Lemma modify_pte_twice f g op_index ip_index pt :
  modify_pte f op_index ip_index pt ≫= modify_pte g op_index ip_index =
  modify_pte (g ∘ f) op_index ip_index pt.
Proof.
  destruct (read_pte pt op_index ip_index) as [e|] eqn:Hr.
  - apply read_pte_Some in Hr as (d & Hd & He).
    rewrite !(modify_pte_eq _ _ _ _ d e) by done. simpl.
    assert (op_index < length (outer_ptes pt)) by (by eapply lookup_lt_Some).
    assert (ip_index < length (ptes d)) by (by eapply lookup_lt_Some).
    erewrite modify_pte_eq; cycle 1.
    + simpl. by apply list_lookup_insert_eq.
    + simpl. by apply list_lookup_insert_eq.
    + simpl. by rewrite !list_insert_insert_eq.
  - by rewrite !modify_pte_None.
Qed.

Lemma modify_cur_pte_twice f g op_index ip_index s :
  modify_cur_pte f op_index ip_index s ≫= modify_cur_pte g op_index ip_index =
  modify_cur_pte (g ∘ f) op_index ip_index s.
Proof.
  unfold modify_cur_pte.
  rewrite <- modify_pte_twice.
  destruct (modify_pte f op_index ip_index (proc_pagetable (current s)))
    as [pt|]; simpl; [|done].
  by destruct (modify_pte g op_index ip_index pt).
Qed.

Lemma mapcount_add_eq i d mc c :
  mc !! i = Some c → mapcount_add i d mc = Some (<[i := wrap32 (c + d)]> mc).
Proof. intros Hc. unfold mapcount_add. by rewrite Hc. Qed.

Lemma modify_cur_pte_set_mapcounts f op_index ip_index mc s :
  modify_cur_pte f op_index ip_index (set_mapcounts mc s) =
  set_mapcounts mc <$> modify_cur_pte f op_index ip_index s.
Proof.
  unfold modify_cur_pte. simpl.
  by destruct (modify_pte f op_index ip_index (proc_pagetable (current s))).
Qed.

Lemma modify_cur_pte_eq f op_index ip_index s d e :
  outer_ptes (proc_pagetable (current s)) !! op_index = Some (Some d) →
  ptes d !! ip_index = Some e →
  modify_cur_pte f op_index ip_index s =
    Some (set_current
            (Process (pid (current s))
               (Pagetable
                  (<[op_index := Some (PteDirectory (<[ip_index := f e]> (ptes d)))]>
                     (outer_ptes (proc_pagetable (current s)))))) s).
Proof.
  intros Hd He. unfold modify_cur_pte.
  by rewrite (modify_pte_eq _ _ _ _ d e).
Qed.

(** ** The scan for a free frame *)

Lemma first_free_Some mc i n k :
  first_free mc i n = Some (Some k) →
  i ≤ k < i + n ∧ mc !! k = Some 0%Z ∧ ∀ j, i ≤ j < k → mc !! j ≠ Some 0%Z.
Proof.
  revert i. induction n as [|n IH]; intros i; simpl; [done|].
  destruct (mc !! i) as [c|] eqn:Hc; simpl; [|done].
  case_bool_decide as Hz.
  - intros [= <-]. subst c. repeat split; [lia..|done|]. intros j ?. lia.
  - intros Hk. apply IH in Hk as (Hr & Hk & Hlow).
    repeat split; [lia..|done|].
    intros j Hj. destruct (decide (j = i)) as [->|].
    + rewrite Hc. congruence.
    + apply Hlow. lia.
Qed.

Lemma first_free_None mc i n :
  first_free mc i n = Some None → ∀ j, i ≤ j < i + n → mc !! j ≠ Some 0%Z.
Proof.
  revert i. induction n as [|n IH]; intros i; simpl; [intros _ j ?; lia|].
  destruct (mc !! i) as [c|] eqn:Hc; simpl; [|done].
  case_bool_decide as Hz; [done|].
  intros Hn j Hj. destruct (decide (j = i)) as [->|].
  - rewrite Hc. congruence.
  - apply (IH _ Hn). lia.
Qed.

Lemma first_free_defined mc i n :
  i + n ≤ length mc → is_Some (first_free mc i n).
Proof.
  revert i. induction n as [|n IH]; intros i Hlen; simpl; [done|].
  destruct (lookup_lt_is_Some_2 mc i) as [c ->]; [lia|]. simpl.
  case_bool_decide; [done|]. apply IH. lia.
Qed.

Lemma first_free_found mc i n f :
  i + n ≤ length mc → i ≤ f < i + n → mc !! f = Some 0%Z →
  ∃ k, first_free mc i n = Some (Some k).
Proof.
  intros Hlen Hf Hz.
  destruct (first_free_defined mc i n Hlen) as [[k|] Hr]; [by eauto|].
  by destruct (first_free_None _ _ _ Hr f Hf).
Qed.

Lemma first_free_exhausted mc i n :
  i + n ≤ length mc → (∀ j, i ≤ j < i + n → mc !! j ≠ Some 0%Z) →
  first_free mc i n = Some None.
Proof.
  intros Hlen Hfull.
  destruct (first_free_defined mc i n Hlen) as [[k|] Hr]; [|done].
  apply first_free_Some in Hr as (Hk & Hz & _). by destruct (Hfull k Hk).
Qed.

(** ** Closed forms of the operations *)

Lemma modify_cur_pte_put f op_index ip_index s d e :
  outer_ptes (proc_pagetable (current s)) !! op_index = Some (Some d) →
  ptes d !! ip_index = Some e →
  modify_cur_pte f op_index ip_index s =
    Some (put_cur_pte s op_index ip_index d (f e)).
Proof. apply modify_cur_pte_eq. Qed.

Lemma modify_put_cur_pte f op_index ip_index s d x :
  op_index < length (outer_ptes (proc_pagetable (current s))) →
  ip_index < length (ptes d) →
  modify_cur_pte f op_index ip_index (put_cur_pte s op_index ip_index d x) =
    Some (put_cur_pte s op_index ip_index d (f x)).
Proof.
  intros Hop Hip.
  erewrite modify_cur_pte_put; cycle 1.
  - simpl. by apply list_lookup_insert_eq.
  - simpl. by apply list_lookup_insert_eq.
  - unfold put_cur_pte, put_pte, set_current. simpl.
    by rewrite !list_insert_insert_eq.
Qed.

Lemma cur_pte_put_cur_pte s op_index ip_index d x :
  op_index < length (outer_ptes (proc_pagetable (current s))) →
  ip_index < length (ptes d) →
  cur_pte (put_cur_pte s op_index ip_index d x) op_index ip_index = Some x.
Proof.
  intros Hop Hip. unfold cur_pte, read_pte. simpl.
  rewrite list_lookup_insert_eq by done. simpl.
  by apply list_lookup_insert_eq.
Qed.

Lemma alloc_page_found mem vpn rw s slot i :
  let op_index := vpn / NR_PTES_PER_PAGE in
  let ip_index := vpn `mod` NR_PTES_PER_PAGE in
  let d := alloc_directory mem slot in
  let w := bool_decide (rw ≠ 1%Z) in
  outer_ptes (proc_pagetable (current s)) !! op_index = Some slot →
  ip_index < length (ptes d) →
  first_free (mapcounts s) 0 NR_PAGEFRAMES = Some (Some i) →
  alloc_page mem vpn rw s =
    Some (Z.of_nat i,
          set_mapcounts (<[i := 1%Z]> (mapcounts s))
            (put_cur_pte s op_index ip_index d (Pte true w i w))).
Proof.
  intros op_index ip_index d w Hslot Hip Hfree.
  assert (op_index < length (outer_ptes (proc_pagetable (current s))))
    as Hop by (by eapply lookup_lt_Some).
  destruct (first_free_Some _ _ _ _ Hfree) as (_ & Hz & _).
  unfold alloc_page. fold op_index ip_index w. rewrite Hslot. simpl.
  assert (∀ s1, mapcounts s1 = mapcounts s →
     (∀ x, put_cur_pte s1 op_index ip_index d x =
           put_cur_pte s op_index ip_index d x) →
     (∃ e, ptes d !! ip_index = Some e ∧
        outer_ptes (proc_pagetable (current s1)) !! op_index = Some (Some d)) →
     (first_free (mapcounts s1) 0 NR_PAGEFRAMES ≫= λ found,
      match found with
      | Some i =>
          mc ← mapcount_add i 1%Z (mapcounts s1);
          s2 ← modify_cur_pte (set_valid true) op_index ip_index
                 (set_mapcounts mc s1);
          s3 ← modify_cur_pte (set_writable w) op_index ip_index s2;
          s4 ← modify_cur_pte (set_pfn i) op_index ip_index s3;
          s5 ← modify_cur_pte (set_private (if w then true else false))
                 op_index ip_index s4;
          Some (Z.of_nat i, s5)
      | None => Some (wrap32 (-1)%Z, s1)
      end) =
     Some (Z.of_nat i,
          set_mapcounts (<[i := 1%Z]> (mapcounts s))
            (put_cur_pte s op_index ip_index d (Pte true w i w)))) as Hgen.
  { intros s1 Hmc Hput (e & He & Hd).
    assert (op_index < length (outer_ptes (proc_pagetable (current s1))))
      by (by eapply lookup_lt_Some).
    rewrite Hmc, Hfree. simpl. unfold mapcount_add. rewrite Hz. simpl.
    rewrite modify_cur_pte_set_mapcounts.
    rewrite (modify_cur_pte_put _ _ _ _ d e) by done. simpl.
    rewrite modify_cur_pte_set_mapcounts, modify_put_cur_pte by done. simpl.
    rewrite modify_cur_pte_set_mapcounts, modify_put_cur_pte by done. simpl.
    rewrite modify_cur_pte_set_mapcounts, modify_put_cur_pte by done. simpl.
    rewrite Hput. unfold set_private, set_pfn, set_writable, set_valid. simpl.
    by destruct w. }
  destruct (lookup_lt_is_Some_2 (ptes d) ip_index Hip) as [e He].
  destruct slot as [d0|].
  - apply Hgen; [done..|]. eauto.
  - apply Hgen; [done| |].
    + intros x. unfold put_cur_pte, put_pte, set_current. simpl.
      by rewrite list_insert_insert_eq.
    + exists e. split; [done|]. simpl. by apply list_lookup_insert_eq.
Qed.

Lemma alloc_page_exhausted mem vpn rw s slot :
  let op_index := vpn / NR_PTES_PER_PAGE in
  outer_ptes (proc_pagetable (current s)) !! op_index = Some slot →
  first_free (mapcounts s) 0 NR_PAGEFRAMES = Some None →
  alloc_page mem vpn rw s =
    Some (UINT_MAX,
          match slot with
          | Some _ => s
          | None =>
              set_current
                (Process (pid (current s))
                   (Pagetable (<[op_index := Some (malloc_directory mem)]>
                                 (outer_ptes (proc_pagetable (current s)))))) s
          end).
Proof.
  intros op_index Hslot Hfree. unfold alloc_page. fold op_index.
  rewrite Hslot. simpl. by destruct slot; simpl; rewrite Hfree.
Qed.

Lemma free_page_unfold vpn s d e :
  let op_index := vpn / NR_PTES_PER_PAGE in
  let ip_index := vpn `mod` NR_PTES_PER_PAGE in
  outer_ptes (proc_pagetable (current s)) !! op_index = Some (Some d) →
  ptes d !! ip_index = Some e →
  free_page vpn s =
    (λ c, set_mapcounts (<[pfn e := wrap32 (c - 1)]> (mapcounts s))
            (put_cur_pte s op_index ip_index d zero_pte))
    <$> mapcounts s !! pfn e.
Proof.
  intros op_index ip_index Hd He.
  assert (op_index < length (outer_ptes (proc_pagetable (current s))))
    by (by eapply lookup_lt_Some).
  assert (ip_index < length (ptes d)) by (by eapply lookup_lt_Some).
  unfold free_page. fold op_index ip_index.
  rewrite (modify_cur_pte_put _ _ _ _ d e) by done. simpl.
  rewrite modify_put_cur_pte by done. simpl.
  rewrite modify_put_cur_pte by done. simpl.
  rewrite cur_pte_put_cur_pte by done. simpl.
  unfold mapcount_add. destruct (mapcounts s !! pfn e) as [c|]; simpl; [|done].
  rewrite modify_cur_pte_set_mapcounts, modify_put_cur_pte by done.
  done.
Qed.

Lemma free_page_eq vpn s d e c :
  let op_index := vpn / NR_PTES_PER_PAGE in
  let ip_index := vpn `mod` NR_PTES_PER_PAGE in
  outer_ptes (proc_pagetable (current s)) !! op_index = Some (Some d) →
  ptes d !! ip_index = Some e →
  mapcounts s !! pfn e = Some c →
  free_page vpn s =
    Some (set_mapcounts (<[pfn e := wrap32 (c - 1)]> (mapcounts s))
            (put_cur_pte s op_index ip_index d zero_pte)).
Proof.
  intros op_index ip_index Hd He Hc.
  rewrite (free_page_unfold vpn s d e) by done. fold op_index ip_index.
  by rewrite Hc.
Qed.

Lemma free_page_None vpn s :
  cur_pte s (vpn / NR_PTES_PER_PAGE) (vpn `mod` NR_PTES_PER_PAGE) = None →
  free_page vpn s = None.
Proof.
  intros Hn. unfold free_page, modify_cur_pte.
  by rewrite modify_pte_None by exact Hn.
Qed.

Lemma handle_page_fault_not_private vpn rw s e :
  cur_pte s (vpn / NR_PTES_PER_PAGE) (vpn `mod` NR_PTES_PER_PAGE) = Some e →
  private e = false →
  handle_page_fault vpn rw s = Some (false, s).
Proof. intros He Hp. unfold handle_page_fault. rewrite He. simpl. by rewrite Hp. Qed.

Lemma handle_page_fault_exclusive vpn rw s d e :
  let op_index := vpn / NR_PTES_PER_PAGE in
  let ip_index := vpn `mod` NR_PTES_PER_PAGE in
  outer_ptes (proc_pagetable (current s)) !! op_index = Some (Some d) →
  ptes d !! ip_index = Some e →
  private e = true →
  mapcounts s !! pfn e = Some 1%Z →
  handle_page_fault vpn rw s =
    Some (true, put_cur_pte s op_index ip_index d (set_writable true e)).
Proof.
  intros op_index ip_index Hd He Hp Hc.
  unfold handle_page_fault, cur_pte. fold op_index ip_index.
  rewrite (proj2 (read_pte_Some _ _ _ e)) by eauto. simpl.
  rewrite Hp, Hc. simpl.
  by rewrite (modify_cur_pte_put _ _ _ _ d e).
Qed.

Lemma handle_page_fault_rebind vpn rw s d e c c' i :
  let op_index := vpn / NR_PTES_PER_PAGE in
  let ip_index := vpn `mod` NR_PTES_PER_PAGE in
  outer_ptes (proc_pagetable (current s)) !! op_index = Some (Some d) →
  ptes d !! ip_index = Some e →
  private e = true →
  mapcounts s !! pfn e = Some c → c ≠ 1%Z →
  first_free (mapcounts s) 0 NR_PAGEFRAMES = Some (Some i) →
  <[i := 1%Z]> (mapcounts s) !! pfn e = Some c' →
  handle_page_fault vpn rw s =
    Some (true,
          set_mapcounts (<[pfn e := wrap32 (c' - 1)]> (<[i := 1%Z]> (mapcounts s)))
            (put_cur_pte s op_index ip_index d (Pte (valid e) true i (private e)))).
Proof.
  intros op_index ip_index Hd He Hp Hc Hc1 Hfree Hc'.
  assert (op_index < length (outer_ptes (proc_pagetable (current s))))
    by (by eapply lookup_lt_Some).
  assert (ip_index < length (ptes d)) by (by eapply lookup_lt_Some).
  destruct (first_free_Some _ _ _ _ Hfree) as (_ & Hz & _).
  unfold handle_page_fault, cur_pte. fold op_index ip_index.
  rewrite (proj2 (read_pte_Some _ _ _ e)) by eauto. simpl.
  rewrite Hp, Hc. simpl. rewrite bool_decide_eq_false_2 by done.
  rewrite Hfree. simpl. rewrite (mapcount_add_eq _ _ _ _ Hz). simpl.
  rewrite modify_cur_pte_set_mapcounts.
  rewrite (modify_cur_pte_put _ _ _ _ d e) by done. simpl.
  change (read_pte _ op_index ip_index) with
    (cur_pte (put_cur_pte s op_index ip_index d (set_writable true e))
       op_index ip_index).
  rewrite cur_pte_put_cur_pte by done. simpl.
  rewrite (mapcount_add_eq _ _ _ c') by done.
  simpl. rewrite modify_cur_pte_set_mapcounts.
  rewrite modify_cur_pte_set_mapcounts, modify_put_cur_pte by done.
  unfold set_pfn, set_writable, set_mapcounts. simpl. rewrite Hp. reflexivity.
Qed.

Lemma handle_page_fault_shared vpn rw s d e c i :
  let op_index := vpn / NR_PTES_PER_PAGE in
  let ip_index := vpn `mod` NR_PTES_PER_PAGE in
  outer_ptes (proc_pagetable (current s)) !! op_index = Some (Some d) →
  ptes d !! ip_index = Some e →
  private e = true →
  mapcounts s !! pfn e = Some c → c ≠ 1%Z → c ≠ 0%Z →
  first_free (mapcounts s) 0 NR_PAGEFRAMES = Some (Some i) →
  handle_page_fault vpn rw s =
    Some (true,
          set_mapcounts (<[pfn e := wrap32 (c - 1)]> (<[i := 1%Z]> (mapcounts s)))
            (put_cur_pte s op_index ip_index d (Pte (valid e) true i (private e)))).
Proof.
  intros op_index ip_index Hd He Hp Hc Hc1 Hc0 Hfree.
  destruct (first_free_Some _ _ _ _ Hfree) as (_ & Hz & _).
  assert (i ≠ pfn e) by (intros ->; congruence).
  apply (handle_page_fault_rebind vpn rw s d e c c i); try done.
  by rewrite list_lookup_insert_ne.
Qed.

Lemma handle_page_fault_no_frame vpn rw s e c :
  cur_pte s (vpn / NR_PTES_PER_PAGE) (vpn `mod` NR_PTES_PER_PAGE) = Some e →
  private e = true →
  mapcounts s !! pfn e = Some c → c ≠ 1%Z →
  first_free (mapcounts s) 0 NR_PAGEFRAMES = Some None →
  handle_page_fault vpn rw s = Some (false, s).
Proof.
  intros He Hp Hc Hc1 Hfree. unfold handle_page_fault. rewrite He. simpl.
  rewrite Hp, Hc. simpl. rewrite bool_decide_eq_false_2 by done.
  by rewrite Hfree.
Qed.

(** ** Shape facts *)

Lemma length_malloc_directory mem :
  length (ptes (malloc_directory mem)) = NR_PTES_PER_PAGE.
Proof. unfold malloc_directory. simpl. by rewrite length_fmap, length_seq. Qed.

Lemma wf_pagetable_slot pt vpn :
  wf_pagetable pt → vpn < NR_PTES_PER_PAGE * NR_PTES_PER_PAGE →
  vpn `mod` NR_PTES_PER_PAGE < NR_PTES_PER_PAGE ∧
  ∃ slot, outer_ptes pt !! (vpn / NR_PTES_PER_PAGE) = Some slot ∧ wf_slot slot.
Proof.
  intros [Hlen Hall] Hvpn.
  assert (NR_PTES_PER_PAGE ≠ 0) by lia.
  split; [by apply Nat.mod_upper_bound|].
  destruct (lookup_lt_is_Some_2 (outer_ptes pt) (vpn / NR_PTES_PER_PAGE))
    as [slot Hslot].
  { rewrite Hlen. by apply Nat.Div0.div_lt_upper_bound. }
  exists slot. split; [done|].
  by eapply (Forall_lookup_1 _ _ _ _ Hall).
Qed.

Lemma alloc_directory_length mem slot :
  wf_slot slot → length (ptes (alloc_directory mem slot)) = NR_PTES_PER_PAGE.
Proof.
  destruct slot as [d|]; simpl; [done|]. intros _. apply length_malloc_directory.
Qed.

Lemma cur_pte_put_cur_pte_ne s op_index ip_index d x o i :
  outer_ptes (proc_pagetable (current s)) !! op_index = Some (Some d) →
  o ≠ op_index ∨ i ≠ ip_index →
  cur_pte (put_cur_pte s op_index ip_index d x) o i = cur_pte s o i.
Proof.
  intros Hd Hne. unfold cur_pte, read_pte. simpl.
  destruct (decide (o = op_index)) as [->|Ho].
  - rewrite list_lookup_insert_eq by (by eapply lookup_lt_Some).
    rewrite Hd. simpl. destruct Hne as [?|Hi]; [done|].
    by rewrite list_lookup_insert_ne.
  - by rewrite list_lookup_insert_ne.
Qed.

(** A page that is mapped or addressable lies in a directory in place. *)
Lemma cur_pte_directory s op_index ip_index e :
  cur_pte s op_index ip_index = Some e →
  ∃ d, outer_ptes (proc_pagetable (current s)) !! op_index = Some (Some d) ∧
       ptes d !! ip_index = Some e.
Proof. apply read_pte_Some. Qed.

(** ** alloc_page *)

Lemma alloc_page_lowest_free mem vpn rw s :
  let op_index := vpn / NR_PTES_PER_PAGE in
  let ip_index := vpn `mod` NR_PTES_PER_PAGE in
  wf_state s →
  vpn < NR_PTES_PER_PAGE * NR_PTES_PER_PAGE →
  (∃ f, mapcounts s !! f = Some 0%Z) →
  ∃ i slot,
    outer_ptes (proc_pagetable (current s)) !! op_index = Some slot ∧
    wf_slot slot ∧
    first_free (mapcounts s) 0 NR_PAGEFRAMES = Some (Some i) ∧
    alloc_page mem vpn rw s =
      Some (Z.of_nat i,
            set_mapcounts (<[i := 1%Z]> (mapcounts s))
              (put_cur_pte s op_index ip_index (alloc_directory mem slot)
                 (Pte true (bool_decide (rw ≠ 1%Z)) i (bool_decide (rw ≠ 1%Z))))).
Proof.
  intros op_index ip_index (Hlen & _ & Hcur & _) Hvpn [f Hf].
  destruct (wf_pagetable_slot _ _ Hcur Hvpn) as (Hip & slot & Hslot & Hwf).
  destruct (first_free_found (mapcounts s) 0 NR_PAGEFRAMES f) as [i Hi];
    [lia| |done|].
  { apply lookup_lt_Some in Hf. lia. }
  exists i, slot. repeat split; [done..|].
  apply alloc_page_found; [done| |done].
  by rewrite alloc_directory_length.
Qed.

(** C4, as the code has it.  The entry [alloc_page] installs is valid, holds
    the returned frame, is writable exactly when the intent is not
    [RW_READ], and its [private] flag always equals its [writable] flag:
    an allocation for writing is marked private, a read-only one is not. *)
Theorem alloc_page_private_is_writable mem vpn rw s :
  wf_state s →
  vpn < NR_PTES_PER_PAGE * NR_PTES_PER_PAGE →
  (∃ f, mapcounts s !! f = Some 0%Z) →
  ∃ i s' e,
    alloc_page mem vpn rw s = Some (Z.of_nat i, s') ∧
    cur_pte s' (vpn / NR_PTES_PER_PAGE) (vpn `mod` NR_PTES_PER_PAGE) = Some e ∧
    valid e = true ∧ pfn e = i ∧
    writable e = bool_decide (rw ≠ RW_READ) ∧
    private e = writable e ∧
    (rw ≠ RW_READ → private e = true) ∧
    (rw = RW_READ → private e = false).
Proof.
  intros Hwf Hvpn Hfree.
  destruct (alloc_page_lowest_free mem vpn rw s Hwf Hvpn Hfree)
    as (i & slot & Hslot & Hws & _ & Heq).
  destruct Hwf as (_ & _ & Hcur & _).
  destruct (wf_pagetable_slot _ _ Hcur Hvpn) as (Hip & _).
  eexists i, _, _. split; [exact Heq|]. split.
  { change (cur_pte (set_mapcounts ?mc ?s0) ?o ?j) with (cur_pte s0 o j).
    apply cur_pte_put_cur_pte; [by eapply lookup_lt_Some|].
    by rewrite alloc_directory_length. }
  simpl. split_and!; [done..| |].
  - intros Hrw. by apply bool_decide_eq_true_2.
  - by intros ->.
Qed.

(** ** Exhaustion *)

Lemma first_free_full s :
  wf_state s → (∀ f, mapcounts s !! f ≠ Some 0%Z) →
  first_free (mapcounts s) 0 NR_PAGEFRAMES = Some None.
Proof.
  intros (Hlen & _) Hfull. apply first_free_exhausted; [lia|].
  intros j _. apply Hfull.
Qed.

(** C6, as the code has it.  When no frame has count zero, [alloc_page]
    returns -1 (as [unsigned int]) and changes no reference count and no
    entry of an existing directory, but it has already installed the
    directory of the page when that was absent; with the directory in
    place the state is unchanged.  [handle_page_fault] on a private page
    whose frame is shared returns false and leaves the state unchanged. *)
Theorem exhaustion_reports_failure mem vpn rw s :
  let op_index := vpn / NR_PTES_PER_PAGE in
  let ip_index := vpn `mod` NR_PTES_PER_PAGE in
  wf_state s →
  vpn < NR_PTES_PER_PAGE * NR_PTES_PER_PAGE →
  (∀ f, mapcounts s !! f ≠ Some 0%Z) →
  (∃ s' slot,
     outer_ptes (proc_pagetable (current s)) !! op_index = Some slot ∧
     alloc_page mem vpn rw s = Some (UINT_MAX, s') ∧
     mapcounts s' = mapcounts s ∧
     processes s' = processes s ∧
     ptbr s' = ptbr s ∧
     pid (current s') = pid (current s) ∧
     (∀ o i e, cur_pte s o i = Some e → cur_pte s' o i = Some e) ∧
     (∀ o, o ≠ op_index →
        outer_ptes (proc_pagetable (current s')) !! o =
        outer_ptes (proc_pagetable (current s)) !! o) ∧
     (is_Some slot → s' = s) ∧
     (slot = None →
        outer_ptes (proc_pagetable (current s')) !! op_index =
        Some (Some (malloc_directory mem)))) ∧
  (∀ e c,
     cur_pte s op_index ip_index = Some e → private e = true →
     mapcounts s !! pfn e = Some c → (1 < c)%Z →
     handle_page_fault vpn rw s = Some (false, s)).
Proof.
  intros op_index ip_index Hwf Hvpn Hfull.
  pose proof (first_free_full s Hwf Hfull) as Hfree.
  destruct Hwf as (_ & _ & Hcur & _).
  destruct (wf_pagetable_slot _ _ Hcur Hvpn) as (_ & slot & Hslot & _).
  split.
  - eexists _, slot. split; [done|]. split.
    { by apply alloc_page_exhausted. }
    destruct slot as [d|]; simpl.
    + split_and!; done.
    + split_and!; try done.
      * intros o i e. unfold cur_pte, read_pte. simpl.
        destruct (decide (o = op_index)) as [->|Ho].
        -- fold op_index in Hslot. by rewrite Hslot.
        -- by rewrite list_lookup_insert_ne.
      * intros o Ho. by rewrite list_lookup_insert_ne.
      * intros _. apply list_lookup_insert_eq. by eapply lookup_lt_Some.
  - intros e c He Hp Hc Hgt.
    eapply handle_page_fault_no_frame; [done..|lia|done].
Qed.

(** ** handle_page_fault *)

(** C10: the access intent [rw] plays no part in [handle_page_fault]; two
    calls that differ only in [rw] give the same result and final state. *)
Theorem handle_page_fault_ignores_rw vpn rw1 rw2 s :
  handle_page_fault vpn rw1 s = handle_page_fault vpn rw2 s.
Proof. reflexivity. Qed.

(** C2: the three outcomes of [handle_page_fault] on a page whose entry
    exists.  Not private: false, state unchanged.  Private with count 1:
    the entry becomes writable, nothing else changes.  Private with count
    above 1 and a free frame: the entry is rebound to the lowest free
    frame and made writable, the new frame gets count 1, the old one loses
    one, and every other entry, process and count is unchanged. *)
Theorem handle_page_fault_cases vpn rw s e :
  let op_index := vpn / NR_PTES_PER_PAGE in
  let ip_index := vpn `mod` NR_PTES_PER_PAGE in
  cur_pte s op_index ip_index = Some e →
  (private e = false → handle_page_fault vpn rw s = Some (false, s)) ∧
  (private e = true → mapcounts s !! pfn e = Some 1%Z →
     ∃ s', handle_page_fault vpn rw s = Some (true, s') ∧
       cur_pte s' op_index ip_index = Some (set_writable true e) ∧
       mapcounts s' = mapcounts s ∧
       processes s' = processes s ∧
       (∀ o i, o ≠ op_index ∨ i ≠ ip_index →
          cur_pte s' o i = cur_pte s o i)) ∧
  (private e = true →
   ∀ c, mapcounts s !! pfn e = Some c → (1 < c < 4294967296)%Z →
     length (mapcounts s) = NR_PAGEFRAMES →
     (∃ f, mapcounts s !! f = Some 0%Z) →
     ∃ i s', handle_page_fault vpn rw s = Some (true, s') ∧
       mapcounts s !! i = Some 0%Z ∧
       (∀ j, j < i → mapcounts s !! j ≠ Some 0%Z) ∧
       cur_pte s' op_index ip_index =
         Some (Pte (valid e) true i (private e)) ∧
       mapcounts s' !! i = Some 1%Z ∧
       mapcounts s' !! pfn e = Some (c - 1)%Z ∧
       (∀ f, f ≠ i → f ≠ pfn e → mapcounts s' !! f = mapcounts s !! f) ∧
       processes s' = processes s ∧
       (∀ o i', o ≠ op_index ∨ i' ≠ ip_index →
          cur_pte s' o i' = cur_pte s o i')).
Proof.
  intros op_index ip_index He.
  destruct (cur_pte_directory _ _ _ _ He) as (d & Hd & Hde).
  assert (op_index < length (outer_ptes (proc_pagetable (current s))))
    by (by eapply lookup_lt_Some).
  assert (ip_index < length (ptes d)) by (by eapply lookup_lt_Some).
  split; [|split].
  - intros Hp. by eapply handle_page_fault_not_private.
  - intros Hp Hc. eexists. split.
    { by apply (handle_page_fault_exclusive vpn rw s d e). }
    split; [by apply cur_pte_put_cur_pte|].
    repeat split. intros o i Hne. by apply cur_pte_put_cur_pte_ne.
  - intros Hp c Hc Hrange Hlen [f Hf].
    destruct (first_free_found (mapcounts s) 0 NR_PAGEFRAMES f) as [i Hi];
      [lia| |done|].
    { apply lookup_lt_Some in Hf. lia. }
    destruct (first_free_Some _ _ _ _ Hi) as (Hi_lt & Hz & Hlow).
    assert (i ≠ pfn e) by (intros ->; rewrite Hc in Hz; injection Hz; lia).
    assert (pfn e < length (mapcounts s)) by (by eapply lookup_lt_Some).
    exists i. eexists. split.
    { apply (handle_page_fault_shared vpn rw s d e c i); try done; lia. }
    split; [done|]. split; [intros j Hj; apply Hlow; lia|].
    split.
    { change (cur_pte (set_mapcounts ?mc ?s0) ?o ?j) with (cur_pte s0 o j).
      by apply cur_pte_put_cur_pte. }
    simpl. split.
    { rewrite list_lookup_insert_ne by done.
      apply list_lookup_insert_eq. lia. }
    split.
    { rewrite list_lookup_insert_eq by (rewrite length_insert; lia).
      f_equal. unfold wrap32. apply Z.mod_small. lia. }
    split.
    { intros f' ? ?. by rewrite !list_lookup_insert_ne. }
    split; [done|].
    intros o i' Hne.
    change (cur_pte (set_mapcounts ?mc ?s0) ?o ?j) with (cur_pte s0 o j).
    by apply cur_pte_put_cur_pte_ne.
Qed.

(** ** free_page *)

(** C8: [free_page] on a mapped page clears [valid], [writable] and
    [private], takes one reference off the frame the entry held (the frame
    number is read before it is zeroed), and leaves the entry with frame
    number 0; the other processes, the other entries and the counts of the
    other frames are untouched. *)
Theorem free_page_valid_mapping vpn s e c :
  let op_index := vpn / NR_PTES_PER_PAGE in
  let ip_index := vpn `mod` NR_PTES_PER_PAGE in
  cur_pte s op_index ip_index = Some e →
  valid e = true →
  mapcounts s !! pfn e = Some c → (0 < c < 4294967296)%Z →
  ∃ s', free_page vpn s = Some s' ∧
    cur_pte s' op_index ip_index = Some (Pte false false 0 false) ∧
    mapcounts s' !! pfn e = Some (c - 1)%Z ∧
    (∀ f, f ≠ pfn e → mapcounts s' !! f = mapcounts s !! f) ∧
    processes s' = processes s ∧
    (∀ o i, o ≠ op_index ∨ i ≠ ip_index → cur_pte s' o i = cur_pte s o i).
Proof.
  intros op_index ip_index He _ Hc Hrange.
  destruct (cur_pte_directory _ _ _ _ He) as (d & Hd & Hde).
  assert (op_index < length (outer_ptes (proc_pagetable (current s))))
    by (by eapply lookup_lt_Some).
  assert (ip_index < length (ptes d)) by (by eapply lookup_lt_Some).
  assert (pfn e < length (mapcounts s)) by (by eapply lookup_lt_Some).
  eexists. split; [by apply (free_page_eq vpn s d e c)|].
  split.
  { change (cur_pte (set_mapcounts ?mc ?s0) ?o ?j) with (cur_pte s0 o j).
    by apply cur_pte_put_cur_pte. }
  simpl. split.
  { rewrite list_lookup_insert_eq by done.
    f_equal. unfold wrap32. apply Z.mod_small. lia. }
  split; [intros f ?; by rewrite list_lookup_insert_ne|].
  split; [done|].
  intros o i Hne.
  change (cur_pte (set_mapcounts ?mc ?s0) ?o ?j) with (cur_pte s0 o j).
  by apply cur_pte_put_cur_pte_ne.
Qed.

(** ** switch_process: the target is in the ready queue *)

Lemma find_process_Some target l p rest :
  find_process target l = Some (p, rest) →
  ∃ l1 l2, l = l1 ++ p :: l2 ∧ rest = l1 ++ l2 ∧ pid p = target ∧
           Forall (λ q, pid q ≠ target) l1.
Proof.
  revert p rest. induction l as [|a l IH]; intros p rest; simpl; [done|].
  case_bool_decide as Ha.
  - intros [= <- <-]. by exists [], l.
  - destruct (find_process target l) as [[q r]|]; simpl; [|done].
    intros [= <- <-].
    destruct (IH q r eq_refl) as (l1 & l2 & -> & -> & Hq & Hl1).
    exists (a :: l1), l2. split_and!; try done. by constructor.
Qed.

Lemma find_process_None target l :
  find_process target l = None ↔ Forall (λ q, pid q ≠ target) l.
Proof.
  induction l as [|a l IH]; simpl; [by split; [constructor|]|].
  case_bool_decide as Ha.
  - split; [done|]. by inversion 1.
  - destruct (find_process target l) as [[q r]|]; simpl.
    + split; [done|]. inversion 1 as [|? ? _ Hl]. by apply IH in Hl.
    + split; [|done]. intros _. constructor; [done|]. by apply IH.
Qed.

Lemma find_process_last target l p :
  Forall (λ q, pid q ≠ target) l → pid p = target →
  find_process target (l ++ [p]) = Some (p, l).
Proof.
  intros Hl Hp. induction Hl as [|a l Ha Hl IH]; simpl.
  - by rewrite bool_decide_eq_true_2.
  - rewrite bool_decide_eq_false_2 by done. by rewrite IH.
Qed.

Lemma switch_process_found proc_mem dir_mem target s p rest :
  find_process target (processes s) = Some (p, rest) →
  switch_process proc_mem dir_mem target s =
    Some (State (rest ++ [current s]) p PtbrCurrent (mapcounts s)) ∧
  p :: rest ++ [current s] ≡ₚ current s :: processes s.
Proof.
  intros Hfind. split.
  { unfold switch_process. by rewrite Hfind. }
  destruct (find_process_Some _ _ _ _ Hfind) as (l1 & l2 & -> & -> & _ & _).
  etrans; [apply perm_skip; symmetry; apply Permutation_cons_append|].
  etrans; [apply perm_swap|]. apply perm_skip, Permutation_middle.
Qed.

(** C9: a switch to a process of the ready queue moves process objects
    around and touches neither a page table nor a reference count; when no
    other queued process carries the pid of the process that was running,
    switching back makes that process current again, page table intact. *)
Theorem switch_process_existing proc_mem dir_mem proc_mem' dir_mem' target s p rest :
  find_process target (processes s) = Some (p, rest) →
  ∃ s', switch_process proc_mem dir_mem target s = Some s' ∧
    current s' = p ∧
    processes s' = rest ++ [current s] ∧
    ptbr s' = PtbrCurrent ∧
    mapcounts s' = mapcounts s ∧
    current s' :: processes s' ≡ₚ current s :: processes s ∧
    (Forall (λ q, pid q ≠ pid (current s)) rest →
       ∃ s'', switch_process proc_mem' dir_mem' (pid (current s)) s' = Some s'' ∧
         current s'' = current s ∧
         proc_pagetable (current s'') = proc_pagetable (current s) ∧
         processes s'' = rest ++ [p] ∧
         mapcounts s'' = mapcounts s).
Proof.
  intros Hfind.
  destruct (switch_process_found proc_mem dir_mem _ _ _ _ Hfind)
    as [Hswitch Hperm].
  eexists. split; [exact Hswitch|].
  simpl. split_and!; try done.
  intros Huniq. eexists. split.
  { unfold switch_process. simpl.
    by rewrite (find_process_last _ _ _ Huniq eq_refl). }
  done.
Qed.

(** ** switch_process: fork *)

Lemma insert_middle {A} (l1 l2 : list A) (x y : A) n :
  n = length l1 → <[n := x]> (l1 ++ y :: l2) = l1 ++ x :: l2.
Proof.
  intros ->. by rewrite <- (Nat.add_0_r (length l1)), insert_app_r.
Qed.

Lemma fork_pte_step done_p done_c e c tp tc mc :
  length done_c = length done_p →
  fork_pte (length done_p)
    (ForkDirs (done_p ++ e :: tp) (done_c ++ c :: tc) mc) =
  if valid e then
    mc' ← mapcount_add (pfn e) 1%Z mc;
    Some (ForkDirs (done_p ++ set_writable false e :: tp)
                   (done_c ++ Pte true false (pfn e) (private e) :: tc) mc')
  else Some (ForkDirs (done_p ++ e :: tp) (done_c ++ c :: tc) mc).
Proof.
  intros Hd. unfold fork_pte. simpl.
  rewrite !list_lookup_middle by done. simpl.
  destruct (valid e); [|done].
  destruct (mapcount_add (pfn e) 1 mc) as [mc1|]; simpl; [|done].
  by rewrite !insert_middle.
Qed.

Lemma fork_ptes_loop done_p done_c todo_p todo_c mc :
  length done_c = length done_p → length todo_c = length todo_p →
  for_loop fork_pte (length done_p) (length todo_p)
    (ForkDirs (done_p ++ todo_p) (done_c ++ todo_c) mc) =
  (mc' ← bump_counts (valid_frames todo_p) mc;
   Some (ForkDirs (done_p ++ (fork_parent_pte <$> todo_p))
                  (done_c ++ zip_with fork_child_pte todo_p todo_c) mc')).
Proof.
  revert done_p done_c todo_c mc.
  induction todo_p as [|e tp IH]; intros done_p done_c todo_c mc Hd Ht.
  { by destruct todo_c. }
  destruct todo_c as [|c tc]; [done|]. simpl in Ht.
  cbn [length for_loop]. rewrite fork_pte_step by done.
  unfold valid_frames. rewrite filter_cons.
  unfold fork_parent_pte at 1, fork_child_pte at 1.
  cbn [fmap list_fmap zip_with].
  destruct (valid e) eqn:Hv.
  - rewrite decide_True by done.
    cbn [fmap list_fmap bump_counts].
    destruct (mapcount_add (pfn e) 1 mc) as [mc1|]; cbn [mbind option_bind];
      [|done].
    specialize (IH (done_p ++ [set_writable false e])
                   (done_c ++ [Pte true false (pfn e) (private e)]) tc mc1).
    rewrite !length_app in IH. simpl in IH.
    rewrite !Nat.add_1_r in IH.
    rewrite <- !(assoc_L (++)) in IH. simpl in IH.
    apply IH; lia.
  - rewrite decide_False by done.
    cbn [mbind option_bind].
    specialize (IH (done_p ++ [e]) (done_c ++ [c]) tc mc).
    rewrite !length_app in IH. simpl in IH.
    rewrite !Nat.add_1_r in IH.
    rewrite <- !(assoc_L (++)) in IH. simpl in IH.
    apply IH; lia.
Qed.

Lemma bump_counts_app fs1 fs2 mc :
  bump_counts (fs1 ++ fs2) mc = bump_counts fs1 mc ≫= bump_counts fs2.
Proof.
  revert mc. induction fs1 as [|f fs1 IH]; intros mc; simpl; [done|].
  destruct (mapcount_add f 1 mc); simpl; [apply IH|done].
Qed.

Lemma fork_directory_step mem done_p done_c p c tp tc mc :
  length done_c = length done_p → wf_slot p →
  fork_directory mem (length done_p)
    (ForkState (done_p ++ p :: tp) (done_c ++ c :: tc) mc) =
  (mc' ← bump_counts (slot_frames p) mc;
   Some (ForkState (done_p ++ fork_parent_slot p :: tp)
                   (done_c ++ fork_child_slot (mem (length done_p)) p c :: tc)
                   mc')).
Proof.
  intros Hd Hwf. unfold fork_directory. simpl.
  rewrite !list_lookup_middle by done. simpl.
  destruct p as [pd|]; simpl; [|done].
  pose proof (fork_ptes_loop [] [] (ptes pd)
                (mem (length done_p) <$> seq 0 NR_PTES_PER_PAGE) mc) as Hloop.
  simpl in Hloop, Hwf. unfold wf_directory in Hwf. rewrite Hwf in Hloop.
  rewrite Hloop; [|done|by rewrite length_fmap, length_seq].
  unfold directory_frames, valid_frames.
  destruct (bump_counts _ mc) as [mc1|]; simpl; [|done].
  by rewrite !insert_middle.
Qed.

Lemma fork_directories_loop mem done_p done_c todo_p todo_c mc :
  length done_c = length done_p → length todo_c = length todo_p →
  Forall wf_slot todo_p →
  for_loop (fork_directory mem) (length done_p) (length todo_p)
    (ForkState (done_p ++ todo_p) (done_c ++ todo_c) mc) =
  (mc' ← bump_counts (todo_p ≫= slot_frames) mc;
   Some (ForkState (done_p ++ (fork_parent_slot <$> todo_p))
                   (done_c ++ fork_child_slots mem (length done_p) todo_p todo_c)
                   mc')).
Proof.
  intros Hd Ht Hwf. revert done_p done_c todo_c mc Hd Ht.
  induction Hwf as [|p tp Hp Hwf IH]; intros done_p done_c todo_c mc Hd Ht.
  { by destruct todo_c. }
  destruct todo_c as [|c tc]; [done|]. simpl in Ht.
  cbn [length for_loop]. rewrite fork_directory_step by done.
  rewrite bind_cons, bump_counts_app.
  destruct (bump_counts (slot_frames p) mc) as [mc1|]; simpl; [|done].
  specialize (IH (done_p ++ [fork_parent_slot p])
                 (done_c ++ [fork_child_slot (mem (length done_p)) p c]) tc mc1).
  rewrite !length_app in IH. simpl in IH.
  rewrite !Nat.add_1_r in IH.
  rewrite <- !(assoc_L (++)) in IH. simpl in IH.
  apply IH; lia.
Qed.

(** The fork branch of [switch_process] in closed form. *)
Lemma switch_process_fork proc_mem dir_mem target s :
  find_process target (processes s) = None →
  wf_pagetable (proc_pagetable (current s)) →
  switch_process proc_mem dir_mem target s =
  (mc' ← bump_counts (pagetable_frames (proc_pagetable (current s)))
                     (mapcounts s);
   Some (State
           (processes s ++
              [Process (pid (current s))
                 (fork_parent_pagetable (proc_pagetable (current s)))])
           (Process target
              (fork_child_pagetable proc_mem dir_mem
                 (proc_pagetable (current s))))
           PtbrCurrent mc')).
Proof.
  intros Hfind [Hlen Hwf]. unfold switch_process. rewrite Hfind.
  pose proof (fork_directories_loop dir_mem [] []
                (outer_ptes (proc_pagetable (current s)))
                (outer_ptes (malloc_pagetable proc_mem)) (mapcounts s)) as Hloop.
  cbn [app length] in Hloop. rewrite Hlen in Hloop.
  rewrite Hloop; [|done|by simpl; rewrite length_fmap, length_seq|done].
  unfold pagetable_frames, slot_frames.
  by destruct (bump_counts _ (mapcounts s)).
Qed.

Lemma occurrences_cons f x l :
  occurrences f (x :: l) = (if decide (x = f) then 1 else 0) + occurrences f l.
Proof.
  unfold occurrences. rewrite filter_cons. by destruct (decide (x = f)).
Qed.

Lemma occurrences_app f l1 l2 :
  occurrences f (l1 ++ l2) = occurrences f l1 + occurrences f l2.
Proof. unfold occurrences. by rewrite list.filter_app, length_app. Qed.

Lemma wrap32_add_l a b : wrap32 (wrap32 a + b) = wrap32 (a + b).
Proof. unfold wrap32. apply Zplus_mod_idemp_l. Qed.

Lemma wrap32_small c : (0 ≤ c < 4294967296)%Z → wrap32 c = c.
Proof. intros. unfold wrap32. by apply Z.mod_small. Qed.

Lemma wrap32_range c : (0 ≤ wrap32 c < 4294967296)%Z.
Proof. unfold wrap32. by apply Z.mod_pos_bound. Qed.

Lemma counts_in_range_insert mc i c :
  counts_in_range mc → counts_in_range (<[i := wrap32 c]> mc).
Proof.
  intros Hmc. apply Forall_insert; [done|]. apply wrap32_range.
Qed.

Lemma bump_counts_Some fs mc :
  counts_in_range mc →
  Forall (λ f, f < length mc) fs →
  ∃ mc', bump_counts fs mc = Some mc' ∧ length mc' = length mc ∧
    counts_in_range mc' ∧
    ∀ f c, mc !! f = Some c →
      mc' !! f = Some (wrap32 (c + Z.of_nat (occurrences f fs))).
Proof.
  intros Hmc Hfs. revert mc Hmc Hfs.
  induction fs as [|f0 fs IH]; intros mc Hmc Hfs.
  - exists mc. split_and!; [done..|]. intros f c Hc.
    unfold occurrences. simpl. rewrite Z.add_0_r, wrap32_small; [done|].
    by eapply (Forall_lookup_1 _ _ _ _ Hmc).
  - inversion Hfs as [|? ? Hf0 Hfs']; subst.
    destruct (lookup_lt_is_Some_2 mc f0 Hf0) as [c0 Hc0].
    simpl. rewrite (mapcount_add_eq _ _ _ _ Hc0). simpl.
    destruct (IH (<[f0 := wrap32 (c0 + 1)]> mc)) as (mc' & Hb & Hlen & Hr & Hlk).
    { by apply counts_in_range_insert. }
    { by rewrite length_insert. }
    exists mc'. rewrite length_insert in Hlen. split_and!; [done..|].
    intros f c Hc. rewrite occurrences_cons.
    destruct (decide (f0 = f)) as [->|Hne].
    + rewrite (Hlk f (wrap32 (c0 + 1))) by (by apply list_lookup_insert_eq).
      f_equal. rewrite wrap32_add_l. f_equal.
      replace c0 with c by congruence. lia.
    + rewrite (Hlk f c) by (by rewrite list_lookup_insert_ne).
      done.
Qed.

Lemma read_pte_fork_parent pt op_index ip_index :
  read_pte (fork_parent_pagetable pt) op_index ip_index =
  fork_parent_pte <$> read_pte pt op_index ip_index.
Proof.
  unfold read_pte, fork_parent_pagetable. simpl. rewrite list_lookup_fmap.
  destruct (outer_ptes pt !! op_index) as [[d|]|]; simpl; [|done..].
  by rewrite list_lookup_fmap.
Qed.

Lemma lookup_fork_child_slots mem j ps cs k p c :
  ps !! k = Some p → cs !! k = Some c →
  fork_child_slots mem j ps cs !! k = Some (fork_child_slot (mem (j + k)) p c).
Proof.
  revert j cs k. induction ps as [|p0 ps IH]; intros j cs k; [done|].
  destruct cs as [|c0 cs]; [done|]. destruct k as [|k]; simpl.
  - intros [= ->] [= ->]. by rewrite Nat.add_0_r.
  - intros Hp Hc. rewrite (IH (S j) cs k) by done.
    by replace (S j + k) with (j + S k) by lia.
Qed.

Lemma length_fork_child_slots mem j ps cs :
  length cs = length ps → length (fork_child_slots mem j ps cs) = length ps.
Proof.
  revert j cs. induction ps as [|p0 ps IH]; intros j [|c0 cs]; simpl; try done.
  intros [= Hlen]. by rewrite IH.
Qed.

Lemma length_malloc_pagetable proc_mem :
  length (outer_ptes (malloc_pagetable proc_mem)) = NR_PTES_PER_PAGE.
Proof. simpl. by rewrite length_fmap, length_seq. Qed.

(** The child's slot [j] after a fork: a new directory where the parent has
    one, and otherwise whatever the memory of the new process held. *)
Lemma fork_child_slot_lookup proc_mem dir_mem pt j p :
  wf_pagetable pt → outer_ptes pt !! j = Some p →
  outer_ptes (fork_child_pagetable proc_mem dir_mem pt) !! j =
    Some (fork_child_slot (dir_mem j) p (malloc_directory <$> proc_mem j)).
Proof.
  intros [Hlen _] Hp. unfold fork_child_pagetable.
  cbn [outer_ptes]. rewrite <- (Nat.add_0_l j) at 2.
  apply lookup_fork_child_slots; [done|].
  simpl. rewrite list_lookup_fmap.
  assert (j < NR_PTES_PER_PAGE) by (rewrite <- Hlen; by eapply lookup_lt_Some).
  by rewrite lookup_seq_lt.
Qed.

Lemma read_pte_fork_child proc_mem dir_mem pt op_index ip_index e :
  wf_pagetable pt → read_pte pt op_index ip_index = Some e →
  read_pte (fork_child_pagetable proc_mem dir_mem pt) op_index ip_index =
    Some (fork_child_pte e (dir_mem op_index ip_index)).
Proof.
  intros Hwf (d & Hd & He)%read_pte_Some.
  unfold read_pte. rewrite (fork_child_slot_lookup _ _ _ _ _ Hwf Hd). simpl.
  rewrite lookup_zip_with, He. simpl. rewrite list_lookup_fmap.
  destruct Hwf as [_ Hall].
  pose proof (Forall_lookup_1 _ _ _ _ Hall Hd) as Hwd. simpl in Hwd.
  assert (ip_index < NR_PTES_PER_PAGE)
    by (rewrite <- Hwd; by eapply lookup_lt_Some).
  by rewrite lookup_seq_lt.
Qed.

Lemma elem_of_pagetable_frames pt op_index ip_index e :
  read_pte pt op_index ip_index = Some e → valid e = true →
  pfn e ∈ pagetable_frames pt.
Proof.
  intros (d & Hd & He)%read_pte_Some Hv. unfold pagetable_frames.
  apply list_elem_of_bind. exists (Some d). split.
  - simpl. unfold directory_frames. apply list_elem_of_fmap. exists e.
    split; [done|]. apply list_elem_of_filter. split; [done|].
    by eapply list_elem_of_lookup_2.
  - by eapply list_elem_of_lookup_2.
Qed.

Lemma occurrences_elem_of f l : f ∈ l → 0 < occurrences f l.
Proof.
  induction 1 as [x l|x y l _ IH]; rewrite occurrences_cons.
  - rewrite decide_True by done. lia.
  - lia.
Qed.

(** C1: a fork gives the child, for every page mapped by the parent, a
    valid entry with the parent's frame and [private] flag; the entry is
    read-only on both sides; the count of a frame grows by one for each
    parent page mapped to it, hence by exactly one for a frame the parent
    maps once, and from 1 to 2 for a frame that was exclusive. *)
Theorem switch_process_fork_shares proc_mem dir_mem target s :
  let frames := pagetable_frames (proc_pagetable (current s)) in
  wf_state s →
  find_process target (processes s) = None →
  Forall (λ f, f < NR_PAGEFRAMES) frames →
  ∃ s' parent',
    switch_process proc_mem dir_mem target s = Some s' ∧
    processes s' = processes s ++ [parent'] ∧
    pid parent' = pid (current s) ∧
    pid (current s') = target ∧
    ∀ op_index ip_index e,
      cur_pte s op_index ip_index = Some e → valid e = true →
      cur_pte s' op_index ip_index =
        Some (Pte true false (pfn e) (private e)) ∧
      read_pte (proc_pagetable parent') op_index ip_index =
        Some (Pte true false (pfn e) (private e)) ∧
      ∃ c, mapcounts s !! pfn e = Some c ∧
        mapcounts s' !! pfn e =
          Some (wrap32 (c + Z.of_nat (occurrences (pfn e) frames))) ∧
        (occurrences (pfn e) frames = 1 → (c < UINT_MAX)%Z →
           mapcounts s' !! pfn e = Some (c + 1)%Z) ∧
        (occurrences (pfn e) frames = 1 → c = 1%Z →
           mapcounts s' !! pfn e = Some 2%Z).
Proof.
  intros frames (Hlen & Hrange & Hcur & _) Hfind Hframes.
  destruct (bump_counts_Some frames (mapcounts s)) as (mc' & Hb & _ & _ & Hlk).
  { done. }
  { by rewrite Hlen. }
  eexists _, _. split.
  { rewrite switch_process_fork by done. fold frames. rewrite Hb. done. }
  cbn [processes current pid mapcounts proc_pagetable].
  split_and!; [done..|].
  intros op_index ip_index e He Hv. split_and!.
  - unfold cur_pte. cbn [current proc_pagetable].
    erewrite read_pte_fork_child by done.
    unfold fork_child_pte. by rewrite Hv.
  - unfold cur_pte in He. cbn [proc_pagetable].
    rewrite read_pte_fork_parent, He. simpl.
    unfold fork_parent_pte, set_writable. by rewrite Hv.
  - pose proof (elem_of_pagetable_frames _ _ _ _ He Hv) as Hin.
    fold frames in Hin.
    assert (pfn e < NR_PAGEFRAMES) as Hlt.
    { exact (proj1 (list.Forall_forall _ _) Hframes _ Hin). }
    destruct (lookup_lt_is_Some_2 (mapcounts s) (pfn e)) as [c Hc]; [lia|].
    pose proof (Forall_lookup_1 _ _ _ _ Hrange Hc) as Hcr. simpl in Hcr.
    exists c. split; [done|]. rewrite (Hlk _ _ Hc). split_and!; [done|..].
    + intros -> Hmax. f_equal. apply wrap32_small. unfold UINT_MAX in Hmax. lia.
    + intros -> ->. done.
Qed.

(** ** Outcomes of the operations, case by case *)

Lemma alloc_page_cases mem vpn rw s r :
  let op_index := vpn / NR_PTES_PER_PAGE in
  let ip_index := vpn `mod` NR_PTES_PER_PAGE in
  let w := bool_decide (rw ≠ 1%Z) in
  wf_state s → alloc_page mem vpn rw s = Some r →
  ∃ slot,
    outer_ptes (proc_pagetable (current s)) !! op_index = Some slot ∧
    wf_slot slot ∧ ip_index < NR_PTES_PER_PAGE ∧
    ((∃ i, first_free (mapcounts s) 0 NR_PAGEFRAMES = Some (Some i) ∧
        r = (Z.of_nat i,
             set_mapcounts (<[i := 1%Z]> (mapcounts s))
               (put_cur_pte s op_index ip_index (alloc_directory mem slot)
                  (Pte true w i w)))) ∨
     (first_free (mapcounts s) 0 NR_PAGEFRAMES = Some None ∧
      r = (UINT_MAX,
           match slot with
           | Some _ => s
           | None =>
               set_current
                 (Process (pid (current s))
                    (Pagetable (<[op_index := Some (malloc_directory mem)]>
                                  (outer_ptes (proc_pagetable (current s)))))) s
           end))).
Proof.
  intros op_index ip_index w (Hlen & _ & [Hol Hall] & _) Halloc.
  destruct (outer_ptes (proc_pagetable (current s)) !! op_index)
    as [slot|] eqn:Hslot; cycle 1.
  { unfold alloc_page in Halloc. fold op_index in Halloc.
    by rewrite Hslot in Halloc. }
  assert (op_index < NR_PTES_PER_PAGE)
    by (rewrite <- Hol; by eapply lookup_lt_Some).
  assert (ip_index < NR_PTES_PER_PAGE) by (apply Nat.mod_upper_bound; lia).
  pose proof (Forall_lookup_1 _ _ _ _ Hall Hslot) as Hws.
  exists slot. split_and!; [done..|].
  destruct (first_free_defined (mapcounts s) 0 NR_PAGEFRAMES) as [[i|] Hfree];
    [lia|..].
  - left. exists i. split; [done|].
    rewrite (alloc_page_found mem vpn rw s slot i) in Halloc; try done.
    + by injection Halloc.
    + by rewrite alloc_directory_length.
  - right. split; [done|].
    rewrite (alloc_page_exhausted mem vpn rw s slot) in Halloc by done.
    by injection Halloc.
Qed.

Lemma free_page_cases vpn s s' :
  let op_index := vpn / NR_PTES_PER_PAGE in
  let ip_index := vpn `mod` NR_PTES_PER_PAGE in
  free_page vpn s = Some s' →
  ∃ d e c,
    outer_ptes (proc_pagetable (current s)) !! op_index = Some (Some d) ∧
    ptes d !! ip_index = Some e ∧
    mapcounts s !! pfn e = Some c ∧
    s' = set_mapcounts (<[pfn e := wrap32 (c - 1)]> (mapcounts s))
           (put_cur_pte s op_index ip_index d zero_pte).
Proof.
  intros op_index ip_index Hfree.
  destruct (cur_pte s op_index ip_index) as [e|] eqn:He; cycle 1.
  { by rewrite free_page_None in Hfree. }
  destruct (cur_pte_directory _ _ _ _ He) as (d & Hd & Hde).
  rewrite (free_page_unfold vpn s d e) in Hfree by done.
  fold op_index ip_index in Hfree.
  destruct (mapcounts s !! pfn e) as [c|] eqn:Hc; [|done].
  exists d, e, c. split_and!; [done..|]. by injection Hfree.
Qed.

Lemma handle_page_fault_outcomes vpn rw s b s' :
  let op_index := vpn / NR_PTES_PER_PAGE in
  let ip_index := vpn `mod` NR_PTES_PER_PAGE in
  length (mapcounts s) = NR_PAGEFRAMES →
  handle_page_fault vpn rw s = Some (b, s') →
  ∃ d e,
    outer_ptes (proc_pagetable (current s)) !! op_index = Some (Some d) ∧
    ptes d !! ip_index = Some e ∧
    ((private e = false ∧ b = false ∧ s' = s) ∨
     (private e = true ∧ ∃ c, mapcounts s !! pfn e = Some c ∧
        ((c = 1%Z ∧ b = true ∧
          s' = put_cur_pte s op_index ip_index d (set_writable true e)) ∨
         (c ≠ 1%Z ∧ first_free (mapcounts s) 0 NR_PAGEFRAMES = Some None ∧
          b = false ∧ s' = s) ∨
         (c ≠ 1%Z ∧ ∃ i c',
            first_free (mapcounts s) 0 NR_PAGEFRAMES = Some (Some i) ∧
            <[i := 1%Z]> (mapcounts s) !! pfn e = Some c' ∧ b = true ∧
            s' = set_mapcounts
                   (<[pfn e := wrap32 (c' - 1)]> (<[i := 1%Z]> (mapcounts s)))
                   (put_cur_pte s op_index ip_index d
                      (Pte (valid e) true i (private e))))))).
Proof.
  intros op_index ip_index Hlen Hpf.
  destruct (cur_pte s op_index ip_index) as [e|] eqn:He; cycle 1.
  { unfold handle_page_fault in Hpf. fold op_index ip_index in Hpf.
    by rewrite He in Hpf. }
  destruct (cur_pte_directory _ _ _ _ He) as (d & Hd & Hde).
  exists d, e. split_and!; [done..|].
  destruct (private e) eqn:Hp; cycle 1.
  { left. rewrite (handle_page_fault_not_private vpn rw s e) in Hpf by done.
    by injection Hpf as <- <-. }
  right. split; [done|].
  destruct (mapcounts s !! pfn e) as [c|] eqn:Hc; cycle 1.
  { unfold handle_page_fault in Hpf. fold op_index ip_index in Hpf.
    rewrite He in Hpf. simpl in Hpf. by rewrite Hp, Hc in Hpf. }
  exists c. split; [done|].
  destruct (decide (c = 1%Z)) as [->|Hc1].
  { left. rewrite (handle_page_fault_exclusive vpn rw s d e) in Hpf by done.
    by injection Hpf as <- <-. }
  right.
  destruct (first_free_defined (mapcounts s) 0 NR_PAGEFRAMES) as [[i|] Hfree];
    [lia|..].
  - right. split; [done|].
    destruct (first_free_Some _ _ _ _ Hfree) as (Hi & _ & _).
    destruct (lookup_lt_is_Some_2 (<[i:=1%Z]> (mapcounts s)) (pfn e))
      as [c' Hc'].
    { rewrite length_insert. by eapply lookup_lt_Some. }
    exists i, c'. split_and!; [done..| |].
    + rewrite (handle_page_fault_rebind vpn rw s d e c c' i) in Hpf by done.
      by injection Hpf.
    + rewrite (handle_page_fault_rebind vpn rw s d e c c' i) in Hpf by done.
      rewrite Hp in Hpf. by injection Hpf.
  - left. rewrite (handle_page_fault_no_frame vpn rw s e c) in Hpf by done.
    by injection Hpf as <- <-.
Qed.

(** ** The shape is preserved *)

Lemma wf_put_pte pt op_index ip_index d x :
  wf_pagetable pt → wf_directory d →
  wf_pagetable (put_pte pt op_index ip_index d x).
Proof.
  intros [Hlen Hall] Hd. split; simpl.
  - by rewrite length_insert.
  - apply Forall_insert; [done|]. unfold wf_slot, wf_directory. simpl.
    by rewrite length_insert.
Qed.

Lemma wf_state_put s op_index ip_index d x mc :
  wf_state s → wf_directory d →
  length mc = NR_PAGEFRAMES → counts_in_range mc →
  wf_state (set_mapcounts mc (put_cur_pte s op_index ip_index d x)).
Proof.
  intros (_ & _ & Hcur & Hps) Hd Hlen Hmc.
  split_and!; simpl; [done..| |done]. by apply wf_put_pte.
Qed.

Lemma counts_in_range_insert_one mc i :
  counts_in_range mc → counts_in_range (<[i := 1%Z]> mc).
Proof. intros Hmc. apply Forall_insert; [done|]. lia. Qed.

Lemma wf_alloc_directory mem slot :
  wf_slot slot → wf_directory (alloc_directory mem slot).
Proof. apply alloc_directory_length. Qed.

Lemma wf_fork_parent_pagetable pt :
  wf_pagetable pt → wf_pagetable (fork_parent_pagetable pt).
Proof.
  intros [Hlen Hall]. split; simpl.
  - by rewrite length_fmap.
  - apply Forall_fmap. eapply Forall_impl; [exact Hall|].
    intros [d|]; simpl; [|done]. unfold wf_directory. simpl.
    by rewrite length_fmap.
Qed.

Lemma wf_fork_child_pagetable proc_mem dir_mem pt :
  wf_pagetable pt → wf_pagetable (fork_child_pagetable proc_mem dir_mem pt).
Proof.
  intros Hwf. pose proof Hwf as [Hlen Hall].
  assert (length (outer_ptes (fork_child_pagetable proc_mem dir_mem pt)) =
          NR_PTES_PER_PAGE) as Hl.
  { unfold fork_child_pagetable. cbn [outer_ptes].
    rewrite length_fork_child_slots; [done|].
    by rewrite length_malloc_pagetable. }
  split; [done|]. apply Forall_lookup_2. intros j slot Hj.
  destruct (lookup_lt_is_Some_2 (outer_ptes pt) j) as [p Hp].
  { rewrite Hlen, <- Hl. by eapply lookup_lt_Some. }
  rewrite (fork_child_slot_lookup _ _ _ _ _ Hwf Hp) in Hj.
  injection Hj as <-.
  pose proof (Forall_lookup_1 _ _ _ _ Hall Hp) as Hwp.
  destruct p as [pd|]; simpl.
  - unfold wf_directory. simpl in *.
    rewrite length_zip_with_l_eq; [done|].
    by rewrite length_fmap, length_seq.
  - destruct (proc_mem j); simpl; [|done]. apply length_malloc_directory.
Qed.

Lemma mapcount_add_length i d mc mc' :
  mapcount_add i d mc = Some mc' → i < length mc ∧ length mc' = length mc.
Proof.
  unfold mapcount_add. destruct (mc !! i) as [c|] eqn:Hc; simpl; [|done].
  intros [= <-]. split; [by eapply lookup_lt_Some|by rewrite length_insert].
Qed.

Lemma bump_counts_inv fs mc mc' :
  bump_counts fs mc = Some mc' → Forall (λ f, f < length mc) fs.
Proof.
  revert mc. induction fs as [|f fs IH]; intros mc; simpl; [by constructor|].
  destruct (mapcount_add f 1 mc) as [mc1|] eqn:Hadd; simpl; [|done].
  apply mapcount_add_length in Hadd as [Hf Hlen]. intros Hb.
  constructor; [done|]. rewrite <- Hlen. by eapply IH.
Qed.

Lemma exec_wf o s s' : wf_state s → exec o s = Some s' → wf_state s'.
Proof.
  intros Hwf Hexec. pose proof Hwf as (Hlen & Hmc & Hcur & Hps).
  destruct o as [vpn rw|vpn|vpn rw|target]; simpl in Hexec.
  - destruct (alloc_page _ vpn rw s) as [r|] eqn:Halloc; [|done].
    injection Hexec as <-.
    destruct (alloc_page_cases _ _ _ _ _ Hwf Halloc)
      as (slot & Hslot & Hws & _ & [(i & _ & ->)|(_ & ->)]); simpl.
    + apply wf_state_put; [done|by apply wf_alloc_directory| |].
      * by rewrite length_insert.
      * by apply counts_in_range_insert_one.
    + destruct slot; [done|]. split_and!; simpl; [done..| |done].
      destruct Hcur as [Hol Hall].
      split; simpl; [by rewrite length_insert|].
      apply Forall_insert; [done|]. apply length_malloc_directory.
  - destruct (free_page_cases _ _ _ Hexec) as (d & e & c & Hd & _ & _ & ->).
    apply wf_state_put; [done| | |].
    + destruct Hcur as [_ Hall]. by apply (Forall_lookup_1 _ _ _ _ Hall Hd).
    + by rewrite length_insert.
    + by apply counts_in_range_insert.
  - destruct (handle_page_fault _ rw s) as [[b s1]|] eqn:Hpf; [|done].
    injection Hexec as ->.
    destruct (handle_page_fault_outcomes _ _ _ _ _ Hlen Hpf)
      as (d & e & Hd & _ & Hcases).
    assert (wf_directory d) as Hwd.
    { destruct Hcur as [_ Hall]. by apply (Forall_lookup_1 _ _ _ _ Hall Hd). }
    destruct Hcases as [(_ & _ & ->)|(_ & c & _ &
      [(_ & _ & ->)|[(_ & _ & _ & ->)|(_ & i & c' & _ & _ & _ & ->)]])];
      [done| |done|].
    + split_and!; simpl; [done..| |done]. by apply wf_put_pte.
    + apply wf_state_put; [done..| |].
      * by rewrite !length_insert.
      * by apply counts_in_range_insert, counts_in_range_insert_one.
  - destruct (find_process target (processes s)) as [[p rest]|] eqn:Hfind.
    + destruct (switch_process_found zero_process_mem
                  (λ _, zero_directory_mem) _ _ _ _ Hfind) as [Hs1 Hperm].
      rewrite Hs1 in Hexec. injection Hexec as <-.
      assert (Forall (λ q, wf_pagetable (proc_pagetable q))
                (p :: rest ++ [current s])) as Hall.
      { rewrite Hperm. by constructor. }
      inversion Hall; subst. by split_and!.
    + rewrite switch_process_fork in Hexec by done.
      destruct (bump_counts _ (mapcounts s)) as [mc'|] eqn:Hb; [|done].
      injection Hexec as <-.
      destruct (bump_counts_Some _ _ Hmc (bump_counts_inv _ _ _ Hb))
        as (mc1 & Hb1 & Hl1 & Hr1 & _).
      rewrite Hb in Hb1. injection Hb1 as <-.
      split_and!; simpl; [lia|done| |].
      * by apply wf_fork_child_pagetable.
      * apply Forall_app. split; [done|]. constructor; [|constructor].
        by apply wf_fork_parent_pagetable.
Qed.

Lemma run_wf ops s s' : wf_state s → run ops s = Some s' → wf_state s'.
Proof.
  revert s. induction ops as [|o ops IH]; intros s Hwf; simpl.
  - by intros [= <-].
  - destruct (exec o s) as [s1|] eqn:Hexec; simpl; [|done].
    apply IH. by eapply exec_wf.
Qed.

Lemma wf_initial_state : wf_state initial_state.
Proof.
  split_and!; simpl.
  - by rewrite length_replicate.
  - apply Forall_replicate. lia.
  - split; simpl; [by rewrite length_replicate|]. by apply Forall_replicate.
  - constructor.
Qed.

(** C7: in every state reached from the initial one by any sequence of the
    four operations, [alloc_page] with a free frame available returns the
    lowest-numbered frame whose count is zero and maps the page to it. *)
Theorem alloc_page_smallest_pfn ops s mem vpn rw :
  run ops initial_state = Some s →
  vpn < NR_PTES_PER_PAGE * NR_PTES_PER_PAGE →
  (∃ f, mapcounts s !! f = Some 0%Z) →
  ∃ i s' e,
    alloc_page mem vpn rw s = Some (Z.of_nat i, s') ∧
    mapcounts s !! i = Some 0%Z ∧
    (∀ j, j < i → mapcounts s !! j ≠ Some 0%Z) ∧
    cur_pte s' (vpn / NR_PTES_PER_PAGE) (vpn `mod` NR_PTES_PER_PAGE) = Some e ∧
    valid e = true ∧ pfn e = i ∧
    mapcounts s' !! i = Some 1%Z.
Proof.
  intros Hrun Hvpn Hfree.
  pose proof (run_wf _ _ _ wf_initial_state Hrun) as Hwf.
  destruct (alloc_page_lowest_free mem vpn rw s Hwf Hvpn Hfree)
    as (i & slot & Hslot & Hws & Hi & Heq).
  destruct (first_free_Some _ _ _ _ Hi) as (Hlt & Hz & Hlow).
  destruct Hwf as (Hlen & _ & Hcur & _).
  destruct (wf_pagetable_slot _ _ Hcur Hvpn) as (Hip & _).
  eexists i, _, _. split; [exact Heq|].
  split; [done|]. split; [intros j Hj; apply Hlow; lia|]. split.
  { change (cur_pte (set_mapcounts ?mc ?s0) ?o ?j) with (cur_pte s0 o j).
    apply cur_pte_put_cur_pte; [by eapply lookup_lt_Some|].
    by rewrite alloc_directory_length. }
  simpl. split_and!; [done..|]. apply list_lookup_insert_eq. lia.
Qed.

(** ** Frames mapped by a page table *)

Lemma valid_frames_cons e l :
  valid_frames (e :: l) = pte_frames e ++ valid_frames l.
Proof.
  unfold valid_frames, pte_frames. rewrite filter_cons.
  destruct (valid e); [by rewrite decide_True|by rewrite decide_False].
Qed.

Lemma valid_frames_app l1 l2 :
  valid_frames (l1 ++ l2) = valid_frames l1 ++ valid_frames l2.
Proof. unfold valid_frames. by rewrite filter_app, fmap_app. Qed.

Lemma valid_frames_insert l ip_index e :
  l !! ip_index = Some e →
  ∃ R, valid_frames l ≡ₚ pte_frames e ++ R ∧
       ∀ x, valid_frames (<[ip_index := x]> l) ≡ₚ pte_frames x ++ R.
Proof.
  intros He.
  exists (valid_frames (take ip_index l) ++ valid_frames (drop (S ip_index) l)).
  split.
  - rewrite <- (take_drop_middle l ip_index e He) at 1.
    rewrite valid_frames_app, valid_frames_cons.
    by rewrite Permutation_app_swap_app.
  - intros x. rewrite insert_take_drop by (by eapply lookup_lt_Some).
    rewrite valid_frames_app, valid_frames_cons.
    by rewrite Permutation_app_swap_app.
Qed.

Lemma pagetable_frames_insert pt op_index slot :
  outer_ptes pt !! op_index = Some slot →
  ∃ R, pagetable_frames pt ≡ₚ slot_frames slot ++ R ∧
       ∀ slot', pagetable_frames (Pagetable (<[op_index := slot']> (outer_ptes pt)))
                  ≡ₚ slot_frames slot' ++ R.
Proof.
  intros Hs. unfold pagetable_frames. fold slot_frames.
  exists ((take op_index (outer_ptes pt) ≫= slot_frames) ++
          (drop (S op_index) (outer_ptes pt) ≫= slot_frames)).
  split.
  - rewrite <- (take_drop_middle (outer_ptes pt) op_index slot Hs) at 1.
    rewrite bind_app, bind_cons. by rewrite Permutation_app_swap_app.
  - intros slot'. cbn [outer_ptes].
    rewrite insert_take_drop by (by eapply lookup_lt_Some).
    rewrite bind_app, bind_cons. by rewrite Permutation_app_swap_app.
Qed.

Lemma pagetable_frames_put pt op_index ip_index slot d e :
  outer_ptes pt !! op_index = Some slot →
  slot_frames slot = directory_frames d →
  ptes d !! ip_index = Some e →
  ∃ R, pagetable_frames pt ≡ₚ pte_frames e ++ R ∧
       ∀ x, pagetable_frames (put_pte pt op_index ip_index d x)
              ≡ₚ pte_frames x ++ R.
Proof.
  intros Hs Hfr He.
  destruct (pagetable_frames_insert pt op_index slot Hs) as (R1 & H1 & H1').
  destruct (valid_frames_insert (ptes d) ip_index e He) as (R2 & H2 & H2').
  exists (R2 ++ R1). split.
  - rewrite H1, Hfr. unfold directory_frames. fold (valid_frames (ptes d)).
    by rewrite H2, (assoc_L (++)).
  - intros x. unfold put_pte. rewrite H1'. simpl.
    unfold directory_frames. simpl.
    fold (valid_frames (<[ip_index:=x]> (ptes d))).
    by rewrite H2', (assoc_L (++)).
Qed.

Lemma state_frames_put s op_index ip_index slot d e :
  outer_ptes (proc_pagetable (current s)) !! op_index = Some slot →
  slot_frames slot = directory_frames d →
  ptes d !! ip_index = Some e →
  ∃ R, state_frames s ≡ₚ pte_frames e ++ R ∧
       ∀ x mc, state_frames (set_mapcounts mc (put_cur_pte s op_index ip_index d x))
                 ≡ₚ pte_frames x ++ R.
Proof.
  intros Hs Hfr He.
  destruct (pagetable_frames_put _ _ _ _ _ _ Hs Hfr He) as (R & H1 & H2).
  exists (R ++ (processes s ≫= λ p, pagetable_frames (proc_pagetable p))).
  split.
  - unfold state_frames. by rewrite H1, (assoc_L (++)).
  - intros x mc. unfold state_frames. simpl.
    by rewrite H2, (assoc_L (++)).
Qed.

Global Instance occurrences_Permutation f :
  Proper ((≡ₚ) ==> (=)) (occurrences f).
Proof. intros l1 l2 Hl. unfold occurrences. by rewrite Hl. Qed.

Lemma valid_frames_invalid {A} (g : A → pte) (l : list A) :
  (∀ x, valid (g x) = false) → valid_frames (g <$> l) = [].
Proof.
  intros Hg. induction l as [|x l IH]; [done|].
  rewrite fmap_cons, valid_frames_cons, IH. unfold pte_frames.
  by rewrite Hg.
Qed.

Lemma directory_frames_zero :
  directory_frames (malloc_directory zero_directory_mem) = [].
Proof. by apply valid_frames_invalid. Qed.

(** ** Counting *)

Lemma nr_valid_pagetable_frames pt :
  nr_valid_pagetable pt = length (pagetable_frames pt).
Proof.
  unfold nr_valid_pagetable, pagetable_frames.
  induction (outer_ptes pt) as [|slot l IH]; [done|].
  rewrite fmap_cons, bind_cons, length_app. simpl. rewrite IH. f_equal.
  destruct slot as [d|]; simpl; [|done].
  unfold nr_valid_directory, directory_frames. by rewrite length_fmap.
Qed.

Lemma nr_valid_ptes_frames s : nr_valid_ptes s = length (state_frames s).
Proof.
  unfold nr_valid_ptes, state_frames.
  rewrite length_app, nr_valid_pagetable_frames. f_equal.
  induction (processes s) as [|p l IH]; [done|].
  rewrite fmap_cons, bind_cons, length_app. simpl.
  by rewrite IH, nr_valid_pagetable_frames.
Qed.

Lemma sum_indicator x a n (g : nat → Z) :
  foldr Z.add 0%Z
    ((λ f, (if decide (x = f) then 1 else 0) + g f)%Z <$> seq a n) =
  ((if decide (a ≤ x < a + n)%nat then 1 else 0) +
   foldr Z.add 0%Z (g <$> seq a n))%Z.
Proof.
  revert a. induction n as [|n IH]; intros a; simpl.
  - rewrite decide_False by lia. done.
  - rewrite IH. unfold fmap.
    destruct (decide (x = a)) as [->|Hne].
    + rewrite decide_False by lia. rewrite decide_True by lia. lia.
    + destruct (decide (S a ≤ x < S a + n)).
      * rewrite decide_True by lia. lia.
      * rewrite decide_False by lia. lia.
Qed.

Lemma sum_tally N (l : list nat) :
  Forall (λ f, f < N) l →
  foldr Z.add 0%Z ((λ f, Z.of_nat (occurrences f l)) <$> seq 0 N) =
  Z.of_nat (length l).
Proof.
  induction 1 as [|x l Hx Hl IH].
  - simpl. induction (seq 0 N) as [|y k IHk]; [done|].
    rewrite fmap_cons. simpl. by rewrite IHk.
  - transitivity
      (foldr Z.add 0%Z
         ((λ f, (if decide (x = f) then 1 else 0) +
                Z.of_nat (occurrences f l))%Z <$> seq 0 N)).
    { f_equal. apply list_fmap_ext. intros _ f _.
      rewrite occurrences_cons. destruct (decide (x = f)); lia. }
    rewrite sum_indicator, IH, decide_True by lia. simpl length. lia.
Qed.

Lemma accounted_conserved s : accounted s → conserved s.
Proof.
  intros [(Hlen & _) Hcounts Hrange _]. unfold conserved, sum_mapcounts.
  rewrite nr_valid_ptes_frames, <- (sum_tally NR_PAGEFRAMES) by done.
  f_equal. apply list_eq. intros f.
  rewrite list_lookup_fmap.
  destruct (decide (f < NR_PAGEFRAMES)) as [Hf|Hf].
  - rewrite Hcounts by done. by rewrite lookup_seq_lt.
  - rewrite lookup_ge_None_2 by lia.
    by rewrite (lookup_ge_None_2 (seq 0 NR_PAGEFRAMES))
      by (rewrite length_seq; lia).
Qed.

(** ** Reference counts against mapped frames *)

Global Instance counts_match_Permutation mc :
  Proper ((≡ₚ) ==> iff) (counts_match mc).
Proof.
  intros l1 l2 Hl. unfold counts_match.
  split; intros H f Hf; [rewrite <- Hl|rewrite Hl]; by apply H.
Qed.

Lemma counts_match_add mc R i :
  length mc = NR_PAGEFRAMES → counts_match mc R → i < NR_PAGEFRAMES →
  counts_match (<[i := Z.of_nat (S (occurrences i R))]> mc) (i :: R).
Proof.
  intros Hlen Hm Hi f Hf. rewrite occurrences_cons.
  destruct (decide (i = f)) as [->|Hne].
  - rewrite list_lookup_insert_eq by lia. done.
  - rewrite list_lookup_insert_ne by done. by apply Hm.
Qed.

Lemma counts_match_remove mc R g :
  length mc = NR_PAGEFRAMES → counts_match mc (g :: R) → g < NR_PAGEFRAMES →
  counts_match (<[g := Z.of_nat (occurrences g R)]> mc) R.
Proof.
  intros Hlen Hm Hg f Hf.
  destruct (decide (g = f)) as [->|Hne].
  - rewrite list_lookup_insert_eq by lia. done.
  - rewrite list_lookup_insert_ne by done. rewrite (Hm f Hf).
    rewrite occurrences_cons, decide_False by done. done.
Qed.

Lemma counts_match_zero mc frames i :
  counts_match mc frames → i < NR_PAGEFRAMES → mc !! i = Some 0%Z →
  occurrences i frames = 0.
Proof. intros Hm Hi Hz. rewrite (Hm i Hi) in Hz. injection Hz. lia. Qed.

(** ** Private entries are valid *)

Lemma read_pte_put_pte pt op_index ip_index d x o i e' :
  op_index < length (outer_ptes pt) →
  read_pte (put_pte pt op_index ip_index d x) o i = Some e' →
  (o = op_index ∧ i = ip_index ∧ e' = x) ∨
  (o = op_index ∧ i ≠ ip_index ∧ ptes d !! i = Some e') ∨
  (o ≠ op_index ∧ read_pte pt o i = Some e').
Proof.
  intros Hop. unfold read_pte, put_pte. simpl.
  destruct (decide (o = op_index)) as [->|Ho].
  - rewrite list_lookup_insert_eq by done. simpl.
    destruct (decide (i = ip_index)) as [->|Hi].
    + intros Hx. left. split_and!; [done..|].
      apply list_lookup_insert_Some in Hx as [(_ & -> & _)|(? & _)]; done.
    + rewrite list_lookup_insert_ne by done. intros Hx. right. by left.
  - rewrite list_lookup_insert_ne by done. intros Hx. right. by right.
Qed.

Lemma private_implies_valid_put pt op_index ip_index d x :
  op_index < length (outer_ptes pt) →
  private_implies_valid pt → directory_private_ok d →
  (private x = true → valid x = true) →
  private_implies_valid (put_pte pt op_index ip_index d x).
Proof.
  intros Hop Hpt Hd Hx o i e' Hr Hp.
  destruct (read_pte_put_pte _ _ _ _ _ _ _ _ Hop Hr)
    as [(_ & _ & ->)|[(_ & _ & He)|(_ & He)]].
  - by apply Hx.
  - by eapply Hd.
  - by eapply Hpt.
Qed.

Lemma directory_private_ok_in_place pt op_index d :
  private_implies_valid pt → outer_ptes pt !! op_index = Some (Some d) →
  directory_private_ok d.
Proof.
  intros Hpt Hd i e He. apply (Hpt op_index i). apply read_pte_Some. eauto.
Qed.

Lemma lookup_malloc_directory mem i e :
  ptes (malloc_directory mem) !! i = Some e → e = mem i.
Proof.
  unfold malloc_directory. simpl. rewrite list_lookup_fmap.
  intros (j & Hj & ->)%fmap_Some. apply lookup_seq in Hj as [-> _]. done.
Qed.

Lemma directory_private_ok_zero :
  directory_private_ok (malloc_directory zero_directory_mem).
Proof. intros i e ->%lookup_malloc_directory. done. Qed.

Lemma directory_private_ok_alloc pt op_index slot :
  private_implies_valid pt → outer_ptes pt !! op_index = Some slot →
  directory_private_ok (alloc_directory zero_directory_mem slot).
Proof.
  intros Hpt Hslot. destruct slot as [d|]; simpl.
  - by eapply directory_private_ok_in_place.
  - apply directory_private_ok_zero.
Qed.

Lemma slot_frames_alloc slot :
  slot_frames slot = directory_frames (alloc_directory zero_directory_mem slot).
Proof. destruct slot; simpl; [done|]. by rewrite directory_frames_zero. Qed.

Lemma private_implies_valid_insert pt op_index d :
  private_implies_valid pt → directory_private_ok d →
  private_implies_valid (Pagetable (<[op_index := Some d]> (outer_ptes pt))).
Proof.
  intros Hpt Hd o i e (d' & Hd' & He)%read_pte_Some Hp. simpl in Hd'.
  apply list_lookup_insert_Some in Hd' as [(-> & [= <-] & _)|(Hne & Hold)].
  - by eapply Hd.
  - eapply Hpt; [|done]. apply read_pte_Some. eauto.
Qed.

(** ** The accounting invariant is preserved by legal calls *)

Lemma alloc_page_accounted vpn rw s r :
  accounted s → legal (AllocPage vpn rw) s = true →
  alloc_page zero_directory_mem vpn rw s = Some r → accounted (snd r).
Proof.
  intros Hacc Hlegal Halloc.
  assert (wf_state (snd r)) as Hwf'.
  { apply (exec_wf (AllocPage vpn rw) s); [by destruct Hacc|].
    simpl. by rewrite Halloc. }
  destruct Hacc as [Hwf Hcounts Hrange Hpriv].
  pose proof Hwf as (Hlen & _ & [Hol _] & _).
  inversion Hpriv as [|? ? Hpc Hpp]; subst.
  destruct (alloc_page_cases _ _ _ _ _ Hwf Halloc)
    as (slot & Hslot & Hws & Hip & [(i & Hfree & ->)|(Hfree & ->)]).
  - cbn [snd] in *.
    set (op_index := vpn / NR_PTES_PER_PAGE) in *.
    set (ip_index := vpn `mod` NR_PTES_PER_PAGE) in *.
    set (d := alloc_directory zero_directory_mem slot) in *.
    destruct (lookup_lt_is_Some_2 (ptes d) ip_index) as [e He].
    { unfold d. by rewrite alloc_directory_length. }
    assert (valid e = false) as Hv.
    { destruct slot as [d0|]; simpl in *.
      - unfold cur_pte in Hlegal. fold op_index ip_index in Hlegal.
        rewrite (proj2 (read_pte_Some _ _ _ e)) in Hlegal by eauto.
        by apply negb_true_iff in Hlegal.
      - by apply lookup_malloc_directory in He as ->. }
    destruct (state_frames_put s op_index ip_index slot d e Hslot
                (slot_frames_alloc slot) He) as (R & HR & HR').
    unfold pte_frames in HR. rewrite Hv in HR. simpl in HR.
    destruct (first_free_Some _ _ _ _ Hfree) as (Hi & Hz & _).
    assert (occurrences i R = 0) as Hocc.
    { rewrite <- HR. apply (counts_match_zero (mapcounts s)); [done|lia|done]. }
    split.
    + done.
    + change (counts_match (<[i:=1%Z]> (mapcounts s))
                (state_frames (set_mapcounts (<[i:=1%Z]> (mapcounts s))
                   (put_cur_pte s op_index ip_index d
                      (Pte true (bool_decide (rw ≠ 1%Z)) i
                         (bool_decide (rw ≠ 1%Z))))))).
      rewrite HR'. simpl.
      replace 1%Z with (Z.of_nat (S (occurrences i R))) by (rewrite Hocc; done).
      apply counts_match_add; [done| |lia].
      fold (counts_match (mapcounts s) (state_frames s)) in Hcounts.
      by rewrite HR in Hcounts.
    + rewrite HR'. simpl. constructor; [lia|]. by rewrite <- HR.
    + constructor; [|done]. simpl.
      apply private_implies_valid_put; [by eapply lookup_lt_Some|done| |done].
      by eapply directory_private_ok_alloc.
  - cbn [snd] in *. destruct slot as [d0|]; [by split|].
    set (op_index := vpn / NR_PTES_PER_PAGE) in *.
    destruct (pagetable_frames_insert _ _ _ Hslot) as (R & HR & HR').
    assert (state_frames
              (set_current
                 (Process (pid (current s))
                    (Pagetable
                       (<[op_index:=Some (malloc_directory zero_directory_mem)]>
                          (outer_ptes (proc_pagetable (current s)))))) s)
            ≡ₚ state_frames s) as Hsame.
    { unfold state_frames. simpl. rewrite HR', HR. simpl.
      by rewrite directory_frames_zero. }
    split.
    + done.
    + intros f Hf. rewrite Hsame. by apply Hcounts.
    + by rewrite Hsame.
    + constructor; [|done]. simpl.
      apply private_implies_valid_insert; [done|].
      apply directory_private_ok_zero.
Qed.

Lemma free_page_accounted vpn s s' :
  accounted s → legal (FreePage vpn) s = true →
  free_page vpn s = Some s' → accounted s'.
Proof.
  intros Hacc Hlegal Hfree.
  assert (wf_state s') as Hwf'.
  { apply (exec_wf (FreePage vpn) s); [by destruct Hacc|done]. }
  destruct Hacc as [Hwf Hcounts Hrange Hpriv].
  pose proof Hwf as (Hlen & Hmc & _).
  inversion Hpriv as [|? ? Hpc Hpp]; subst.
  destruct (free_page_cases _ _ _ Hfree) as (d & e & c & Hd & He & Hc & ->).
  set (op_index := vpn / NR_PTES_PER_PAGE) in *.
  set (ip_index := vpn `mod` NR_PTES_PER_PAGE) in *.
  assert (valid e = true) as Hv.
  { simpl in Hlegal. unfold cur_pte in Hlegal.
    fold op_index ip_index in Hlegal.
    by rewrite (proj2 (read_pte_Some _ _ _ e)) in Hlegal by eauto. }
  destruct (state_frames_put s op_index ip_index (Some d) d e Hd eq_refl He)
    as (R & HR & HR').
  unfold pte_frames in HR. rewrite Hv in HR. simpl in HR.
  assert (pfn e < NR_PAGEFRAMES) as Hg.
  { rewrite HR in Hrange. by inversion Hrange. }
  fold (counts_match (mapcounts s) (state_frames s)) in Hcounts.
  rewrite HR in Hcounts.
  assert (c = Z.of_nat (S (occurrences (pfn e) R))) as ->.
  { rewrite (Hcounts _ Hg), occurrences_cons, decide_True in Hc by done.
    by injection Hc. }
  pose proof (Forall_lookup_1 _ _ _ _ Hmc Hc) as Hcr. simpl in Hcr.
  split.
  - done.
  - change (counts_match
              (<[pfn e:=wrap32 (Z.of_nat (S (occurrences (pfn e) R)) - 1)]>
                 (mapcounts s))
              (state_frames
                 (set_mapcounts
                    (<[pfn e:=wrap32 (Z.of_nat (S (occurrences (pfn e) R)) - 1)]>
                       (mapcounts s))
                    (put_cur_pte s op_index ip_index d zero_pte)))).
    rewrite HR'. simpl. rewrite wrap32_small by lia.
    replace (Z.of_nat (S (occurrences (pfn e) R)) - 1)%Z
      with (Z.of_nat (occurrences (pfn e) R)) by lia.
    by apply counts_match_remove.
  - rewrite HR'. simpl. rewrite HR in Hrange. by inversion Hrange.
  - constructor; [|done]. simpl.
    apply private_implies_valid_put; [by eapply lookup_lt_Some|done| |done].
    by eapply directory_private_ok_in_place.
Qed.

Lemma handle_page_fault_accounted vpn rw s b s' :
  accounted s → handle_page_fault vpn rw s = Some (b, s') → accounted s'.
Proof.
  intros Hacc Hpf.
  assert (wf_state s') as Hwf'.
  { apply (exec_wf (HandlePageFault vpn rw) s); [by destruct Hacc|].
    simpl. by rewrite Hpf. }
  destruct Hacc as [Hwf Hcounts Hrange Hpriv].
  pose proof Hwf as (Hlen & Hmc & _).
  inversion Hpriv as [|? ? Hpc Hpp]; subst.
  destruct (handle_page_fault_outcomes _ _ _ _ _ Hlen Hpf)
    as (d & e & Hd & He & Hcases).
  set (op_index := vpn / NR_PTES_PER_PAGE) in *.
  set (ip_index := vpn `mod` NR_PTES_PER_PAGE) in *.
  destruct (state_frames_put s op_index ip_index (Some d) d e Hd eq_refl He)
    as (R & HR & HR').
  assert (directory_private_ok d) as Hdok
    by (by eapply directory_private_ok_in_place).
  destruct Hcases as [(_ & _ & ->)|(Hp & c & Hc &
    [(_ & _ & ->)|[(_ & _ & _ & ->)|(Hc1 & i & c' & Hfree & Hc' & _ & ->)]])];
    [by split| |by split|].
  - assert (state_frames (put_cur_pte s op_index ip_index d (set_writable true e))
            ≡ₚ state_frames s) as Hsame.
    { rewrite HR. apply (HR' (set_writable true e) (mapcounts s)). }
    split.
    + done.
    + intros f Hf. rewrite Hsame. by apply Hcounts.
    + by rewrite Hsame.
    + constructor; [|done]. simpl.
      apply private_implies_valid_put; [by eapply lookup_lt_Some|done..|].
      simpl. intros _. by eapply Hdok.
  - assert (valid e = true) as Hv by (by eapply Hdok).
    unfold pte_frames in HR. rewrite Hv in HR. simpl in HR.
    assert (pfn e < NR_PAGEFRAMES) as Hg.
    { rewrite HR in Hrange. by inversion Hrange. }
    fold (counts_match (mapcounts s) (state_frames s)) in Hcounts.
    rewrite HR in Hcounts.
    destruct (first_free_Some _ _ _ _ Hfree) as (Hi & Hz & _).
    assert (occurrences i (pfn e :: R) = 0) as Hocc.
    { apply (counts_match_zero (mapcounts s)); [done|lia|done]. }
    assert (i ≠ pfn e) as Hne.
    { intros ->. rewrite occurrences_cons, decide_True in Hocc by done. lia. }
    assert (c = Z.of_nat (S (occurrences (pfn e) R))) as ->.
    { rewrite (Hcounts _ Hg), occurrences_cons, decide_True in Hc by done.
      by injection Hc. }
    rewrite list_lookup_insert_ne, Hc in Hc' by done. injection Hc' as <-.
    pose proof (Forall_lookup_1 _ _ _ _ Hmc Hc) as Hcr. simpl in Hcr.
    split.
    + done.
    + match goal with
      | |- ∀ f, _ → mapcounts ?st !! f = _ =>
          change (counts_match (mapcounts st) (state_frames st))
      end.
      rewrite HR'. unfold pte_frames. cbn [valid pfn]. rewrite Hv. simpl.
      rewrite wrap32_small by lia.
      replace (Z.of_nat (S (occurrences (pfn e) R)) - 1)%Z
        with (Z.of_nat (occurrences (pfn e) (i :: R)))
        by (rewrite occurrences_cons, decide_False by done; lia).
      apply counts_match_remove; [by rewrite length_insert| |done].
      rewrite perm_swap.
      replace 1%Z with (Z.of_nat (S (occurrences i (pfn e :: R))))
        by (rewrite Hocc; done).
      apply counts_match_add; [done..|lia].
    + rewrite HR'. unfold pte_frames. cbn [valid pfn]. rewrite Hv. simpl.
      rewrite HR in Hrange. constructor; [lia|]. by inversion Hrange.
    + constructor; [|done]. simpl.
      apply private_implies_valid_put; [by eapply lookup_lt_Some|done..|].
      simpl. by intros _.
Qed.

(** The frames of both sides of a fork. *)
Lemma valid_frames_fork_parent l :
  valid_frames (fork_parent_pte <$> l) = valid_frames l.
Proof.
  induction l as [|e l IH]; [done|].
  rewrite fmap_cons, !valid_frames_cons, IH. f_equal.
  unfold fork_parent_pte, pte_frames. by destruct (valid e) eqn:Hv; simpl; rewrite ?Hv.
Qed.

Lemma valid_frames_fork_child l k :
  length k = length l → Forall (λ c, valid c = false) k →
  valid_frames (zip_with fork_child_pte l k) = valid_frames l.
Proof.
  revert k. induction l as [|e l IH]; intros [|c k]; simpl; try done.
  intros [= Hlen] Hk. inversion Hk as [|? ? Hc Hk']; subst.
  rewrite !valid_frames_cons, IH by done. f_equal.
  unfold fork_child_pte, pte_frames. destruct (valid e) eqn:Hv; simpl; [done|].
  by rewrite Hc.
Qed.

Lemma pagetable_frames_fork_parent pt :
  pagetable_frames (fork_parent_pagetable pt) = pagetable_frames pt.
Proof.
  unfold pagetable_frames, fork_parent_pagetable. simpl.
  induction (outer_ptes pt) as [|slot l IH]; [done|].
  rewrite fmap_cons, !bind_cons, IH. f_equal.
  destruct slot as [d|]; simpl; [|done].
  apply valid_frames_fork_parent.
Qed.

Lemma frames_fork_child_slots j ps cs :
  length cs = length ps → Forall wf_slot ps → Forall (λ c, c = None) cs →
  fork_child_slots (λ _, zero_directory_mem) j ps cs ≫= slot_frames =
  ps ≫= slot_frames.
Proof.
  revert j cs.
  induction ps as [|p ps IH]; intros j [|c cs];
    cbn [fork_child_slots length]; try done.
  intros [= Hlen] Hps Hcs.
  inversion Hps as [|? ? Hp Hps']; inversion Hcs as [|? ? Hc Hcs']; subst.
  rewrite !bind_cons, IH by done. f_equal.
  destruct p as [pd|]; simpl; [|done].
  unfold directory_frames. simpl.
  apply valid_frames_fork_child.
  - rewrite length_fmap, length_seq. by symmetry.
  - apply Forall_fmap, Forall_true. done.
Qed.

Lemma pagetable_frames_fork_child pt :
  wf_pagetable pt →
  pagetable_frames
    (fork_child_pagetable zero_process_mem (λ _, zero_directory_mem) pt) =
  pagetable_frames pt.
Proof.
  intros [Hlen Hall]. unfold pagetable_frames, fork_child_pagetable.
  cbn [outer_ptes]. apply frames_fork_child_slots; [|done|].
  - by rewrite length_malloc_pagetable.
  - simpl. apply Forall_fmap, Forall_true. done.
Qed.

Lemma private_implies_valid_fork_parent pt :
  private_implies_valid pt → private_implies_valid (fork_parent_pagetable pt).
Proof.
  intros Hpt o i e'. rewrite read_pte_fork_parent.
  intros (e & He & ->)%fmap_Some.
  replace (private (fork_parent_pte e)) with (private e)
    by (unfold fork_parent_pte; by destruct (valid e)).
  replace (valid (fork_parent_pte e)) with (valid e)
    by (unfold fork_parent_pte; destruct (valid e) eqn:Hv; simpl;
        by rewrite ?Hv).
  by apply (Hpt o i).
Qed.

Lemma private_implies_valid_fork_child pt :
  wf_pagetable pt →
  private_implies_valid
    (fork_child_pagetable zero_process_mem (λ _, zero_directory_mem) pt).
Proof.
  intros Hwf o i e' (d' & Hd' & He')%read_pte_Some Hp.
  destruct (outer_ptes pt !! o) as [p|] eqn:Hpo; cycle 1.
  { apply lookup_ge_None in Hpo. apply lookup_lt_Some in Hd'.
    destruct (wf_fork_child_pagetable zero_process_mem
                (λ _, zero_directory_mem) pt Hwf) as [Hl _].
    destruct Hwf as [Hl' _]. lia. }
  rewrite (fork_child_slot_lookup _ _ _ _ _ Hwf Hpo) in Hd'.
  destruct p as [pd|]; simpl in Hd'; [|done].
  injection Hd' as <-. simpl in He'.
  apply lookup_zip_with_Some in He' as (e & c & -> & He & Hc).
  rewrite list_lookup_fmap in Hc. apply fmap_Some in Hc as (? & _ & ->).
  unfold fork_child_pte in *. by destruct (valid e).
Qed.

Lemma state_frames_bind s :
  state_frames s =
  (current s :: processes s) ≫= λ p, pagetable_frames (proc_pagetable p).
Proof. unfold state_frames. by rewrite bind_cons. Qed.

Lemma occurrences_le_app f l1 l2 : occurrences f l1 ≤ occurrences f (l1 ++ l2).
Proof. rewrite occurrences_app. lia. Qed.

Lemma switch_process_accounted target s s' :
  accounted s → legal (SwitchProcess target) s = true →
  switch_process zero_process_mem (λ _, zero_directory_mem) target s = Some s' →
  accounted s'.
Proof.
  intros Hacc Hlegal Hswitch.
  assert (wf_state s') as Hwf'.
  { apply (exec_wf (SwitchProcess target) s); [by destruct Hacc|done]. }
  destruct Hacc as [Hwf Hcounts Hrange Hpriv].
  pose proof Hwf as (Hlen & Hmc & Hcur & _).
  simpl in Hlegal.
  destruct (find_process target (processes s)) as [[p rest]|] eqn:Hfind.
  - destruct (switch_process_found zero_process_mem
                (λ _, zero_directory_mem) _ _ _ _ Hfind) as [Hs1 Hperm].
    rewrite Hs1 in Hswitch. injection Hswitch as <-.
    assert (state_frames (State (rest ++ [current s]) p PtbrCurrent (mapcounts s))
            ≡ₚ state_frames s) as Hsame.
    { rewrite !state_frames_bind. cbn [current processes]. by rewrite Hperm. }
    split.
    + done.
    + intros f Hf. rewrite Hsame. by apply Hcounts.
    + by rewrite Hsame.
    + simpl. by rewrite Hperm.
  - rewrite switch_process_fork in Hswitch by done.
    set (frames := pagetable_frames (proc_pagetable (current s))) in *.
    destruct (bump_counts frames (mapcounts s)) as [mc'|] eqn:Hb; [|done].
    injection Hswitch as <-.
    destruct (bump_counts_Some _ _ Hmc (bump_counts_inv _ _ _ Hb))
      as (mc1 & Hb1 & Hl1 & Hr1 & Hlk).
    rewrite Hb in Hb1. injection Hb1 as <-.
    inversion Hpriv as [|? ? Hpc Hpp]; subst.
    match goal with
    | |- accounted ?st =>
        assert (state_frames st ≡ₚ frames ++ state_frames s) as Hfr
    end.
    { unfold state_frames. cbn [current processes proc_pagetable].
      rewrite pagetable_frames_fork_child by done.
      rewrite bind_app, bind_cons. cbn [proc_pagetable].
      rewrite pagetable_frames_fork_parent.
      change ([] ≫= _) with (@nil nat). rewrite app_nil_r.
      fold frames. apply Permutation_app_head.
      by rewrite Permutation_app_comm. }
    split.
    + done.
    + intros f Hf. rewrite Hfr. simpl.
      rewrite (Hlk f _ (Hcounts f Hf)). f_equal.
      rewrite occurrences_app.
      assert (Z.of_nat (occurrences f (state_frames s)) < 2147483648)%Z.
      { apply Is_true_true_2, forallb_True in Hlegal.
        pose proof (Forall_lookup_1 _ _ _ _ Hlegal (Hcounts f Hf)) as Hlt.
        simpl in Hlt. by apply Is_true_true_1, Z.ltb_lt in Hlt. }
      assert (occurrences f frames ≤ occurrences f (state_frames s))
        by apply occurrences_le_app.
      rewrite wrap32_small; lia.
    + rewrite Hfr. apply Forall_app. split; [|done].
      unfold state_frames in Hrange. fold frames in Hrange.
      by apply Forall_app in Hrange as [? _].
    + simpl. constructor.
      * by apply private_implies_valid_fork_child.
      * apply Forall_app. split; [done|]. constructor; [|constructor].
        by apply private_implies_valid_fork_parent.
Qed.

Lemma exec_accounted o s s' :
  accounted s → legal o s = true → exec o s = Some s' → accounted s'.
Proof.
  intros Hacc Hlegal Hexec. destruct o as [vpn rw|vpn|vpn rw|target].
  - simpl in Hexec.
    destruct (alloc_page _ vpn rw s) as [r|] eqn:Halloc; [|done].
    injection Hexec as <-. by eapply alloc_page_accounted.
  - by eapply free_page_accounted.
  - simpl in Hexec.
    destruct (handle_page_fault vpn rw s) as [[b s1]|] eqn:Hpf; [|done].
    injection Hexec as <-. by eapply handle_page_fault_accounted.
  - by eapply switch_process_accounted.
Qed.

Lemma slot_frames_replicate_None n :
  replicate n (@None pte_directory) ≫= slot_frames = [].
Proof.
  induction n as [|n IH]; [done|].
  cbn [replicate]. by rewrite bind_cons, IH.
Qed.

Lemma accounted_initial_state : accounted initial_state.
Proof.
  assert (state_frames initial_state = []) as Hfr.
  { unfold state_frames, pagetable_frames. cbn [initial_state current
      processes proc_pagetable outer_ptes]. fold slot_frames.
    by rewrite slot_frames_replicate_None. }
  split.
  - apply wf_initial_state.
  - intros f Hf. rewrite Hfr. simpl. by apply lookup_replicate_2.
  - by rewrite Hfr.
  - constructor; [|constructor].
    intros o i e (d & Hd & _)%read_pte_Some. simpl in Hd.
    by apply lookup_replicate in Hd as [? _].
Qed.

Lemma run_accounted ops s s' :
  accounted s → legal_run ops s = true → run ops s = Some s' → accounted s'.
Proof.
  revert s. induction ops as [|o ops IH]; intros s Hacc; simpl.
  - by intros _ [= <-].
  - intros [Hl Hrest]%andb_true_iff.
    destruct (exec o s) as [s1|] eqn:Hexec; simpl; [|done].
    apply IH; [|done]. by eapply exec_accounted.
Qed.

(** C3, as the code has it.  Along every run from the initial state in
    which [alloc_page] is called on pages that are not mapped, [free_page]
    on pages that are mapped, forks happen while every count is below
    2^31, and fresh memory is zero-filled, the sum of the reference counts
    equals the number of valid entries over the page tables of the current
    process and of the ready queue; each such call preserves the equality
    together with the per-frame accounting behind it. *)
Theorem conservation_legal_runs ops s :
  legal_run ops initial_state = true →
  run ops initial_state = Some s →
  conserved s ∧
  (∀ f, f < NR_PAGEFRAMES →
     mapcounts s !! f = Some (Z.of_nat (occurrences f (state_frames s)))) ∧
  ∀ o s', legal o s = true → exec o s = Some s' → conserved s'.
Proof.
  intros Hlegal Hrun.
  pose proof (run_accounted _ _ _ accounted_initial_state Hlegal Hrun) as Hacc.
  split_and!.
  - by apply accounted_conserved.
  - by destruct Hacc.
  - intros o s' Hl Hexec. apply accounted_conserved. by eapply exec_accounted.
Qed.

(** * Further properties of the four operations *)

(** ** Storing back what is already there *)

Lemma put_cur_pte_id s op_index ip_index d x :
  outer_ptes (proc_pagetable (current s)) !! op_index = Some (Some d) →
  ptes d !! ip_index = Some x →
  put_cur_pte s op_index ip_index d x = s.
Proof.
  intros Hd Hx. unfold put_cur_pte, put_pte, set_current.
  rewrite (list_insert_id (ptes d)) by done.
  destruct d as [l]. simpl. rewrite list_insert_id by done.
  destruct s as [ps [cpid [o]] pb mc]. done.
Qed.

Lemma put_cur_pte_put_cur_pte s op_index ip_index d x y mc :
  op_index < length (outer_ptes (proc_pagetable (current s))) →
  put_cur_pte (set_mapcounts mc (put_cur_pte s op_index ip_index d x))
    op_index ip_index (PteDirectory (<[ip_index := x]> (ptes d))) y =
  set_mapcounts mc (put_cur_pte s op_index ip_index d y).
Proof.
  intros Hop. unfold put_cur_pte, put_pte, set_current, set_mapcounts. simpl.
  by rewrite !list_insert_insert_eq.
Qed.

Lemma sum_counts_insert (mc : list Z) i old v :
  mc !! i = Some old →
  foldr Z.add 0%Z (<[i := v]> mc) = (foldr Z.add 0%Z mc - old + v)%Z.
Proof.
  revert i. induction mc as [|c mc IH]; intros [|i]; simpl; try done.
  - intros [= ->]. lia.
  - intros Hi. rewrite (IH i Hi). lia.
Qed.

(** ** The entry invariant *)

Lemma entry_ok_zero : entry_ok zero_pte.
Proof. split_and!; done. Qed.

Lemma entry_ok_private_valid e : entry_ok e → private e = true → valid e = true.
Proof.
  intros (Hz & _ & _) Hp. destruct (valid e) eqn:Hv; [done|].
  rewrite (Hz eq_refl) in Hp. done.
Qed.

Lemma entries_ok_put pt op_index ip_index d x :
  op_index < length (outer_ptes pt) →
  entries_ok pt → directory_entries_ok d → entry_ok x →
  entries_ok (put_pte pt op_index ip_index d x).
Proof.
  intros Hop Hpt Hd Hx o i e' Hr.
  destruct (read_pte_put_pte _ _ _ _ _ _ _ _ Hop Hr)
    as [(_ & _ & ->)|[(_ & _ & He)|(_ & He)]].
  - done.
  - by eapply Hd.
  - by eapply Hpt.
Qed.

Lemma entries_ok_insert pt op_index d :
  entries_ok pt → directory_entries_ok d →
  entries_ok (Pagetable (<[op_index := Some d]> (outer_ptes pt))).
Proof.
  intros Hpt Hd o i e (d' & Hd' & He)%read_pte_Some. simpl in Hd'.
  apply list_lookup_insert_Some in Hd' as [(-> & [= <-] & _)|(Hne & Hold)].
  - by eapply Hd.
  - eapply Hpt. apply read_pte_Some. eauto.
Qed.

Lemma directory_entries_ok_in_place pt op_index d :
  entries_ok pt → outer_ptes pt !! op_index = Some (Some d) →
  directory_entries_ok d.
Proof.
  intros Hpt Hd i e He. apply (Hpt op_index i). apply read_pte_Some. eauto.
Qed.

Lemma directory_entries_ok_zero :
  directory_entries_ok (malloc_directory zero_directory_mem).
Proof. intros i e ->%lookup_malloc_directory. apply entry_ok_zero. Qed.

Lemma directory_entries_ok_alloc pt op_index slot :
  entries_ok pt → outer_ptes pt !! op_index = Some slot →
  directory_entries_ok (alloc_directory zero_directory_mem slot).
Proof.
  intros Hpt Hslot. destruct slot as [d|]; simpl.
  - by eapply directory_entries_ok_in_place.
  - apply directory_entries_ok_zero.
Qed.

Lemma entries_ok_fork_parent pt :
  entries_ok pt → entries_ok (fork_parent_pagetable pt).
Proof.
  intros Hpt o i e'. rewrite read_pte_fork_parent.
  intros (e & He & ->)%fmap_Some.
  pose proof (Hpt o i e He) as Heok.
  unfold fork_parent_pte. destruct (valid e) eqn:Hv; [|done].
  destruct Heok as (Hz & Hw & Hf).
  unfold entry_ok. simpl. rewrite Hv. split_and!; [done..|].
  intros _. by apply Hf.
Qed.

Lemma read_pte_fork_child_inv pt op_index ip_index e' :
  wf_pagetable pt →
  read_pte (fork_child_pagetable zero_process_mem (λ _, zero_directory_mem) pt)
    op_index ip_index = Some e' →
  ∃ e, read_pte pt op_index ip_index = Some e ∧
       e' = fork_child_pte e zero_pte.
Proof.
  intros Hwf (d' & Hd' & He')%read_pte_Some.
  destruct (outer_ptes pt !! op_index) as [p|] eqn:Hpo; cycle 1.
  { apply lookup_ge_None in Hpo. apply lookup_lt_Some in Hd'.
    destruct (wf_fork_child_pagetable zero_process_mem
                (λ _, zero_directory_mem) pt Hwf) as [Hl _].
    destruct Hwf as [Hl' _]. lia. }
  rewrite (fork_child_slot_lookup _ _ _ _ _ Hwf Hpo) in Hd'.
  destruct p as [pd|]; simpl in Hd'; [|done].
  injection Hd' as <-. simpl in He'.
  apply lookup_zip_with_Some in He' as (e & c & -> & He & Hc).
  rewrite list_lookup_fmap in Hc. apply fmap_Some in Hc as (? & _ & ->).
  exists e. split; [|done]. apply read_pte_Some. eauto.
Qed.

Lemma entries_ok_fork_child pt :
  wf_pagetable pt → entries_ok pt →
  entries_ok (fork_child_pagetable zero_process_mem (λ _, zero_directory_mem) pt).
Proof.
  intros Hwf Hpt o i e' Hr.
  destruct (read_pte_fork_child_inv _ _ _ _ Hwf Hr) as (e & He & ->).
  destruct (Hpt o i e He) as (Hz & Hw & Hf).
  unfold fork_child_pte. destruct (valid e) eqn:Hv.
  - unfold entry_ok. simpl. split_and!; [done..|]. intros _. by apply Hf.
  - apply entry_ok_zero.
Qed.

Lemma exec_entries_ok o s s' :
  wf_state s → state_entries_ok s → exec o s = Some s' → state_entries_ok s'.
Proof.
  intros Hwf Hok Hexec. pose proof Hwf as (Hlen & Hmc & Hcur & Hps).
  unfold state_entries_ok in *.
  inversion Hok as [|? ? Hc Hp]; subst.
  destruct o as [vpn rw|vpn|vpn rw|target]; simpl in Hexec.
  - destruct (alloc_page _ vpn rw s) as [r|] eqn:Halloc; [|done].
    injection Hexec as <-.
    destruct (alloc_page_cases _ _ _ _ _ Hwf Halloc)
      as (slot & Hslot & Hws & _ & [(i & Hfree & ->)|(_ & ->)]); simpl.
    + constructor; [|done]. simpl.
      destruct (first_free_Some _ _ _ _ Hfree) as (Hi & _ & _).
      apply entries_ok_put; [by eapply lookup_lt_Some|done| |].
      * by eapply directory_entries_ok_alloc.
      * unfold entry_ok. simpl. split_and!; [done..|]. intros _. lia.
    + destruct slot; [done|]. constructor; [|done]. simpl.
      apply entries_ok_insert; [done|]. apply directory_entries_ok_zero.
  - destruct (free_page_cases _ _ _ Hexec) as (d & e & c & Hd & _ & _ & ->).
    constructor; [|done]. simpl.
    apply entries_ok_put; [by eapply lookup_lt_Some|done| |].
    + by eapply directory_entries_ok_in_place.
    + apply entry_ok_zero.
  - destruct (handle_page_fault _ rw s) as [[b s1]|] eqn:Hpf; [|done].
    injection Hexec as ->.
    destruct (handle_page_fault_outcomes _ _ _ _ _ Hlen Hpf)
      as (d & e & Hd & He & Hcases).
    assert (directory_entries_ok d) as Hdok
      by (by eapply directory_entries_ok_in_place).
    pose proof (Hdok _ _ He) as Heok.
    destruct Hcases as [(_ & _ & ->)|(Hpe & c & _ &
      [(_ & _ & ->)|[(_ & _ & _ & ->)|(_ & i & c' & Hfree & _ & _ & ->)]])];
      [done| |done|].
    + pose proof (entry_ok_private_valid _ Heok Hpe) as Hv.
      destruct Heok as (_ & _ & Hf).
      constructor; [|done]. simpl.
      apply entries_ok_put; [by eapply lookup_lt_Some|done..|].
      unfold entry_ok. simpl. rewrite Hv. split_and!; [done..|].
      intros _. by apply Hf.
    + pose proof (entry_ok_private_valid _ Heok Hpe) as Hv.
      destruct (first_free_Some _ _ _ _ Hfree) as (Hi & _ & _).
      constructor; [|done]. simpl.
      apply entries_ok_put; [by eapply lookup_lt_Some|done..|].
      unfold entry_ok. simpl. rewrite Hv. split_and!; [done..|]. intros _. lia.
  - destruct (find_process target (processes s)) as [[p rest]|] eqn:Hfind.
    + destruct (switch_process_found zero_process_mem
                  (λ _, zero_directory_mem) _ _ _ _ Hfind) as [Hs1 Hperm].
      rewrite Hs1 in Hexec. injection Hexec as <-. simpl. by rewrite Hperm.
    + rewrite switch_process_fork in Hexec by done.
      destruct (bump_counts _ (mapcounts s)) as [mc'|] eqn:Hb; [|done].
      injection Hexec as <-. simpl. constructor.
      * by apply entries_ok_fork_child.
      * apply Forall_app. split; [done|]. constructor; [|constructor].
        by apply entries_ok_fork_parent.
Qed.

Lemma state_entries_ok_initial : state_entries_ok initial_state.
Proof.
  constructor; [|constructor].
  intros o i e (d & Hd & _)%read_pte_Some. simpl in Hd.
  by apply lookup_replicate in Hd as [? _].
Qed.

Lemma run_entries_ok ops s s' :
  wf_state s → state_entries_ok s → run ops s = Some s' → state_entries_ok s'.
Proof.
  revert s. induction ops as [|o ops IH]; intros s Hwf Hok; simpl.
  - by intros [= <-].
  - destruct (exec o s) as [s1|] eqn:Hexec; simpl; [|done].
    apply IH; [by eapply exec_wf|by eapply exec_entries_ok].
Qed.

(** X1: in every state reached from the initial one by any sequence of the
    four operations (allocations returning zero-filled memory), every entry of every page table (current process and
    ready queue) is all-zero when invalid, private when writable, and holds
    a frame number below [NR_PAGEFRAMES] when valid. *)
Theorem reachable_entries_ok ops s p op_index ip_index e :
  run ops initial_state = Some s →
  p ∈ current s :: processes s →
  read_pte (proc_pagetable p) op_index ip_index = Some e →
  (valid e = false → e = Pte false false 0 false) ∧
  (writable e = true → private e = true ∧ valid e = true) ∧
  (private e = true → valid e = true) ∧
  (valid e = true → pfn e < NR_PAGEFRAMES).
Proof.
  intros Hrun Hp He.
  pose proof (run_entries_ok _ _ _ wf_initial_state state_entries_ok_initial
                Hrun) as Hok.
  pose proof (proj1 (Forall_forall _ _) Hok p Hp _ _ _ He) as Heok.
  pose proof (entry_ok_private_valid _ Heok) as Hpv.
  destruct Heok as (Hz & Hw & Hf).
  split_and!; [done| |done..]. intros Hwr. split; [by apply Hw|].
  by apply Hpv, Hw.
Qed.

(** ** No access outside the arrays *)

Lemma pagetable_frames_range pt :
  entries_ok pt → Forall (λ f, f < NR_PAGEFRAMES) (pagetable_frames pt).
Proof.
  intros Hpt. apply Forall_forall. intros f Hin.
  apply list_elem_of_bind in Hin as (slot & Hf & Hslot).
  destruct slot as [d|]; simpl in Hf; [|by apply elem_of_nil in Hf].
  apply list_elem_of_fmap in Hf as (e & -> & He).
  apply list_elem_of_filter in He as [Hv He].
  apply list_elem_of_lookup in Hslot as [o Ho].
  apply list_elem_of_lookup in He as [i Hi].
  apply (Hpt o i e); [|done]. apply read_pte_Some. eauto.
Qed.

Lemma entry_ok_pfn_lt e : 0 < NR_PAGEFRAMES → entry_ok e → pfn e < NR_PAGEFRAMES.
Proof.
  intros Hpos (Hz & _ & Hf). destruct (valid e) eqn:Hv; [by apply Hf|].
  by rewrite (Hz eq_refl).
Qed.

Lemma alloc_page_defined mem vpn rw s :
  wf_state s →
  is_Some (alloc_page mem vpn rw s) ↔ vpn / NR_PTES_PER_PAGE < NR_PTES_PER_PAGE.
Proof.
  intros Hwf. pose proof Hwf as (Hlen & _ & [Hol Hall] & _). split.
  - intros [r Hr].
    destruct (alloc_page_cases _ _ _ _ _ Hwf Hr) as (slot & Hslot & _).
    apply lookup_lt_Some in Hslot. lia.
  - intros Hop.
    destruct (lookup_lt_is_Some_2 (outer_ptes (proc_pagetable (current s)))
                (vpn / NR_PTES_PER_PAGE)) as [slot Hslot]; [lia|].
    pose proof (Forall_lookup_1 _ _ _ _ Hall Hslot) as Hws.
    destruct (first_free_defined (mapcounts s) 0 NR_PAGEFRAMES)
      as [[i|] Hfree]; [lia|..].
    + rewrite (alloc_page_found mem vpn rw s slot i); [done..| |done].
      rewrite alloc_directory_length by done.
      apply Nat.mod_upper_bound. lia.
    + by rewrite (alloc_page_exhausted mem vpn rw s slot).
Qed.

Lemma free_page_defined vpn s :
  0 < NR_PAGEFRAMES → wf_state s → state_entries_ok s →
  is_Some (free_page vpn s) ↔
  is_Some (cur_pte s (vpn / NR_PTES_PER_PAGE) (vpn `mod` NR_PTES_PER_PAGE)).
Proof.
  intros Hpos (Hlen & _) Hok. inversion Hok as [|? ? Hc _]; subst. split.
  - intros [s' Hs'].
    destruct (free_page_cases _ _ _ Hs') as (d & e & c & Hd & He & _).
    exists e. apply read_pte_Some. eauto.
  - intros [e He]. pose proof (Hc _ _ _ He) as Heok.
    destruct (cur_pte_directory _ _ _ _ He) as (d & Hd & Hde).
    destruct (lookup_lt_is_Some_2 (mapcounts s) (pfn e)) as [c Hcnt].
    { rewrite Hlen. by apply entry_ok_pfn_lt. }
    by rewrite (free_page_eq vpn s d e c).
Qed.

Lemma handle_page_fault_defined vpn rw s :
  wf_state s → state_entries_ok s →
  is_Some (handle_page_fault vpn rw s) ↔
  is_Some (cur_pte s (vpn / NR_PTES_PER_PAGE) (vpn `mod` NR_PTES_PER_PAGE)).
Proof.
  intros (Hlen & _) Hok. inversion Hok as [|? ? Hc _]; subst. split.
  - intros [[b s'] Hs'].
    destruct (handle_page_fault_outcomes _ _ _ _ _ Hlen Hs')
      as (d & e & Hd & He & _).
    exists e. apply read_pte_Some. eauto.
  - intros [e He]. pose proof (Hc _ _ _ He) as Heok.
    destruct (cur_pte_directory _ _ _ _ He) as (d & Hd & Hde).
    destruct (private e) eqn:Hp; cycle 1.
    { by rewrite (handle_page_fault_not_private vpn rw s e). }
    pose proof (entry_ok_private_valid _ Heok Hp) as Hv.
    destruct Heok as (_ & _ & Hf).
    destruct (lookup_lt_is_Some_2 (mapcounts s) (pfn e)) as [c Hcnt].
    { rewrite Hlen. by apply Hf. }
    destruct (decide (c = 1%Z)) as [->|Hc1].
    { by rewrite (handle_page_fault_exclusive vpn rw s d e). }
    destruct (first_free_defined (mapcounts s) 0 NR_PAGEFRAMES)
      as [[i|] Hfree]; [lia|..].
    + destruct (lookup_lt_is_Some_2 (<[i:=1%Z]> (mapcounts s)) (pfn e))
        as [c' Hc'].
      { rewrite length_insert. by eapply lookup_lt_Some. }
      by rewrite (handle_page_fault_rebind vpn rw s d e c c' i).
    + by rewrite (handle_page_fault_no_frame vpn rw s e c).
Qed.

Lemma switch_process_defined proc_mem dir_mem target s :
  wf_state s → state_entries_ok s →
  is_Some (switch_process proc_mem dir_mem target s).
Proof.
  intros (Hlen & Hmc & Hcur & _) Hok. inversion Hok as [|? ? Hc _]; subst.
  destruct (find_process target (processes s)) as [[p rest]|] eqn:Hfind.
  - by rewrite (proj1 (switch_process_found proc_mem dir_mem _ _ _ _ Hfind)).
  - rewrite switch_process_fork by done.
    destruct (bump_counts_Some
                (pagetable_frames (proc_pagetable (current s)))
                (mapcounts s) Hmc) as (mc' & -> & _).
    + rewrite Hlen. by apply pagetable_frames_range.
    + done.
Qed.

(** X2: in every state reached from the initial one (allocations returning
    zero-filled memory), with at least one frame, no operation reads or writes outside an array or through a NULL
    directory unless the page it is given has no directory: [free_page] and
    [handle_page_fault] complete exactly when the entry of the page exists,
    [alloc_page] exactly when the page is inside the two-level range, and
    [switch_process] always. *)
Theorem reachable_operations_defined ops s :
  run ops initial_state = Some s →
  0 < NR_PAGEFRAMES →
  (∀ mem vpn rw,
     is_Some (alloc_page mem vpn rw s) ↔
     vpn / NR_PTES_PER_PAGE < NR_PTES_PER_PAGE) ∧
  (∀ vpn,
     is_Some (free_page vpn s) ↔
     is_Some (cur_pte s (vpn / NR_PTES_PER_PAGE) (vpn `mod` NR_PTES_PER_PAGE))) ∧
  (∀ vpn rw,
     is_Some (handle_page_fault vpn rw s) ↔
     is_Some (cur_pte s (vpn / NR_PTES_PER_PAGE) (vpn `mod` NR_PTES_PER_PAGE))) ∧
  (∀ proc_mem dir_mem target,
     is_Some (switch_process proc_mem dir_mem target s)).
Proof.
  intros Hrun Hpos.
  pose proof (run_wf _ _ _ wf_initial_state Hrun) as Hwf.
  pose proof (run_entries_ok _ _ _ wf_initial_state state_entries_ok_initial
                Hrun) as Hok.
  split_and!.
  - intros. by apply alloc_page_defined.
  - intros. by apply free_page_defined.
  - intros. by apply handle_page_fault_defined.
  - intros. by apply switch_process_defined.
Qed.

(** ** Calls outside the preconditions *)

(** X3: [free_page] on a page whose entry exists but is not mapped (in a
    reachable state) leaves every page table as it is and takes one
    reference off frame 0, the frame number a cleared entry holds; when
    frame 0 is free its count wraps to [UINT_MAX]. *)
Theorem free_page_unmapped_entry ops s vpn e c :
  run ops initial_state = Some s →
  cur_pte s (vpn / NR_PTES_PER_PAGE) (vpn `mod` NR_PTES_PER_PAGE) = Some e →
  valid e = false →
  mapcounts s !! 0 = Some c →
  ∃ s', free_page vpn s = Some s' ∧
    s' = set_mapcounts (<[0 := wrap32 (c - 1)]> (mapcounts s)) s ∧
    (c = 0%Z → mapcounts s' !! 0 = Some UINT_MAX) ∧
    ((0 < c)%Z → mapcounts s' !! 0 = Some (c - 1)%Z).
Proof.
  intros Hrun He Hv Hc.
  pose proof (run_wf _ _ _ wf_initial_state Hrun) as (_ & Hmc & _).
  pose proof (run_entries_ok _ _ _ wf_initial_state state_entries_ok_initial
                Hrun) as Hok.
  inversion Hok as [|? ? Hcur _]; subst.
  destruct (Hcur _ _ _ He) as (Hz & _). rewrite (Hz Hv) in *.
  destruct (cur_pte_directory _ _ _ _ He) as (d & Hd & Hde).
  pose proof (Forall_lookup_1 _ _ _ _ Hmc Hc) as Hcr. simpl in Hcr.
  assert (0 < length (mapcounts s)) by (by eapply lookup_lt_Some).
  eexists. split; [by apply (free_page_eq vpn s d zero_pte c)|].
  rewrite put_cur_pte_id by done. split; [done|]. simpl. split.
  - intros ->. by rewrite list_lookup_insert_eq.
  - intros Hpos. rewrite list_lookup_insert_eq by done.
    f_equal. apply wrap32_small. lia.
Qed.

(** X4: [alloc_page] on a page that is already mapped binds it to a new
    frame without releasing the old one: the old frame keeps its count,
    so the sum of the counts grows by one while the number of valid
    entries stays the same. *)
Theorem alloc_page_remap_leaks_frame mem vpn rw s e c :
  let op_index := vpn / NR_PTES_PER_PAGE in
  let ip_index := vpn `mod` NR_PTES_PER_PAGE in
  wf_state s →
  cur_pte s op_index ip_index = Some e → valid e = true →
  mapcounts s !! pfn e = Some c → c ≠ 0%Z →
  (∃ f, mapcounts s !! f = Some 0%Z) →
  ∃ i s' e',
    alloc_page mem vpn rw s = Some (Z.of_nat i, s') ∧
    i ≠ pfn e ∧
    cur_pte s' op_index ip_index = Some e' ∧ valid e' = true ∧ pfn e' = i ∧
    mapcounts s' !! pfn e = Some c ∧
    mapcounts s' !! i = Some 1%Z ∧
    sum_mapcounts s' = (sum_mapcounts s + 1)%Z ∧
    nr_valid_ptes s' = nr_valid_ptes s.
Proof.
  intros op_index ip_index (Hlen & _) He Hv Hc Hc0 [f Hf].
  destruct (cur_pte_directory _ _ _ _ He) as (d & Hd & Hde).
  assert (op_index < length (outer_ptes (proc_pagetable (current s))))
    by (by eapply lookup_lt_Some).
  assert (ip_index < length (ptes d)) by (by eapply lookup_lt_Some).
  destruct (first_free_found (mapcounts s) 0 NR_PAGEFRAMES f) as [i Hi];
    [lia| |done|].
  { apply lookup_lt_Some in Hf. lia. }
  destruct (first_free_Some _ _ _ _ Hi) as (Hilt & Hz & _).
  assert (i ≠ pfn e) by (intros ->; congruence).
  destruct (state_frames_put s op_index ip_index (Some d) d e Hd eq_refl Hde)
    as (R & HR & HR').
  eexists i, _, _. split.
  { by apply (alloc_page_found mem vpn rw s (Some d) i). }
  split; [done|]. split.
  { change (cur_pte (set_mapcounts ?mc ?s0) ?o ?j) with (cur_pte s0 o j).
    by apply cur_pte_put_cur_pte. }
  split_and!; [done..| | | |].
  - simpl. by rewrite list_lookup_insert_ne.
  - simpl. apply list_lookup_insert_eq. lia.
  - unfold sum_mapcounts. simpl.
    rewrite (sum_counts_insert _ _ 0%Z) by done. lia.
  - rewrite !nr_valid_ptes_frames.
    change (alloc_directory mem (Some d)) with d. fold op_index ip_index.
    rewrite HR', HR. unfold pte_frames. simpl. by rewrite Hv.
Qed.

(** ** Allocation and release *)

(** X5: allocating a page whose entry is absent or cleared and freeing it
    again restores every reference count; the entry ends cleared, the state
    is exactly the one before when the directory was already in place, and
    the next allocation of the page returns the same frame. *)
Theorem alloc_free_roundtrip mem mem' vpn rw rw' s :
  let op_index := vpn / NR_PTES_PER_PAGE in
  let ip_index := vpn `mod` NR_PTES_PER_PAGE in
  wf_state s →
  vpn < NR_PTES_PER_PAGE * NR_PTES_PER_PAGE →
  (∃ f, mapcounts s !! f = Some 0%Z) →
  (∀ e, cur_pte s op_index ip_index = Some e → e = zero_pte) →
  ∃ i s1 s2,
    alloc_page mem vpn rw s = Some (Z.of_nat i, s1) ∧
    free_page vpn s1 = Some s2 ∧
    mapcounts s2 = mapcounts s ∧
    processes s2 = processes s ∧
    cur_pte s2 op_index ip_index = Some zero_pte ∧
    (is_Some (cur_pte s op_index ip_index) → s2 = s) ∧
    fst <$> alloc_page mem' vpn rw' s2 = Some (Z.of_nat i).
Proof.
  intros op_index ip_index Hwf Hvpn Hfree Hzero.
  destruct (alloc_page_lowest_free mem vpn rw s Hwf Hvpn Hfree)
    as (i & slot & Hslot & Hws & Hi & Halloc).
  fold op_index ip_index in Hslot, Halloc.
  destruct (first_free_Some _ _ _ _ Hi) as (Hilt & Hz & _).
  pose proof Hwf as (Hlen & _ & Hcur & _).
  destruct (wf_pagetable_slot _ _ Hcur Hvpn) as (Hip & _).
  fold ip_index in Hip.
  set (d := alloc_directory mem slot) in *.
  set (w := bool_decide (rw ≠ 1%Z)) in *.
  assert (length (ptes d) = NR_PTES_PER_PAGE) as Hld
    by (by apply alloc_directory_length).
  assert (op_index < length (outer_ptes (proc_pagetable (current s))))
    as Hop by (by eapply lookup_lt_Some).
  set (s1 := set_mapcounts (<[i:=1%Z]> (mapcounts s))
               (put_cur_pte s op_index ip_index d (Pte true w i w))) in *.
  set (d1 := PteDirectory (<[ip_index := Pte true w i w]> (ptes d))).
  assert (free_page vpn s1 =
          Some (set_mapcounts (mapcounts s)
                  (put_cur_pte s op_index ip_index d zero_pte))) as Hfreed.
  { rewrite (free_page_eq vpn s1 d1 (Pte true w i w) 1%Z).
    - fold op_index ip_index. unfold s1, d1.
      rewrite put_cur_pte_put_cur_pte by done. simpl.
      rewrite list_insert_insert_eq.
      change (wrap32 (1 - 1)) with 0%Z.
      by rewrite (list_insert_id (mapcounts s)).
    - simpl. by apply list_lookup_insert_eq.
    - simpl. apply list_lookup_insert_eq. lia.
    - simpl. apply list_lookup_insert_eq. lia. }
  set (s2 := set_mapcounts (mapcounts s)
               (put_cur_pte s op_index ip_index d zero_pte)) in *.
  exists i, s1, s2. split_and!; [done..| | |].
  - unfold s2.
    change (cur_pte (set_mapcounts ?mc ?s0) ?o ?j) with (cur_pte s0 o j).
    apply cur_pte_put_cur_pte; [done|lia].
  - intros [e He]. pose proof (Hzero e He) as ->.
    destruct (cur_pte_directory _ _ _ _ He) as (d0 & Hd0 & He0).
    rewrite Hslot in Hd0. injection Hd0 as ->.
    unfold s2. simpl in d. subst d.
    rewrite put_cur_pte_id by done. by destruct s.
  - rewrite (alloc_page_found mem' vpn rw' s2
               (Some (PteDirectory (<[ip_index := zero_pte]> (ptes d)))) i).
    + done.
    + simpl. by apply list_lookup_insert_eq.
    + simpl. rewrite length_insert. lia.
    + done.
Qed.

(** X6: the value [alloc_page] returns tells exhaustion apart from success
    as long as [NR_PAGEFRAMES] fits an [unsigned int] below the sentinel:
    it is -1 exactly when no frame has count zero, and otherwise the number
    of a frame that was free. *)
Theorem alloc_page_sentinel_iff_exhausted mem vpn rw s :
  wf_state s →
  vpn < NR_PTES_PER_PAGE * NR_PTES_PER_PAGE →
  (Z.of_nat NR_PAGEFRAMES ≤ UINT_MAX)%Z →
  ∃ r s',
    alloc_page mem vpn rw s = Some (r, s') ∧
    (r = UINT_MAX ↔ ∀ f, mapcounts s !! f ≠ Some 0%Z) ∧
    (r ≠ UINT_MAX →
       ∃ i, r = Z.of_nat i ∧ i < NR_PAGEFRAMES ∧ mapcounts s !! i = Some 0%Z).
Proof.
  intros Hwf Hvpn Hmax.
  destruct (proj2 (alloc_page_defined mem vpn rw s Hwf)) as [[r s'] Halloc].
  { apply Nat.Div0.div_lt_upper_bound. lia. }
  exists r, s'. split; [done|].
  destruct (alloc_page_cases _ _ _ _ _ Hwf Halloc)
    as (slot & _ & _ & _ & [(i & Hfree & Heq)|(Hfree & Heq)]).
  - injection Heq as -> _.
    destruct (first_free_Some _ _ _ _ Hfree) as (Hi & Hz & _).
    assert (Z.of_nat i ≠ UINT_MAX) by lia.
    split; [split|].
    + done.
    + intros Hfull. by destruct (Hfull i).
    + intros _. exists i. split_and!; [done|lia|done].
  - injection Heq as -> _. split; [split|]; [|done..].
    intros _ f Hf. pose proof (lookup_lt_Some _ _ _ Hf).
    destruct Hwf as (Hlen & _).
    by apply (first_free_None _ _ _ Hfree f); [lia|].
Qed.

(** ** Fault handling *)

(** X7: after [handle_page_fault] has returned true for a page whose frame
    has a nonzero count, the entry is writable and private, its frame has
    count exactly 1, and a second call (for any intent) returns true again
    and changes nothing. *)
Theorem handle_page_fault_idempotent vpn rw rw' s s' e c :
  let op_index := vpn / NR_PTES_PER_PAGE in
  let ip_index := vpn `mod` NR_PTES_PER_PAGE in
  length (mapcounts s) = NR_PAGEFRAMES →
  cur_pte s op_index ip_index = Some e →
  mapcounts s !! pfn e = Some c → c ≠ 0%Z →
  handle_page_fault vpn rw s = Some (true, s') →
  ∃ e', cur_pte s' op_index ip_index = Some e' ∧
    writable e' = true ∧ private e' = true ∧ valid e' = valid e ∧
    mapcounts s' !! pfn e' = Some 1%Z ∧
    handle_page_fault vpn rw' s' = Some (true, s').
Proof.
  intros op_index ip_index Hlen He Hc Hc0 Hpf.
  destruct (handle_page_fault_outcomes _ _ _ _ _ Hlen Hpf)
    as (d & e0 & Hd & He0 & Hcases).
  fold op_index ip_index in Hd, He0, Hcases.
  assert (e0 = e) as ->.
  { apply cur_pte_directory in He as (d' & Hd' & He').
    rewrite Hd in Hd'. injection Hd' as <-. congruence. }
  assert (op_index < length (outer_ptes (proc_pagetable (current s))))
    as Hop by (by eapply lookup_lt_Some).
  assert (ip_index < length (ptes d)) as Hip by (by eapply lookup_lt_Some).
  destruct Hcases as [(_ & [=] & _)|(Hp & c0 & Hc0' &
    [(-> & _ & ->)|[(_ & _ & [=] & _)|(Hc1 & i & c' & Hfree & Hc' & _ & ->)]])].
  - exists (set_writable true e).
    split; [by apply cur_pte_put_cur_pte|]. simpl. split_and!; [done..| |].
    + congruence.
    + rewrite (handle_page_fault_exclusive vpn rw'
                 (put_cur_pte s op_index ip_index d (set_writable true e))
                 (PteDirectory (<[ip_index := set_writable true e]> (ptes d)))
                 (set_writable true e)).
      * fold op_index ip_index. f_equal. f_equal. apply put_cur_pte_id.
        -- simpl. by apply list_lookup_insert_eq.
        -- simpl. by apply list_lookup_insert_eq.
      * simpl. by apply list_lookup_insert_eq.
      * simpl. by apply list_lookup_insert_eq.
      * done.
      * simpl. congruence.
  - destruct (first_free_Some _ _ _ _ Hfree) as (Hi & Hz & _).
    assert (c0 = c) as -> by congruence.
    assert (i ≠ pfn e) as Hne by (intros ->; congruence).
    set (e1 := Pte (valid e) true i (private e)).
    set (mc2 := <[pfn e:=wrap32 (c' - 1)]> (<[i:=1%Z]> (mapcounts s))).
    assert (mc2 !! i = Some 1%Z) as Hone.
    { unfold mc2. rewrite list_lookup_insert_ne by done.
      apply list_lookup_insert_eq. lia. }
    exists e1. split.
    { change (cur_pte (set_mapcounts ?mc ?s0) ?o ?j) with (cur_pte s0 o j).
      by apply cur_pte_put_cur_pte. }
    simpl. split_and!; [done..|].
    rewrite (handle_page_fault_exclusive vpn rw'
               (set_mapcounts mc2 (put_cur_pte s op_index ip_index d e1))
               (PteDirectory (<[ip_index := e1]> (ptes d))) e1).
    + fold op_index ip_index. f_equal. f_equal. apply put_cur_pte_id.
      * simpl. by apply list_lookup_insert_eq.
      * simpl. by apply list_lookup_insert_eq.
    + simpl. by apply list_lookup_insert_eq.
    + simpl. by apply list_lookup_insert_eq.
    + done.
    + done.
Qed.

(** X8: a page allocated with the read intent is never made writable by
    the fault handler: [handle_page_fault] on it returns false and changes
    nothing, right after the allocation and also in the child of a fork. *)
Theorem read_only_page_fault_rejected mem proc_mem dir_mem vpn target s :
  wf_state s →
  vpn < NR_PTES_PER_PAGE * NR_PTES_PER_PAGE →
  (∃ f, mapcounts s !! f = Some 0%Z) →
  ∃ i s1,
    alloc_page mem vpn RW_READ s = Some (Z.of_nat i, s1) ∧
    (∀ rw, handle_page_fault vpn rw s1 = Some (false, s1)) ∧
    (find_process target (processes s1) = None →
     ∀ s2, switch_process proc_mem dir_mem target s1 = Some s2 →
       ∀ rw, handle_page_fault vpn rw s2 = Some (false, s2)).
Proof.
  intros Hwf Hvpn Hfree.
  destruct (alloc_page_lowest_free mem vpn RW_READ s Hwf Hvpn Hfree)
    as (i & slot & Hslot & Hws & Hi & Halloc).
  pose proof Hwf as (Hlen & _ & Hcur & _).
  destruct (wf_pagetable_slot _ _ Hcur Hvpn) as (Hip & _).
  set (op_index := vpn / NR_PTES_PER_PAGE) in *.
  set (ip_index := vpn `mod` NR_PTES_PER_PAGE) in *.
  set (d := alloc_directory mem slot) in *.
  change (bool_decide (RW_READ ≠ 1%Z)) with false in Halloc.
  set (s1 := set_mapcounts (<[i:=1%Z]> (mapcounts s))
               (put_cur_pte s op_index ip_index d (Pte true false i false)))
    in *.
  assert (cur_pte s1 op_index ip_index = Some (Pte true false i false)) as He.
  { unfold s1.
    change (cur_pte (set_mapcounts ?mc ?s0) ?o ?j) with (cur_pte s0 o j).
    apply cur_pte_put_cur_pte; [by eapply lookup_lt_Some|].
    unfold d. by rewrite alloc_directory_length. }
  exists i, s1. split; [done|]. split.
  { intros rw. by apply (handle_page_fault_not_private vpn rw s1 _ He). }
  intros Hfind s2 Hswitch rw.
  assert (wf_pagetable (proc_pagetable (current s1))) as Hwf1.
  { unfold s1. simpl. apply wf_put_pte; [done|].
    by apply wf_alloc_directory. }
  rewrite switch_process_fork in Hswitch by done.
  destruct (bump_counts _ (mapcounts s1)) as [mc'|]; [|done].
  injection Hswitch as <-.
  apply (handle_page_fault_not_private vpn rw _
           (fork_child_pte (Pte true false i false)
              (dir_mem op_index ip_index))); [|done].
  unfold cur_pte. cbn [current proc_pagetable].
  by apply read_pte_fork_child.
Qed.

Lemma occurrences_not_elem_of f l : f ∉ l → occurrences f l = 0.
Proof.
  induction l as [|x l IH]; [done|].
  intros [Hne Hl]%not_elem_of_cons.
  rewrite occurrences_cons, decide_False by done. by rewrite IH.
Qed.

(** X9: copy-on-write end to end.  When the current process maps a private
    page to a frame nobody else uses, a fork followed by a write fault on
    that page in the child rebinds the child's entry to the lowest free
    frame and makes it writable, both frames end with count 1, and the
    parent, now queued, still maps the old frame read-only. *)
Theorem fork_then_write_fault proc_mem dir_mem target vpn rw s e f :
  let op_index := vpn / NR_PTES_PER_PAGE in
  let ip_index := vpn `mod` NR_PTES_PER_PAGE in
  let frames := pagetable_frames (proc_pagetable (current s)) in
  wf_state s →
  find_process target (processes s) = None →
  Forall (λ g, g < NR_PAGEFRAMES) frames →
  cur_pte s op_index ip_index = Some e →
  valid e = true → private e = true →
  mapcounts s !! pfn e = Some 1%Z →
  occurrences (pfn e) frames = 1 →
  mapcounts s !! f = Some 0%Z → f ∉ frames →
  ∃ s1 s2 i parent',
    switch_process proc_mem dir_mem target s = Some s1 ∧
    handle_page_fault vpn rw s1 = Some (true, s2) ∧
    i ≠ pfn e ∧
    mapcounts s1 !! i = Some 0%Z ∧
    (∀ j, j < i → mapcounts s1 !! j ≠ Some 0%Z) ∧
    cur_pte s2 op_index ip_index = Some (Pte true true i true) ∧
    mapcounts s2 !! i = Some 1%Z ∧
    mapcounts s2 !! pfn e = Some 1%Z ∧
    processes s2 = processes s ++ [parent'] ∧
    pid parent' = pid (current s) ∧
    read_pte (proc_pagetable parent') op_index ip_index =
      Some (Pte true false (pfn e) true).
Proof.
  intros op_index ip_index frames (Hlen & Hrange & Hcur & _) Hfind Hframes
    He Hv Hp Hc Hocc Hf Hnot.
  destruct (bump_counts_Some frames (mapcounts s)) as (mc' & Hb & Hl' & _ & Hlk).
  { done. }
  { by rewrite Hlen. }
  pose proof (Hlk _ _ Hc) as Hc'. rewrite Hocc in Hc'.
  change (wrap32 (1 + Z.of_nat 1)) with 2%Z in Hc'.
  pose proof (Hlk _ _ Hf) as Hf'.
  rewrite (occurrences_not_elem_of _ _ Hnot) in Hf'.
  change (wrap32 (0 + Z.of_nat 0)) with 0%Z in Hf'.
  set (parent' := Process (pid (current s))
                    (fork_parent_pagetable (proc_pagetable (current s)))).
  set (s1 := State (processes s ++ [parent'])
               (Process target
                  (fork_child_pagetable proc_mem dir_mem
                     (proc_pagetable (current s))))
               PtbrCurrent mc').
  assert (switch_process proc_mem dir_mem target s = Some s1) as Hs1.
  { rewrite switch_process_fork by done. fold frames. by rewrite Hb. }
  assert (cur_pte s1 op_index ip_index = Some (Pte true false (pfn e) true))
    as He1.
  { unfold cur_pte, s1. cbn [current proc_pagetable].
    erewrite read_pte_fork_child by done.
    unfold fork_child_pte. by rewrite Hv, Hp. }
  destruct (cur_pte_directory _ _ _ _ He1) as (d1 & Hd1 & Hde1).
  destruct (first_free_found mc' 0 NR_PAGEFRAMES f) as [i Hi];
    [lia| |done|].
  { apply lookup_lt_Some in Hf. lia. }
  destruct (first_free_Some _ _ _ _ Hi) as (Hilt & Hz & Hlow).
  assert (i ≠ pfn e) as Hne by (intros ->; congruence).
  eexists s1, _, i, parent'. split; [exact Hs1|]. split.
  { apply (handle_page_fault_shared vpn rw s1 d1
             (Pte true false (pfn e) true) 2%Z i); done. }
  split; [done|]. split; [done|].
  split; [intros j Hj; apply Hlow; lia|]. split.
  { change (cur_pte (set_mapcounts ?mc ?s0) ?o ?j) with (cur_pte s0 o j).
    apply cur_pte_put_cur_pte; by eapply lookup_lt_Some. }
  cbn [mapcounts set_mapcounts processes put_cur_pte set_current pfn s1].
  split_and!.
  - rewrite list_lookup_insert_ne by done. apply list_lookup_insert_eq. lia.
  - apply list_lookup_insert_eq. rewrite length_insert.
    by eapply lookup_lt_Some.
  - done.
  - done.
  - unfold parent'. cbn [proc_pagetable].
    unfold cur_pte in He. rewrite read_pte_fork_parent, He. simpl.
    unfold fork_parent_pte, set_writable. by rewrite Hv, Hp.
Qed.

(** ** The ready queue *)


Lemma find_process_middle l1 p l2 :
  Forall (λ q, pid q ≠ pid p) l1 →
  find_process (pid p) (l1 ++ p :: l2) = Some (p, l1 ++ l2).
Proof.
  intros Hl. induction Hl as [|a l Ha Hl IH]; simpl.
  - by rewrite bool_decide_eq_true_2.
  - rewrite bool_decide_eq_false_2 by done. by rewrite IH.
Qed.

(** X11: [switch_process] takes the first process of the ready queue that
    carries the requested pid; the processes before and after it keep
    their order and the process that was running is appended at the tail. *)
Theorem switch_process_first_match proc_mem dir_mem s l1 p l2 :
  processes s = l1 ++ p :: l2 →
  Forall (λ q, pid q ≠ pid p) l1 →
  switch_process proc_mem dir_mem (pid p) s =
    Some (State (l1 ++ l2 ++ [current s]) p PtbrCurrent (mapcounts s)).
Proof.
  intros Hps Hl1. unfold switch_process.
  rewrite Hps, find_process_middle by done.
  by rewrite <- (assoc_L (++)).
Qed.

(** X12: a switch to the pid of the running process, when no queued
    process carries it, is not a no-op: it forks, so that the new current
    process and the queued parent share the pid, and the next switch to
    that pid is a plain switch to the parent. *)
Theorem switch_process_own_pid_forks proc_mem dir_mem s :
  wf_state s →
  Forall (λ f, f < NR_PAGEFRAMES)
    (pagetable_frames (proc_pagetable (current s))) →
  find_process (pid (current s)) (processes s) = None →
  ∃ s' parent',
    switch_process proc_mem dir_mem (pid (current s)) s = Some s' ∧
    pid (current s') = pid (current s) ∧
    processes s' = processes s ++ [parent'] ∧
    pid parent' = pid (current s) ∧
    find_process (pid (current s)) (processes s') = Some (parent', processes s).
Proof.
  intros (Hlen & Hrange & Hcur & _) Hframes Hfind.
  destruct (bump_counts_Some (pagetable_frames (proc_pagetable (current s)))
              (mapcounts s) Hrange) as (mc' & Hb & _).
  { by rewrite Hlen. }
  eexists _, _. split.
  { rewrite switch_process_fork by done. rewrite Hb. done. }
  simpl. split_and!; [done..|].
  apply find_process_last; [|done]. by apply find_process_None.
Qed.

(** X13: a fork followed by a switch back to the parent's pid gives
    the processor back to the parent: its page table is the one it had with
    every mapped page write-protected, the child waits at the tail of the
    ready queue, and the counts are the ones the fork left. *)
Theorem fork_then_switch_back proc_mem dir_mem proc_mem' dir_mem' target s s1 :
  wf_state s →
  find_process target (processes s) = None →
  find_process (pid (current s)) (processes s) = None →
  switch_process proc_mem dir_mem target s = Some s1 →
  ∃ s2,
    switch_process proc_mem' dir_mem' (pid (current s)) s1 = Some s2 ∧
    pid (current s2) = pid (current s) ∧
    processes s2 = processes s ++ [current s1] ∧
    pid (current s1) = target ∧
    mapcounts s2 = mapcounts s1 ∧
    ∀ op_index ip_index e,
      cur_pte s op_index ip_index = Some e →
      cur_pte s2 op_index ip_index =
        Some (if valid e then set_writable false e else e).
Proof.
  intros (_ & _ & Hcur & _) Hfind Hown Hs1.
  rewrite switch_process_fork in Hs1 by done.
  destruct (bump_counts _ (mapcounts s)) as [mc'|]; [|done].
  injection Hs1 as <-.
  set (parent' := Process (pid (current s))
                    (fork_parent_pagetable (proc_pagetable (current s)))).
  set (child := Process target
                  (fork_child_pagetable proc_mem dir_mem
                     (proc_pagetable (current s)))).
  destruct (switch_process_found proc_mem' dir_mem' (pid (current s))
              (State (processes s ++ [parent']) child PtbrCurrent mc')
              parent' (processes s)) as [Hs2 _].
  { simpl. apply find_process_last; [|done]. by apply find_process_None. }
  eexists. split; [exact Hs2|]. simpl. split_and!; [done..|].
  intros op_index ip_index e He. unfold cur_pte in *. simpl.
  by rewrite read_pte_fork_parent, He.
Qed.

Lemma alloc_page_wf mem vpn rw s r :
  wf_state s → alloc_page mem vpn rw s = Some r → wf_state r.2.
Proof.
  intros Hwf Halloc. pose proof Hwf as (Hlen & Hmc & Hcur & Hps).
  destruct (alloc_page_cases _ _ _ _ _ Hwf Halloc)
    as (slot & Hslot & Hws & _ & [(i & _ & ->)|(_ & ->)]); simpl.
  - apply wf_state_put; [done|by apply wf_alloc_directory| |].
    + by rewrite length_insert.
    + by apply counts_in_range_insert_one.
  - destruct slot; [done|]. split_and!; simpl; [done..| |done].
    destruct Hcur as [Hol Hall].
    split; simpl; [by rewrite length_insert|].
    apply Forall_insert; [done|]. apply length_malloc_directory.
Qed.

(** ** Order of the frames *)

(** X14: two consecutive calls of [alloc_page] (for any pages) never hand
    out the same frame: the second result is strictly larger than the
    first, except when both are the sentinel -1 because no frame was free,
    and then no count has changed. *)
Theorem alloc_page_frames_increase mem mem' vpn vpn' rw rw' s r1 s1 r2 s2 :
  wf_state s →
  (Z.of_nat NR_PAGEFRAMES ≤ UINT_MAX)%Z →
  alloc_page mem vpn rw s = Some (r1, s1) →
  alloc_page mem' vpn' rw' s1 = Some (r2, s2) →
  (r1 < r2)%Z ∨
  (r1 = UINT_MAX ∧ r2 = UINT_MAX ∧ mapcounts s2 = mapcounts s).
Proof.
  intros Hwf Hmax H1 H2.
  pose proof (alloc_page_wf _ _ _ _ _ Hwf H1) as Hwf1. simpl in Hwf1.
  pose proof Hwf as (Hlen & _).
  destruct (alloc_page_cases _ _ _ _ _ Hwf H1)
    as (slot & _ & _ & _ & [(i & Hi & [= -> ->])|(Hex & [= -> ->])]).
  - left. destruct (first_free_Some _ _ _ _ Hi) as (Hilt & _ & Hlow).
    destruct (alloc_page_cases _ _ _ _ _ Hwf1 H2)
      as (slot' & _ & _ & _ & [(j & Hj & [= -> ->])|(_ & [= -> ->])]);
      [|lia].
    simpl in Hj. destruct (first_free_Some _ _ _ _ Hj) as (_ & Hz & _).
    destruct (decide (j = i)) as [->|Hne].
    { rewrite list_lookup_insert_eq in Hz by lia. done. }
    rewrite list_lookup_insert_ne in Hz by done.
    destruct (decide (j < i)) as [Hlt|]; [|lia].
    destruct (Hlow j); [lia|done].
  - assert (mapcounts
              match slot with
              | Some _ => s
              | None =>
                  set_current
                    (Process (pid (current s))
                       (Pagetable
                          (<[vpn / NR_PTES_PER_PAGE :=
                               Some (malloc_directory mem)]>
                             (outer_ptes (proc_pagetable (current s)))))) s
              end = mapcounts s) as Hsame by (by destruct slot).
    destruct (alloc_page_cases _ _ _ _ _ Hwf1 H2)
      as (slot' & _ & _ & _ & [(j & Hj & _)|(_ & [= -> ->])]).
    { rewrite Hsame in Hj. congruence. }
    right. split_and!; [done..|]. rewrite <- Hsame. by destruct slot'.
Qed.

(** ** Faults that fail *)

(** X15: [handle_page_fault] returns false in exactly two situations: the
    entry is not private, or its frame does not have count 1 and no frame
    is free for the copy.  Whenever it returns false it has changed
    nothing. *)
Theorem handle_page_fault_false_iff vpn rw s e c b s' :
  let op_index := vpn / NR_PTES_PER_PAGE in
  let ip_index := vpn `mod` NR_PTES_PER_PAGE in
  length (mapcounts s) = NR_PAGEFRAMES →
  cur_pte s op_index ip_index = Some e →
  mapcounts s !! pfn e = Some c →
  handle_page_fault vpn rw s = Some (b, s') →
  (b = false ↔
     private e = false ∨
     (c ≠ 1%Z ∧ ∀ f, mapcounts s !! f ≠ Some 0%Z)) ∧
  (b = false → s' = s).
Proof.
  intros op_index ip_index Hlen He Hc Hpf.
  destruct (handle_page_fault_outcomes _ _ _ _ _ Hlen Hpf)
    as (d & e0 & Hd & He0 & Hcases).
  fold op_index ip_index in Hd, He0, Hcases.
  assert (e0 = e) as ->.
  { apply cur_pte_directory in He as (d' & Hd' & He').
    rewrite Hd in Hd'. injection Hd' as <-. congruence. }
  destruct Hcases as [(Hp & -> & ->)|(Hp & c0 & Hc0 &
    [(-> & -> & ->)|[(Hc1 & Hex & -> & ->)|(Hc1 & i & c' & Hi & _ & -> & _)]])].
  - split; [|done]. split; [by left|done].
  - split; [|done]. split; [done|].
    intros [Hnp|[Hne _]]; congruence.
  - split; [|done]. split; [|done]. intros _. right.
    split; [congruence|]. intros f Hf.
    pose proof (lookup_lt_Some _ _ _ Hf) as Hlt.
    apply (first_free_None _ _ _ Hex f); [lia|done].
  - split; [|done]. split; [done|].
    destruct (first_free_Some _ _ _ _ Hi) as (_ & Hz & _).
    intros [Hnp|[_ Hall]]; [congruence|]. by destruct (Hall i).
Qed.

(** X16: in a state reached from the initial one (allocations returning
    zero-filled memory), a fault on a page whose entry is not valid is
    always refused: [handle_page_fault] returns false and changes nothing,
    it never maps a page on demand. *)
Theorem handle_page_fault_unmapped ops s vpn rw e :
  run ops initial_state = Some s →
  cur_pte s (vpn / NR_PTES_PER_PAGE) (vpn `mod` NR_PTES_PER_PAGE) = Some e →
  valid e = false →
  handle_page_fault vpn rw s = Some (false, s).
Proof.
  intros Hrun He Hv.
  pose proof (run_entries_ok _ _ _ wf_initial_state state_entries_ok_initial
                Hrun) as Hok.
  apply Forall_cons in Hok as [Hcur _].
  destruct (Hcur _ _ _ He) as (Hzero & _).
  apply (handle_page_fault_not_private vpn rw s e He).
  by rewrite (Hzero Hv).
Qed.

End Vm.

(** * Concrete instances *)

(** The sample states are the results of runs from the initial state. *)
Lemma sample_states_reachable :
  run 4 4 [AllocPage 0 RW_WRITE; AllocPage 1 RW_READ] (initial_state 4 4) =
    Some demo_two_pages ∧
  run 4 4 [AllocPage 0 RW_WRITE; AllocPage 1 RW_READ; SwitchProcess 7]
    (initial_state 4 4) = Some demo_forked ∧
  run 4 4 [AllocPage 0 RW_WRITE; AllocPage 1 RW_WRITE; SwitchProcess 7;
           AllocPage 2 RW_WRITE; AllocPage 3 RW_WRITE]
    (initial_state 4 4) = Some demo_full ∧
  run 4 4 [AllocPage 0 RW_WRITE; AllocPage 1 RW_READ; FreePage 0]
    (initial_state 4 4) = Some demo_freed ∧
  run 4 4 demo_trace (initial_state 4 4) = Some demo_trace_end.
Proof. repeat split; vm_compute; reflexivity. Qed.

Ltac solve_wf :=
  repeat first [lia | reflexivity | split | apply Forall_nil | apply Forall_cons].

(** ** C1 *)

Lemma switch_process_fork_shares_witness :
  wf_state 4 4 demo_two_pages ∧
  find_process 7 (processes demo_two_pages) = None ∧
  ∃ s', switch_process 4 zero_process_mem (λ _, zero_directory_mem) 7
          demo_two_pages = Some s' ∧
        cur_pte s' 0 0 = Some (Pte true false 0 true) ∧
        mapcounts s' !! 0 = Some 2%Z.
Proof.
  assert (wf_state 4 4 demo_two_pages) as Hwf by solve_wf.
  split; [exact Hwf|]. split; [reflexivity|].
  destruct (switch_process_fork_shares 4 4 zero_process_mem
              (λ _, zero_directory_mem) 7 demo_two_pages Hwf eq_refl)
    as (s' & parent' & Hs & _ & _ & _ & Hall).
  { vm_compute. repeat constructor. }
  destruct (Hall 0 0 (Pte true true 0 true) eq_refl eq_refl)
    as (Hchild & _ & c & Hc & _ & _ & Htwo).
  exists s'. split; [exact Hs|]. split; [exact Hchild|].
  injection Hc as <-. exact (Htwo eq_refl eq_refl).
Defined.

(** ** C2 *)

Lemma handle_page_fault_cases_witness :
  cur_pte demo_forked 0 0 = Some (Pte true false 0 true) ∧
  (∃ i s', handle_page_fault 4 4 0 RW_WRITE demo_forked = Some (true, s') ∧
           cur_pte s' 0 0 = Some (Pte true true i true) ∧
           mapcounts s' !! i = Some 1%Z ∧ mapcounts s' !! 0 = Some 1%Z) ∧
  handle_page_fault 4 4 1 RW_WRITE demo_forked = Some (false, demo_forked) ∧
  (∃ s', handle_page_fault 4 4 0 RW_WRITE demo_two_pages = Some (true, s') ∧
         mapcounts s' = mapcounts demo_two_pages).
Proof.
  split; [reflexivity|]. split; [|split].
  - destruct (handle_page_fault_cases 4 4 0 RW_WRITE demo_forked
                (Pte true false 0 true) eq_refl) as (_ & _ & Hshared).
    destruct (Hshared eq_refl 2%Z eq_refl) as (i & s' & Hpf & _ & _ & Hpte &
      Hnew & Hold & _); [lia|reflexivity|by exists 2|].
    exists i, s'. split_and!; [exact Hpf|exact Hpte|exact Hnew|exact Hold].
  - destruct (handle_page_fault_cases 4 4 1 RW_WRITE demo_forked
                (Pte true false 1 false) eq_refl) as (Hnot & _).
    exact (Hnot eq_refl).
  - destruct (handle_page_fault_cases 4 4 0 RW_WRITE demo_two_pages
                (Pte true true 0 true) eq_refl) as (_ & Hexcl & _).
    destruct (Hexcl eq_refl eq_refl) as (s' & Hpf & _ & Hmc & _).
    exists s'. split; [exact Hpf|exact Hmc].
Defined.

(** ** C3 *)

Lemma conservation_counterexample :
  ∃ s, run 4 4 [AllocPage 0 RW_WRITE; AllocPage 0 RW_WRITE]
         (initial_state 4 4) = Some s ∧
       sum_mapcounts s = 2%Z ∧ nr_valid_ptes s = 1 ∧ ¬ conserved s.
Proof.
  eexists. split; [vm_compute; reflexivity|].
  split; [reflexivity|]. split; [reflexivity|].
  vm_compute. discriminate.
Qed.

Lemma conservation_legal_runs_witness :
  legal_run 4 4 demo_trace (initial_state 4 4) = true ∧
  run 4 4 demo_trace (initial_state 4 4) = Some demo_trace_end ∧
  conserved demo_trace_end.
Proof.
  assert (legal_run 4 4 demo_trace (initial_state 4 4) = true) as Hl
    by (vm_compute; reflexivity).
  assert (run 4 4 demo_trace (initial_state 4 4) = Some demo_trace_end) as Hr
    by (vm_compute; reflexivity).
  split; [exact Hl|]. split; [exact Hr|].
  exact (proj1 (conservation_legal_runs 4 4 demo_trace demo_trace_end Hl Hr)).
Defined.

(** ** C4 *)

Lemma alloc_page_private_counterexample :
  (∃ s' e, alloc_page 4 4 zero_directory_mem 0 RW_READ (initial_state 4 4) =
             Some (0%Z, s') ∧
           cur_pte s' 0 0 = Some e ∧ writable e = false ∧ private e = false) ∧
  (∃ s' e, alloc_page 4 4 zero_directory_mem 0 RW_WRITE (initial_state 4 4) =
             Some (0%Z, s') ∧
           cur_pte s' 0 0 = Some e ∧ writable e = true ∧ private e = true).
Proof.
  split; eexists _, _; (split; [vm_compute; reflexivity|]);
    (split; [vm_compute; reflexivity|]); split; reflexivity.
Qed.

Lemma alloc_page_private_is_writable_witness :
  wf_state 4 4 demo_two_pages ∧
  ∃ i s' e,
    alloc_page 4 4 zero_directory_mem 2 RW_WRITE demo_two_pages =
      Some (Z.of_nat i, s') ∧
    cur_pte s' 0 2 = Some e ∧ private e = true ∧ writable e = true.
Proof.
  assert (wf_state 4 4 demo_two_pages) as Hwf by solve_wf.
  split; [exact Hwf|].
  destruct (alloc_page_private_is_writable 4 4 zero_directory_mem 2 RW_WRITE
              demo_two_pages Hwf)
    as (i & s' & e & Ha & He & _ & _ & Hw & Hpw & Hp & _).
  { vm_compute. lia. }
  { by exists 2. }
  assert (RW_WRITE ≠ RW_READ) as Hne by discriminate.
  exists i, s', e. split; [exact Ha|]. split; [exact He|].
  split; [exact (Hp Hne)|]. rewrite <- Hpw. exact (Hp Hne).
Defined.

(** ** C5 *)

(** With zero-filled memory for the new process, a slot that is NULL in the
    parent is NULL in the child. *)
Lemma fork_null_slot_zero_memory NR_PTES_PER_PAGE dir_mem target s s' j :
  wf_pagetable NR_PTES_PER_PAGE (proc_pagetable (current s)) →
  find_process target (processes s) = None →
  switch_process NR_PTES_PER_PAGE zero_process_mem dir_mem target s = Some s' →
  outer_ptes (proc_pagetable (current s)) !! j = Some None →
  outer_ptes (proc_pagetable (current s')) !! j = Some None.
Proof.
  intros Hwf Hfind Hswitch Hj.
  rewrite switch_process_fork in Hswitch by done.
  destruct (bump_counts _ (mapcounts s)) as [mc'|]; [|done].
  injection Hswitch as <-. cbn [current proc_pagetable].
  by rewrite (fork_child_slot_lookup _ _ _ _ _ _ Hwf Hj).
Qed.

(** C5 fails on the code: the fork loop never writes the child's slot for
    a directory the parent lacks, so the slot keeps what [malloc] left in
    it.  From the initial state, where no directory is allocated, a fork
    whose process memory holds a non-NULL word in slot 1 yields a child
    with a directory in slot 1. *)
Theorem fork_child_slot_uninitialised :
  outer_ptes (proc_pagetable (current (initial_state 4 4))) !! 1 = Some None ∧
  ∃ s', switch_process 4 dirty_process_mem (λ _, zero_directory_mem) 7
          (initial_state 4 4) = Some s' ∧
        outer_ptes (proc_pagetable (current s')) !! 1 =
          Some (Some (malloc_directory 4 (λ _, Pte true true 3 true))) ∧
        cur_pte s' 1 0 = Some (Pte true true 3 true).
Proof.
  split; [reflexivity|].
  eexists. split; [vm_compute; reflexivity|]. split; reflexivity.
Qed.

(** ** C6 *)

Lemma exhaustion_counterexample :
  (∀ f, mapcounts demo_full !! f ≠ Some 0%Z) ∧
  outer_ptes (proc_pagetable (current demo_full)) !! 1 = Some None ∧
  ∃ s', alloc_page 4 4 zero_directory_mem 4 RW_WRITE demo_full =
          Some (UINT_MAX, s') ∧
        outer_ptes (proc_pagetable (current s')) !! 1 =
          Some (Some (malloc_directory 4 zero_directory_mem)) ∧
        s' ≠ demo_full.
Proof.
  split.
  { intros f. do 4 (destruct f as [|f]; [discriminate|]). discriminate. }
  split; [reflexivity|].
  eexists. split; [vm_compute; reflexivity|]. split; [reflexivity|].
  discriminate.
Qed.

Lemma exhaustion_reports_failure_witness :
  wf_state 4 4 demo_full ∧
  (∀ f, mapcounts demo_full !! f ≠ Some 0%Z) ∧
  (∃ s', alloc_page 4 4 zero_directory_mem 1 RW_WRITE demo_full =
           Some (UINT_MAX, s') ∧ s' = demo_full) ∧
  (∃ s', alloc_page 4 4 zero_directory_mem 4 RW_WRITE demo_full =
           Some (UINT_MAX, s') ∧
         mapcounts s' = mapcounts demo_full ∧
         cur_pte s' 0 0 = cur_pte demo_full 0 0) ∧
  handle_page_fault 4 4 0 RW_WRITE demo_full = Some (false, demo_full).
Proof.
  assert (wf_state 4 4 demo_full) as Hwf by solve_wf.
  assert (∀ f, mapcounts demo_full !! f ≠ Some 0%Z) as Hfull.
  { intros f. do 4 (destruct f as [|f]; [discriminate|]). discriminate. }
  split; [exact Hwf|]. split; [exact Hfull|]. split; [|split].
  - destruct (exhaustion_reports_failure 4 4 zero_directory_mem 1 RW_WRITE
                demo_full Hwf) as [(s' & slot & Hslot & Ha & _ & _ & _ & _ & _ &
                                    _ & Hsame & _) _];
      [vm_compute; lia|exact Hfull|].
    exists s'. split; [exact Ha|]. apply Hsame.
    vm_compute in Hslot. injection Hslot as <-. by eexists.
  - destruct (exhaustion_reports_failure 4 4 zero_directory_mem 4 RW_WRITE
                demo_full Hwf) as [(s' & slot & _ & Ha & Hmc & _ & _ & _ & Hpte &
                                    _) _];
      [vm_compute; lia|exact Hfull|].
    exists s'. split; [exact Ha|]. split; [exact Hmc|].
    exact (Hpte 0 0 _ eq_refl).
  - destruct (exhaustion_reports_failure 4 4 zero_directory_mem 0 RW_WRITE
                demo_full Hwf) as [_ Hpf]; [vm_compute; lia|exact Hfull|].
    apply (Hpf (Pte true false 0 true) 2%Z); [reflexivity..|lia].
Defined.

(** ** C7 *)

Lemma alloc_page_smallest_pfn_witness :
  run 4 4 [AllocPage 0 RW_WRITE; AllocPage 1 RW_READ; FreePage 0]
    (initial_state 4 4) = Some demo_freed ∧
  mapcounts demo_freed = [0; 1; 0; 0]%Z ∧
  ∃ s', alloc_page 4 4 zero_directory_mem 6 RW_READ demo_freed =
          Some (0%Z, s') ∧
        mapcounts s' !! 0 = Some 1%Z.
Proof.
  assert (run 4 4 [AllocPage 0 RW_WRITE; AllocPage 1 RW_READ; FreePage 0]
            (initial_state 4 4) = Some demo_freed) as Hrun
    by (vm_compute; reflexivity).
  split; [exact Hrun|]. split; [reflexivity|].
  destruct (alloc_page_smallest_pfn 4 4 _ demo_freed zero_directory_mem 6
              RW_READ Hrun) as (i & s' & e & Ha & Hz & Hlow & _ & _ & _ & Hone);
    [vm_compute; lia|by exists 0|].
  assert (i = 0) as ->.
  { destruct i as [|i]; [reflexivity|].
    destruct (Hlow 0); [lia|reflexivity]. }
  exists s'. split; [exact Ha|exact Hone].
Defined.

(** ** C8 *)

Lemma free_page_valid_mapping_witness :
  cur_pte demo_forked 0 0 = Some (Pte true false 0 true) ∧
  mapcounts demo_forked !! 0 = Some 2%Z ∧
  ∃ s', free_page 4 0 demo_forked = Some s' ∧
        cur_pte s' 0 0 = Some (Pte false false 0 false) ∧
        mapcounts s' !! 0 = Some 1%Z ∧
        processes s' = processes demo_forked.
Proof.
  split; [reflexivity|]. split; [reflexivity|].
  destruct (free_page_valid_mapping 4 0 demo_forked (Pte true false 0 true)
              2%Z eq_refl eq_refl eq_refl)
    as (s' & Hf & Hpte & Hc & _ & Hps & _); [lia|].
  exists s'. split; [exact Hf|]. split; [exact Hpte|].
  split; [exact Hc|exact Hps].
Defined.

(** ** C9 *)

Lemma switch_process_existing_witness :
  ∃ p rest s' s'',
    find_process 0 (processes demo_forked) = Some (p, rest) ∧
    switch_process 4 zero_process_mem (λ _, zero_directory_mem) 0 demo_forked =
      Some s' ∧
    mapcounts s' = mapcounts demo_forked ∧
    switch_process 4 zero_process_mem (λ _, zero_directory_mem) 7 s' =
      Some s'' ∧
    current s'' = current demo_forked ∧
    mapcounts s'' = mapcounts demo_forked.
Proof.
  destruct (find_process 0 (processes demo_forked)) as [[p rest]|] eqn:Hfind;
    [|discriminate].
  destruct (switch_process_existing 4 zero_process_mem
              (λ _, zero_directory_mem) zero_process_mem
              (λ _, zero_directory_mem) 0 demo_forked p rest Hfind)
    as (s' & Hs & _ & _ & _ & Hmc & _ & Hback).
  destruct Hback as (s'' & Hs'' & Hcur & _ & _ & Hmc'').
  { vm_compute in Hfind. injection Hfind as <- <-. constructor. }
  exists p, rest, s', s''.
  split; [reflexivity|]. split; [exact Hs|]. split; [exact Hmc|].
  split; [exact Hs''|]. split; [exact Hcur|exact Hmc''].
Defined.

(** ** Further properties *)

Lemma reachable_entries_ok_witness :
  run 4 4 demo_trace (initial_state 4 4) = Some demo_trace_end ∧
  read_pte (proc_pagetable (current demo_trace_end)) 1 1 =
    Some (Pte true false 3 false) ∧
  pfn (Pte true false 3 false) < 4.
Proof.
  assert (run 4 4 demo_trace (initial_state 4 4) = Some demo_trace_end) as Hr
    by (vm_compute; reflexivity).
  split; [exact Hr|]. split; [reflexivity|].
  destruct (reachable_entries_ok 4 4 demo_trace demo_trace_end
              (current demo_trace_end) 1 1 (Pte true false 3 false) Hr)
    as (_ & _ & _ & Hlt).
  { apply list_elem_of_here. }
  { reflexivity. }
  exact (Hlt eq_refl).
Defined.

Lemma reachable_operations_defined_witness :
  run 4 4 [AllocPage 0 RW_WRITE; AllocPage 1 RW_READ; SwitchProcess 7]
    (initial_state 4 4) = Some demo_forked ∧
  (is_Some (free_page 4 5 demo_forked) ↔ is_Some (cur_pte demo_forked 1 1)) ∧
  is_Some (switch_process 4 dirty_process_mem (λ _, zero_directory_mem) 9
             demo_forked).
Proof.
  assert (run 4 4 [AllocPage 0 RW_WRITE; AllocPage 1 RW_READ; SwitchProcess 7]
            (initial_state 4 4) = Some demo_forked) as Hr
    by (vm_compute; reflexivity).
  split; [exact Hr|].
  destruct (reachable_operations_defined 4 4 _ demo_forked Hr)
    as (_ & Hfree & _ & Hswitch); [lia|].
  split; [exact (Hfree 5)|].
  exact (Hswitch dirty_process_mem (λ _, zero_directory_mem) 9%Z).
Defined.

Lemma free_page_unmapped_entry_witness :
  run 4 4 [AllocPage 0 RW_WRITE; AllocPage 1 RW_READ; FreePage 0]
    (initial_state 4 4) = Some demo_freed ∧
  cur_pte demo_freed 0 0 = Some zero_pte ∧
  ∃ s', free_page 4 0 demo_freed = Some s' ∧
        mapcounts s' !! 0 = Some UINT_MAX.
Proof.
  assert (run 4 4 [AllocPage 0 RW_WRITE; AllocPage 1 RW_READ; FreePage 0]
            (initial_state 4 4) = Some demo_freed) as Hr
    by (vm_compute; reflexivity).
  split; [exact Hr|]. split; [reflexivity|].
  destruct (free_page_unmapped_entry 4 4 _ demo_freed 0 zero_pte 0%Z Hr
              eq_refl eq_refl eq_refl) as (s' & Hf & _ & Hwrap & _).
  exists s'. split; [exact Hf|exact (Hwrap eq_refl)].
Defined.

Lemma alloc_page_remap_leaks_frame_witness :
  wf_state 4 4 demo_two_pages ∧
  cur_pte demo_two_pages 0 0 = Some (Pte true true 0 true) ∧
  ∃ i s', alloc_page 4 4 zero_directory_mem 0 RW_WRITE demo_two_pages =
            Some (Z.of_nat i, s') ∧
          i ≠ 0 ∧
          mapcounts s' !! 0 = Some 1%Z ∧ mapcounts s' !! i = Some 1%Z.
Proof.
  assert (wf_state 4 4 demo_two_pages) as Hwf by solve_wf.
  split; [exact Hwf|]. split; [reflexivity|].
  destruct (alloc_page_remap_leaks_frame 4 4 zero_directory_mem 0 RW_WRITE
              demo_two_pages (Pte true true 0 true) 1%Z Hwf eq_refl eq_refl
              eq_refl)
    as (i & s' & e' & Ha & Hne & _ & _ & _ & Hold & Hnew & _).
  { discriminate. }
  { by exists 2. }
  exists i, s'. split; [exact Ha|]. split; [exact Hne|].
  split; [exact Hold|exact Hnew].
Defined.

Lemma alloc_free_roundtrip_witness :
  wf_state 4 4 demo_two_pages ∧
  cur_pte demo_two_pages 0 2 = Some zero_pte ∧
  ∃ i s1, alloc_page 4 4 zero_directory_mem 2 RW_WRITE demo_two_pages =
            Some (Z.of_nat i, s1) ∧
          free_page 4 2 s1 = Some demo_two_pages.
Proof.
  assert (wf_state 4 4 demo_two_pages) as Hwf by solve_wf.
  split; [exact Hwf|]. split; [reflexivity|].
  destruct (alloc_free_roundtrip 4 4 zero_directory_mem zero_directory_mem 2
              RW_WRITE RW_READ demo_two_pages Hwf)
    as (i & s1 & s2 & Ha & Hf & _ & _ & _ & Hsame & _).
  { vm_compute. lia. }
  { by exists 2. }
  { intros e He. vm_compute in He. by injection He as <-. }
  exists i, s1. split; [exact Ha|].
  rewrite Hf. f_equal. apply Hsame. by exists zero_pte.
Defined.

Lemma alloc_page_sentinel_iff_exhausted_witness :
  wf_state 4 4 demo_full ∧
  ∃ r s', alloc_page 4 4 zero_directory_mem 5 RW_WRITE demo_full =
            Some (r, s') ∧
          (r = UINT_MAX ↔ ∀ f, mapcounts demo_full !! f ≠ Some 0%Z).
Proof.
  assert (wf_state 4 4 demo_full) as Hwf by solve_wf.
  split; [exact Hwf|].
  destruct (alloc_page_sentinel_iff_exhausted 4 4 zero_directory_mem 5
              RW_WRITE demo_full Hwf) as (r & s' & Ha & Hiff & _).
  { vm_compute. lia. }
  { unfold UINT_MAX. lia. }
  exists r, s'. split; [exact Ha|exact Hiff].
Defined.

Lemma handle_page_fault_idempotent_witness :
  ∃ s', handle_page_fault 4 4 0 RW_WRITE demo_forked = Some (true, s') ∧
        cur_pte s' 0 0 = Some (Pte true true 2 true) ∧
        handle_page_fault 4 4 0 RW_READ s' = Some (true, s').
Proof.
  pose (s' := State (processes demo_forked)
                (Process 7 (Pagetable
                   [sample_directory (Pte true true 2 true)
                      (Pte true false 1 false) zero_pte zero_pte;
                    None; None; None]))
                PtbrCurrent [1; 2; 1; 0]%Z).
  assert (handle_page_fault 4 4 0 RW_WRITE demo_forked = Some (true, s'))
    as Hpf by (vm_compute; reflexivity).
  exists s'. split; [exact Hpf|]. split; [reflexivity|].
  destruct (handle_page_fault_idempotent 4 4 0 RW_WRITE RW_READ demo_forked
              s' (Pte true false 0 true) 2%Z eq_refl eq_refl eq_refl)
    as (e' & _ & _ & _ & _ & _ & Hagain).
  { discriminate. }
  { exact Hpf. }
  exact Hagain.
Defined.

Lemma read_only_page_fault_rejected_witness :
  wf_state 4 4 demo_two_pages ∧
  ∃ i s1, alloc_page 4 4 zero_directory_mem 2 RW_READ demo_two_pages =
            Some (Z.of_nat i, s1) ∧
          handle_page_fault 4 4 2 RW_WRITE s1 = Some (false, s1).
Proof.
  assert (wf_state 4 4 demo_two_pages) as Hwf by solve_wf.
  split; [exact Hwf|].
  destruct (read_only_page_fault_rejected 4 4 zero_directory_mem
              zero_process_mem (λ _, zero_directory_mem) 2 7%Z demo_two_pages
              Hwf) as (i & s1 & Ha & Hpf & _).
  { vm_compute. lia. }
  { by exists 2. }
  exists i, s1. split; [exact Ha|exact (Hpf RW_WRITE)].
Defined.

Lemma fork_then_write_fault_witness :
  wf_state 4 4 demo_two_pages ∧
  cur_pte demo_two_pages 0 0 = Some (Pte true true 0 true) ∧
  ∃ s1 s2 i,
    switch_process 4 zero_process_mem (λ _, zero_directory_mem) 7
      demo_two_pages = Some s1 ∧
    handle_page_fault 4 4 0 RW_WRITE s1 = Some (true, s2) ∧
    cur_pte s2 0 0 = Some (Pte true true i true) ∧
    mapcounts s2 !! i = Some 1%Z ∧ mapcounts s2 !! 0 = Some 1%Z.
Proof.
  assert (wf_state 4 4 demo_two_pages) as Hwf by solve_wf.
  split; [exact Hwf|]. split; [reflexivity|].
  destruct (fork_then_write_fault 4 4 zero_process_mem
              (λ _, zero_directory_mem) 7%Z 0 RW_WRITE demo_two_pages
              (Pte true true 0 true) 2 Hwf eq_refl)
    as (s1 & s2 & i & parent' & Hs & Hpf & _ & _ & _ & He & Hnew & Hold & _).
  { vm_compute. repeat constructor. }
  { reflexivity. }
  { reflexivity. }
  { reflexivity. }
  { reflexivity. }
  { reflexivity. }
  { reflexivity. }
  { apply (bool_decide_unpack _). vm_compute. exact I. }
  exists s1, s2, i. split; [exact Hs|]. split; [exact Hpf|].
  split; [exact He|]. split; [exact Hnew|exact Hold].
Defined.


Lemma switch_process_first_match_witness :
  switch_process 4 zero_process_mem (λ _, zero_directory_mem) 2
    (State [Process 1 (Pagetable [None; None; None; None]);
            Process 2 (Pagetable [sample_directory zero_pte zero_pte
                                    zero_pte zero_pte; None; None; None]);
            Process 2 (Pagetable [None; None; None; None])]
       (Process 0 (Pagetable [None; None; None; None]))
       PtbrCurrent [0; 0; 0; 0]%Z) =
  Some (State [Process 1 (Pagetable [None; None; None; None]);
               Process 2 (Pagetable [None; None; None; None]);
               Process 0 (Pagetable [None; None; None; None])]
          (Process 2 (Pagetable [sample_directory zero_pte zero_pte
                                   zero_pte zero_pte; None; None; None]))
          PtbrCurrent [0; 0; 0; 0]%Z).
Proof.
  apply (switch_process_first_match 4 zero_process_mem
           (λ _, zero_directory_mem)
           (State [Process 1 (Pagetable [None; None; None; None]);
                   Process 2 (Pagetable [sample_directory zero_pte zero_pte
                                           zero_pte zero_pte;
                                         None; None; None]);
                   Process 2 (Pagetable [None; None; None; None])]
              (Process 0 (Pagetable [None; None; None; None]))
              PtbrCurrent [0; 0; 0; 0]%Z)
           [Process 1 (Pagetable [None; None; None; None])]
           (Process 2 (Pagetable [sample_directory zero_pte zero_pte
                                    zero_pte zero_pte; None; None; None]))
           [Process 2 (Pagetable [None; None; None; None])]).
  - reflexivity.
  - constructor; [discriminate|constructor].
Defined.

Lemma switch_process_own_pid_forks_witness :
  wf_state 4 4 demo_two_pages ∧
  find_process 0 (processes demo_two_pages) = None ∧
  ∃ s', switch_process 4 zero_process_mem (λ _, zero_directory_mem) 0
          demo_two_pages = Some s' ∧
        pid (current s') = 0%Z ∧
        (∃ parent', processes s' = [parent'] ∧ pid parent' = 0%Z).
Proof.
  assert (wf_state 4 4 demo_two_pages) as Hwf by solve_wf.
  split; [exact Hwf|]. split; [reflexivity|].
  destruct (switch_process_own_pid_forks 4 4 zero_process_mem
              (λ _, zero_directory_mem) demo_two_pages Hwf)
    as (s' & parent' & Hs & Hpid & Hps & Hppid & _).
  { vm_compute. repeat constructor. }
  { reflexivity. }
  exists s'. split; [exact Hs|]. split; [exact Hpid|].
  exists parent'. split; [exact Hps|exact Hppid].
Defined.

Lemma fork_then_switch_back_witness :
  wf_state 4 4 demo_two_pages ∧
  switch_process 4 zero_process_mem (λ _, zero_directory_mem) 7
    demo_two_pages = Some demo_forked ∧
  ∃ s2, switch_process 4 zero_process_mem (λ _, zero_directory_mem) 0
          demo_forked = Some s2 ∧
        processes s2 = [current demo_forked] ∧
        cur_pte s2 0 0 = Some (Pte true false 0 true).
Proof.
  assert (wf_state 4 4 demo_two_pages) as Hwf by solve_wf.
  assert (switch_process 4 zero_process_mem (λ _, zero_directory_mem) 7
            demo_two_pages = Some demo_forked) as Hs1
    by (vm_compute; reflexivity).
  split; [exact Hwf|]. split; [exact Hs1|].
  destruct (fork_then_switch_back 4 4 zero_process_mem
              (λ _, zero_directory_mem) zero_process_mem
              (λ _, zero_directory_mem) 7%Z demo_two_pages demo_forked Hwf
              eq_refl eq_refl Hs1)
    as (s2 & Hs2 & _ & Hps & _ & _ & Hall).
  exists s2. split; [exact Hs2|]. split; [exact Hps|].
  exact (Hall 0 0 (Pte true true 0 true) eq_refl).
Defined.

Lemma alloc_page_frames_increase_witness :
  wf_state 4 4 (initial_state 4 4) ∧
  ∃ r1 s1 r2 s2,
    alloc_page 4 4 zero_directory_mem 0 RW_WRITE (initial_state 4 4) =
      Some (r1, s1) ∧
    alloc_page 4 4 zero_directory_mem 1 RW_READ s1 = Some (r2, s2) ∧
    (r1 < r2)%Z.
Proof.
  pose proof (wf_initial_state 4 4) as Hwf.
  split; [exact Hwf|].
  pose (s1 := State []
                (Process 0 (Pagetable
                   [sample_directory (Pte true true 0 true) zero_pte zero_pte
                      zero_pte; None; None; None]))
                PtbrCurrent [1; 0; 0; 0]%Z).
  assert (alloc_page 4 4 zero_directory_mem 0 RW_WRITE (initial_state 4 4) =
            Some (0%Z, s1)) as H1 by (vm_compute; reflexivity).
  assert (alloc_page 4 4 zero_directory_mem 1 RW_READ s1 =
            Some (1%Z, demo_two_pages)) as H2 by (vm_compute; reflexivity).
  exists 0%Z, s1, 1%Z, demo_two_pages.
  split; [exact H1|]. split; [exact H2|].
  destruct (alloc_page_frames_increase 4 4 zero_directory_mem
              zero_directory_mem 0 1 RW_WRITE RW_READ (initial_state 4 4)
              0%Z s1 1%Z demo_two_pages Hwf) as [Hlt|(Hmax & _)].
  { unfold UINT_MAX. lia. }
  { exact H1. }
  { exact H2. }
  - exact Hlt.
  - discriminate Hmax.
Defined.

Lemma handle_page_fault_false_iff_witness :
  cur_pte demo_full 0 0 = Some (Pte true false 0 true) ∧
  handle_page_fault 4 4 0 RW_WRITE demo_full = Some (false, demo_full) ∧
  ∀ f, mapcounts demo_full !! f ≠ Some 0%Z.
Proof.
  assert (handle_page_fault 4 4 0 RW_WRITE demo_full =
            Some (false, demo_full)) as Hpf by (vm_compute; reflexivity).
  split; [reflexivity|]. split; [exact Hpf|].
  destruct (handle_page_fault_false_iff 4 4 0 RW_WRITE demo_full
              (Pte true false 0 true) 2%Z false demo_full eq_refl eq_refl
              eq_refl Hpf) as [[Hfwd _] _].
  destruct (Hfwd eq_refl) as [Hp|[_ Hall]]; [discriminate Hp|exact Hall].
Defined.

Lemma handle_page_fault_unmapped_witness :
  run 4 4 [AllocPage 0 RW_WRITE; AllocPage 1 RW_READ; FreePage 0]
    (initial_state 4 4) = Some demo_freed ∧
  cur_pte demo_freed 0 0 = Some zero_pte ∧
  handle_page_fault 4 4 0 RW_WRITE demo_freed = Some (false, demo_freed).
Proof.
  assert (run 4 4 [AllocPage 0 RW_WRITE; AllocPage 1 RW_READ; FreePage 0]
            (initial_state 4 4) = Some demo_freed) as Hr
    by (vm_compute; reflexivity).
  split; [exact Hr|]. split; [reflexivity|].
  exact (handle_page_fault_unmapped 4 4 _ demo_freed 0 RW_WRITE zero_pte Hr
           eq_refl eq_refl).
Defined.
